(** * Meraki MCP: the RF / WiFi diagnostic pipeline

    A shallow embedding of
      - [meraki_mcp/rf/spectrum.py] and [meraki_mcp/rf/analyzer.py]
        (spectrum data model, noise floor, interference rules, channel
        quality, batch analysis), and
      - [meraki_mcp/wifi/wifi_troubleshooter.py]
        (issue detection, API validation, recommendations, confidence),
    followed by the properties of the design document that concern them.

    Conventions of the embedding.
      - Python [float] values are embedded as exact rationals [Q]; the
        arithmetic on them is exact (no rounding).  [int(x)] on a float is
        truncation toward zero, [py_int].  What depends on the rounding of
        binary64 arithmetic is stated on a second embedding, over
        primitive floats, in [Binary64].
      - Python [str] values are embedded as [string] (sequences of 8-bit
        characters); [str.lower] is the ASCII lower-casing [lower].
      - A Python dict read with [.get] is embedded as a record whose fields
        are [option]s: [None] is an absent key.
      - A call that can raise returns an [Outcome]; code that interleaves
        calls to the outside world with local mutation lives in the
        state-and-exception monad [M]. *)

From Stdlib Require Import ZArith QArith Qround Qminmax Lqa.
From Stdlib Require Import String Ascii List Lia Sorting.Sorted Permutation.
From Stdlib Require Floats.PrimFloat Floats.FloatOps Floats.SpecFloat.
From Stdlib Require Numbers.Cyclic.Int63.Uint63.
From stdpp Require Import gmap strings pretty.
Import ListNotations.

Local Open Scope Z_scope.

(** ** Python primitives *)

(** Exceptions.  Every class below derives from Python's [Exception]. *)
Inductive Exn : Type :=
| TypeError (msg : string)
| ValueError (msg : string)
| IndexError (msg : string)
| KeyError (key : string)
| ApiError (msg : string)
| KnowledgeBaseError (msg : string)
| WifiTroubleshootingError (msg : string)
| RFAnalysisError (msg : string) (details : list (string * list string)).

(** [str(e)] *)
Definition exn_str (e : Exn) : string :=
  match e with
  | TypeError m | ValueError m | IndexError m | ApiError m
  | KnowledgeBaseError m | WifiTroubleshootingError m => m
  | KeyError k => "'" +:+ k +:+ "'"
  | RFAnalysisError m _ => m
  end.

Inductive Outcome (A : Type) : Type :=
| Return (a : A)
| Raise (e : Exn).
Arguments Return {A} a.
Arguments Raise {A} e.

Definition returns {A} (o : Outcome A) : bool :=
  match o with Return _ => true | Raise _ => false end.

(** [int(x)] for a float [x]: truncation toward zero. *)
Definition py_int (q : Q) : Z := Z.quot (Qnum q) (Zpos (Qden q)).

(** [round(x)] for a float [x]: nearest integer, ties to even. *)
Definition py_round (q : Q) : Z :=
  let f := Qfloor q in
  let r := (q - inject_Z f)%Q in
  match (r ?= 1 # 2)%Q with
  | Lt => f
  | Gt => f + 1
  | Eq => if Z.even f then f else f + 1
  end.

Definition Qltb (x y : Q) : bool := negb (Qle_bool y x).

(** [sum(xs)] over floats: starts from 0 and adds from the left. *)
Definition py_sum (xs : list Q) : Q := fold_left Qplus xs 0%Q.

(** [len(xs)] *)
Definition len {A} (xs : list A) : Z := Z.of_nat (length xs).

(** [sorted(xs)] over floats, ascending. *)
Fixpoint insert_sorted (x : Q) (l : list Q) : list Q :=
  match l with
  | [] => [x]
  | y :: l' => if Qle_bool x y then x :: l else y :: insert_sorted x l'
  end.

Definition py_sorted (xs : list Q) : list Q := fold_right insert_sorted [] xs.

(** [xs[i]] for [i >= 0]; out of range raises [IndexError]. *)
Definition py_index {A} (xs : list A) (i : Z) : Outcome A :=
  match nth_error xs (Z.to_nat i) with
  | Some x => Return x
  | None => Raise (IndexError "list index out of range")
  end.

(** [str(n)] for an int. *)
Definition int_str (n : Z) : string := pretty n.

(** ** [rf/spectrum.py] *)

Module Spectrum.

Inductive FrequencyBand : Type := BAND_2_4GHZ | BAND_5GHZ | BAND_6GHZ.

(** [FrequencyBand.value] *)
Definition band_value (b : FrequencyBand) : string :=
  match b with
  | BAND_2_4GHZ => "2.4GHz"
  | BAND_5GHZ => "5GHz"
  | BAND_6GHZ => "6GHz"
  end.

Inductive ChannelWidth : Type :=
  WIDTH_20MHZ | WIDTH_40MHZ | WIDTH_80MHZ | WIDTH_160MHZ.

(** [ChannelWidth.value] *)
Definition width_value (w : ChannelWidth) : Z :=
  match w with
  | WIDTH_20MHZ => 20
  | WIDTH_40MHZ => 40
  | WIDTH_80MHZ => 80
  | WIDTH_160MHZ => 160
  end.

Record SpectrumDataPoint : Type := {
  frequency : Q;
  power : Q;
  utilization : Q;
  timestamp : Z
}.

Record SpectrumData : Type := {
  access_point_serial : string;
  band : FrequencyBand;
  channel : Z;
  channel_width : ChannelWidth;
  data_points : list SpectrumDataPoint;
  start_time : Z;
  end_time : Z
}.

(** [SpectrumData.get_average_utilization] *)
Definition get_average_utilization (sd : SpectrumData) : Q :=
  match data_points sd with
  | [] => 0
  | _ :: _ =>
      let total_utilization := py_sum (map utilization (data_points sd)) in
      (total_utilization / inject_Z (len (data_points sd)))%Q
  end.

Record InterferenceSource : Type := {
  type : string;
  frequency_range : Q * Q;
  avg_power : Q;
  impact_level : Z;
  confidence : Z;
  description : string
}.

Record SpectrumAnalysis : Type := {
  spectrum_data : SpectrumData;
  noise_floor : Q;
  interference_sources : list InterferenceSource;
  channel_quality : Z;
  recommendations : list string;
  summary : string
}.

End Spectrum.

(** ** [rf/analyzer.py] *)

Module Analyzer.
Import Spectrum.

(** Truth value of a list: non-empty. *)
Definition truthy {A} (xs : list A) : bool :=
  match xs with [] => false | _ :: _ => true end.

Section RFAnalyzer.

(** Python's conversions of a float to text: [str(x)] as an f-string
    field [{x}] renders it, and [format(x, ".1f")]. *)
Variable float_str : Q -> string.
Variable float_fmt1 : Q -> string.

(** [RFAnalyzer._calculate_noise_floor] *)
Definition _calculate_noise_floor (sd : SpectrumData) : Outcome Q :=
  match data_points sd with
  | [] => Return (-95)%Q
  | _ :: _ =>
      let powers := py_sorted (map power (data_points sd)) in
      let index := Z.max 0 (py_int (inject_Z (len powers) * (1 # 10)) - 1) in
      py_index powers index
  end.

(** [RFAnalyzer._check_for_2_4ghz_interference] *)
Definition _check_for_2_4ghz_interference
    (sd : SpectrumData) (noise_floor : Q) : list InterferenceSource :=
  let interference_sources := [] in
  let microwave_affected_data_points :=
    List.filter
      (fun dp => Qle_bool 2445 (frequency dp) && Qle_bool (frequency dp) 2465
                 && Qltb (noise_floor + 10) (power dp))
      (data_points sd) in
  let interference_sources :=
    if truthy microwave_affected_data_points
       && (5 <? len microwave_affected_data_points)
    then
      let avg_power :=
        (py_sum (map power microwave_affected_data_points)
         / inject_Z (len microwave_affected_data_points))%Q in
      let impact_level := Z.min 100 (py_int ((avg_power - noise_floor) * 5)) in
      interference_sources ++
        [ {| type := "microwave";
             frequency_range := (2445, 2465)%Q;
             avg_power := avg_power;
             impact_level := impact_level;
             confidence := 75;
             description := "Possible microwave oven interference detected" |} ]
    else interference_sources in
  let bluetooth_affected_data_points :=
    List.filter
      (fun dp => Qle_bool 2402 (frequency dp) && Qle_bool (frequency dp) 2480
                 && Qltb (noise_floor + 5) (power dp))
      (data_points sd) in
  let interference_sources :=
    if truthy bluetooth_affected_data_points
       && (10 <? len bluetooth_affected_data_points)
    then
      let avg_power :=
        (py_sum (map power bluetooth_affected_data_points)
         / inject_Z (len bluetooth_affected_data_points))%Q in
      let impact_level := Z.min 100 (py_int ((avg_power - noise_floor) * 3)) in
      interference_sources ++
        [ {| type := "bluetooth";
             frequency_range := (2402, 2480)%Q;
             avg_power := avg_power;
             impact_level := impact_level;
             confidence := 65;
             description := "Bluetooth device interference detected" |} ]
    else interference_sources in
  interference_sources.

(** [RFAnalyzer._check_for_5ghz_interference] *)
Definition _check_for_5ghz_interference
    (sd : SpectrumData) (noise_floor : Q) : list InterferenceSource :=
  let interference_sources := [] in
  let radar_affected_data_points :=
    List.filter
      (fun dp => Qle_bool 5250 (frequency dp) && Qle_bool (frequency dp) 5350
                 && Qltb (noise_floor + 15) (power dp))
      (data_points sd) in
  let interference_sources :=
    if truthy radar_affected_data_points
       && (3 <? len radar_affected_data_points)
    then
      let avg_power :=
        (py_sum (map power radar_affected_data_points)
         / inject_Z (len radar_affected_data_points))%Q in
      let impact_level := Z.min 100 (py_int ((avg_power - noise_floor) * 4)) in
      interference_sources ++
        [ {| type := "radar";
             frequency_range := (5250, 5350)%Q;
             avg_power := avg_power;
             impact_level := impact_level;
             confidence := 80;
             description := "Possible radar/DFS interference detected" |} ]
    else interference_sources in
  interference_sources.

(** [RFAnalyzer._check_for_6ghz_interference] *)
Definition _check_for_6ghz_interference
    (sd : SpectrumData) (noise_floor : Q) : list InterferenceSource := [].

(** [RFAnalyzer._identify_interference] *)
Definition _identify_interference
    (sd : SpectrumData) (noise_floor : Q) : list InterferenceSource :=
  let interference_sources := [] in
  match band sd with
  | BAND_2_4GHZ =>
      interference_sources ++ _check_for_2_4ghz_interference sd noise_floor
  | BAND_5GHZ =>
      interference_sources ++ _check_for_5ghz_interference sd noise_floor
  | BAND_6GHZ =>
      interference_sources ++ _check_for_6ghz_interference sd noise_floor
  end.

(** [RFAnalyzer._evaluate_channel_quality] *)
Definition _evaluate_channel_quality
    (sd : SpectrumData) (noise_floor : Q)
    (interference_sources : list InterferenceSource) : Z :=
  let quality_score := 100 in
  let quality_score :=
    if Qltb (-85) noise_floor
    then quality_score - Z.min 30 (py_int ((noise_floor + 85) * 3))
    else quality_score in
  let avg_utilization := get_average_utilization sd in
  let quality_score :=
    if Qltb 20 avg_utilization
    then quality_score - Z.min 40 (py_int (avg_utilization / 2))
    else quality_score in
  let quality_score :=
    fold_left
      (fun quality_score source =>
         quality_score
         - Z.min 30 (py_int (inject_Z (impact_level source) / 3)))
      interference_sources quality_score in
  Z.max 0 (Z.min 100 quality_score).

(** [RFAnalyzer._generate_recommendations] *)
Definition _generate_recommendations
    (sd : SpectrumData) (noise_floor : Q)
    (interference_sources : list InterferenceSource)
    (channel_quality : Z) : list string :=
  let recommendations := [] in
  let recommendations :=
    if channel_quality <? 40
    then recommendations ++
           [ "Consider changing the channel. Current channel "
             +:+ int_str (channel sd) +:+ " has poor quality ("
             +:+ int_str channel_quality +:+ "/100)." ]
    else recommendations in
  let recommendations :=
    if Qltb (-80) noise_floor
    then recommendations ++
           [ "High noise floor detected (" +:+ float_str noise_floor
             +:+ " dBm). Consider identifying and removing nearby interference sources." ]
    else recommendations in
  let recommendations :=
    fold_left
      (fun recommendations source =>
         if String.eqb (type source) "microwave" then
           recommendations ++
             [ "Microwave oven interference detected. Consider moving the AP further from kitchen areas or switching to 5 GHz operations." ]
         else if String.eqb (type source) "bluetooth" then
           recommendations ++
             [ "Bluetooth interference detected. Consider moving Bluetooth devices away from the AP or switching to 5 GHz operations." ]
         else if String.eqb (type source) "radar" then
           recommendations ++
             [ "Radar/DFS interference detected. Consider using a non-DFS channel if stable operation is required." ]
         else recommendations)
      interference_sources recommendations in
  let recommendations :=
    match channel_width sd with
    | WIDTH_80MHZ =>
        if channel_quality <? 60
        then recommendations ++
               [ "Consider reducing channel width from 80 MHz to 40 MHz to reduce susceptibility to interference." ]
        else recommendations
    | WIDTH_160MHZ =>
        if channel_quality <? 70
        then recommendations ++
               [ "Consider reducing channel width from 160 MHz to 80 MHz or 40 MHz to reduce susceptibility to interference." ]
        else recommendations
    | _ => recommendations
    end in
  let recommendations :=
    match band sd with
    | BAND_2_4GHZ =>
        if channel_quality <? 50
        then recommendations ++
               [ "Poor 2.4 GHz performance detected. Consider enabling band steering to encourage clients to use 5 GHz when possible." ]
        else recommendations
    | _ => recommendations
    end in
  recommendations.

(** [enumerate(xs, 1)] rendered as the lines ["  i. " + f x]. *)
Fixpoint numbered_lines {A} (f : A -> string) (i : Z) (xs : list A)
  : list string :=
  match xs with
  | [] => []
  | x :: xs' =>
      ("  " +:+ int_str i +:+ ". " +:+ f x) :: numbered_lines f (i + 1) xs'
  end.

(** ["\n".join(parts)] *)
Fixpoint join_lines (parts : list string) : string :=
  match parts with
  | [] => ""
  | [p] => p
  | p :: ps => p +:+ String "010"%char (join_lines ps)
  end.

(** [RFAnalyzer._create_analysis_summary] *)
Definition _create_analysis_summary
    (sd : SpectrumData) (noise_floor : Q)
    (interference_sources : list InterferenceSource)
    (channel_quality : Z) (recommendations : list string) : string :=
  let ap_info :=
    "AP " +:+ access_point_serial sd +:+ " operating on "
    +:+ band_value (band sd) +:+ " band, channel " +:+ int_str (channel sd)
    +:+ ", " +:+ int_str (width_value (channel_width sd)) +:+ " MHz width" in
  let quality_rating :=
    if 80 <=? channel_quality then "Excellent"
    else if 60 <=? channel_quality then "Good"
    else if 40 <=? channel_quality then "Fair" else "Poor" in
  let interference_summary :=
    if truthy interference_sources
    then "Detected " +:+ int_str (len interference_sources)
         +:+ " interference sources."
    else "No significant interference detected." in
  let summary_parts :=
    [ "RF Analysis Summary for " +:+ ap_info;
      "Channel Quality: " +:+ int_str channel_quality +:+ "/100 ("
      +:+ quality_rating +:+ ")";
      "Noise Floor: " +:+ float_str noise_floor +:+ " dBm";
      "Average Utilization: " +:+ float_fmt1 (get_average_utilization sd)
      +:+ "%";
      interference_summary ] in
  let summary_parts :=
    if truthy interference_sources
    then summary_parts ++ [ "Interference Sources:" ] ++
           numbered_lines
             (fun source =>
                description source +:+ " (Impact: "
                +:+ int_str (impact_level source) +:+ "/100, Confidence: "
                +:+ int_str (confidence source) +:+ "%)")
             1 interference_sources
    else summary_parts in
  let summary_parts :=
    if truthy recommendations
    then summary_parts ++ [ "Recommendations:" ] ++
           numbered_lines (fun rec => rec) 1 recommendations
    else summary_parts in
  join_lines summary_parts.

(** [RFAnalyzer.analyze_spectrum]: any exception of the body is re-raised
    as [RFAnalysisError]. *)
Definition analyze_spectrum (sd : SpectrumData) : Outcome SpectrumAnalysis :=
  match _calculate_noise_floor sd with
  | Raise e =>
      Raise (RFAnalysisError
               ("Failed to analyze spectrum data: " +:+ exn_str e) [])
  | Return noise_floor =>
      let interference_sources := _identify_interference sd noise_floor in
      let channel_quality :=
        _evaluate_channel_quality sd noise_floor interference_sources in
      let recommendations :=
        _generate_recommendations
          sd noise_floor interference_sources channel_quality in
      let summary :=
        _create_analysis_summary
          sd noise_floor interference_sources channel_quality
          recommendations in
      Return {| spectrum_data := sd;
                noise_floor := noise_floor;
                interference_sources := interference_sources;
                channel_quality := channel_quality;
                recommendations := recommendations;
                summary := summary |}
  end.

End RFAnalyzer.

(** [RFAnalyzer.batch_analyze].  The method calls [self.analyze_spectrum]
    on every item; the bound method is the first argument here.  Only
    [RFAnalysisError] is caught; any other exception leaves the loop. *)
Section Batch.

Variable self_analyze_spectrum : SpectrumData -> Outcome SpectrumAnalysis.

Definition batch_step
    (acc : Outcome (gmap string SpectrumAnalysis * list string))
    (sd : SpectrumData)
  : Outcome (gmap string SpectrumAnalysis * list string) :=
  match acc with
  | Raise e => Raise e
  | Return (results, errors) =>
      match self_analyze_spectrum sd with
      | Return analysis =>
          Return (<[access_point_serial sd := analysis]> results, errors)
      | Raise (RFAnalysisError m d) =>
          Return (results,
                  errors ++
                    [ "Error analyzing AP " +:+ access_point_serial sd
                      +:+ ": " +:+ exn_str (RFAnalysisError m d) ])
      | Raise e => Raise e
      end
  end.

Definition batch_analyze (spectrum_data_list : list SpectrumData)
  : Outcome (gmap string SpectrumAnalysis) :=
  match fold_left batch_step spectrum_data_list (Return (∅, [])) with
  | Raise e => Raise e
  | Return (results, errors) =>
      if truthy errors && bool_decide (results = ∅)
      then Raise (RFAnalysisError
                    ("Batch analysis failed for all "
                     +:+ int_str (len spectrum_data_list)
                     +:+ " access points")
                    [ ("errors", errors) ])
      else Return results
  end.

End Batch.

End Analyzer.

(** ** [rf/analyzer.py] over binary64 *)

(** Python's [float] is the IEEE 754 binary64 format: every operation
    rounds to the nearest representable number, and [inf] and [nan] are
    values.  The noise floor and the 2.4 GHz check are embedded here a
    second time, over Rocq's primitive binary64 numbers, for what depends
    on the rounding.  A result [None] stands for a call that raises. *)
Module Binary64.
Import Spectrum PrimFloat.

(** The float of a Python [int]; exact below [2^53] in absolute value. *)
Definition float_of_int (n : Z) : float :=
  if 0 <=? n then of_uint63 (Uint63.of_Z n)
  else (- of_uint63 (Uint63.of_Z (- n)))%float.

(** [int(x)]: truncation toward zero; [OverflowError] on an infinity and
    [ValueError] on a NaN. *)
Definition py_int (x : float) : option Z :=
  match FloatOps.Prim2SF x with
  | SpecFloat.S754_zero _ => Some 0
  | SpecFloat.S754_finite s m e =>
      let n :=
        if 0 <=? e then Z.shiftl (Zpos m) e else Z.shiftr (Zpos m) (- e) in
      Some (if s then - n else n)
  | SpecFloat.S754_infinity _ => None
  | SpecFloat.S754_nan => None
  end.

(** [sum(xs)] over floats as CPython computes it up to version 3.11:
    from 0, one rounded addition per item, left to right. *)
Definition py_sum (xs : list float) : float := fold_left add xs 0%float.

(** [sorted(xs)] over floats, ascending and stable. *)
Fixpoint insert_sorted (x : float) (l : list float) : list float :=
  match l with
  | [] => [x]
  | y :: l' => if (y <? x)%float then y :: insert_sorted x l' else x :: l
  end.

Definition py_sorted (xs : list float) : list float :=
  fold_right insert_sorted [] xs.

Record SpectrumDataPoint : Type := {
  frequency : float;
  power : float;
  utilization : float;
  timestamp : Z
}.

Record SpectrumData : Type := {
  access_point_serial : string;
  band : FrequencyBand;
  channel : Z;
  channel_width : ChannelWidth;
  data_points : list SpectrumDataPoint;
  start_time : Z;
  end_time : Z
}.

Record InterferenceSource : Type := {
  type : string;
  frequency_range : Z * Z;
  avg_power : float;
  impact_level : Z;
  confidence : Z;
  description : string
}.

(** [RFAnalyzer._calculate_noise_floor]; the literal [0.1] is the float
    [0x1.999999999999ap-4]. *)
Definition _calculate_noise_floor (sd : SpectrumData) : option float :=
  match data_points sd with
  | [] => Some (-95)%float
  | _ :: _ =>
      let powers := py_sorted (map power (data_points sd)) in
      match py_int (float_of_int (len powers) * 0x1.999999999999ap-4)%float
      with
      | Some tenth =>
          let index := Z.max 0 (tenth - 1) in
          nth_error powers (Z.to_nat index)
      | None => None
      end
  end.

(** [RFAnalyzer._check_for_2_4ghz_interference] *)
Definition _check_for_2_4ghz_interference
    (sd : SpectrumData) (noise_floor : float)
  : option (list InterferenceSource) :=
  let interference_sources := [] in
  let microwave_affected_data_points :=
    List.filter
      (fun dp => (2445 <=? frequency dp)%float
                 && (frequency dp <=? 2465)%float
                 && (noise_floor + 10 <? power dp)%float)
      (data_points sd) in
  match
    (if Analyzer.truthy microwave_affected_data_points
        && (5 <? len microwave_affected_data_points)
     then
       let avg_power :=
         (py_sum (map power microwave_affected_data_points)
          / float_of_int (len microwave_affected_data_points))%float in
       match py_int ((avg_power - noise_floor) * 5)%float with
       | Some product =>
           let impact_level := Z.min 100 product in
           Some (interference_sources ++
                   [ {| type := "microwave";
                        frequency_range := (2445, 2465);
                        avg_power := avg_power;
                        impact_level := impact_level;
                        confidence := 75;
                        description :=
                          "Possible microwave oven interference detected" |} ])
       | None => None
       end
     else Some interference_sources)
  with
  | None => None
  | Some interference_sources =>
      let bluetooth_affected_data_points :=
        List.filter
          (fun dp => (2402 <=? frequency dp)%float
                     && (frequency dp <=? 2480)%float
                     && (noise_floor + 5 <? power dp)%float)
          (data_points sd) in
      if Analyzer.truthy bluetooth_affected_data_points
         && (10 <? len bluetooth_affected_data_points)
      then
        let avg_power :=
          (py_sum (map power bluetooth_affected_data_points)
           / float_of_int (len bluetooth_affected_data_points))%float in
        match py_int ((avg_power - noise_floor) * 3)%float with
        | Some product =>
            let impact_level := Z.min 100 product in
            Some (interference_sources ++
                    [ {| type := "bluetooth";
                         frequency_range := (2402, 2480);
                         avg_power := avg_power;
                         impact_level := impact_level;
                         confidence := 65;
                         description :=
                           "Bluetooth device interference detected" |} ])
        | None => None
        end
      else Some interference_sources
  end.

(** *** A sample input *)


End Binary64.

(** ** Python strings *)

(** [c.lower()] on an ASCII character. *)
Definition lower_char (c : ascii) : ascii :=
  let n := N_of_ascii c in
  if ((65 <=? n) && (n <=? 90))%N then ascii_of_N (n + 32) else c.

(** [s.lower()] *)
Fixpoint lower (s : string) : string :=
  match s with
  | EmptyString => EmptyString
  | String c s' => String (lower_char c) (lower s')
  end.

(** [needle in hay] on strings: [needle] occurs as a substring. *)
Fixpoint str_in (needle hay : string) : bool :=
  String.prefix needle hay
  || match hay with
     | EmptyString => false
     | String _ hay' => str_in needle hay'
     end.

(** [any(term in s for term in terms)] *)
Definition any_in (terms : list string) (s : string) : bool :=
  existsb (fun term => str_in term s) terms.

(** [x in xs] on a list of strings. *)
Definition str_mem (x : string) (xs : list string) : bool :=
  existsb (String.eqb x) xs.

(** Truth value of a string: non-empty. *)
Definition str_truthy (s : string) : bool :=
  match s with EmptyString => false | String _ _ => true end.

(** [sep.join(parts)] *)
Fixpoint str_join (sep : string) (parts : list string) : string :=
  match parts with
  | [] => ""
  | [p] => p
  | p :: ps => p +:+ sep +:+ str_join sep ps
  end.

(** The character class [[A-Za-z0-9_-]]. *)
Definition is_name_char (c : ascii) : bool :=
  let n := N_of_ascii c in
  (((65 <=? n) && (n <=? 90)) || ((97 <=? n) && (n <=? 122))
   || ((48 <=? n) && (n <=? 57)) || (n =? 95) || (n =? 45))%N.

Fixpoint take_while (f : ascii -> bool) (s : string) : string :=
  match s with
  | EmptyString => EmptyString
  | String c s' => if f c then String c (take_while f s') else EmptyString
  end.

Fixpoint str_drop (n : nat) (s : string) : string :=
  match n, s with
  | O, _ => s
  | S n', String _ s' => str_drop n' s'
  | S _, EmptyString => EmptyString
  end.

(** [re.search(r'connect to ([A-Za-z0-9_-]+)', s)]: [group(1)] of the
    leftmost match, the longest run of name characters after the literal. *)
Fixpoint search_connect_to (s : string) : option string :=
  let here :=
    if String.prefix "connect to " s
    then
      let g := take_while is_name_char (str_drop 11 s) in
      if str_truthy g then Some g else None
    else None in
  match here with
  | Some g => Some g
  | None =>
      match s with
      | EmptyString => None
      | String _ s' => search_connect_to s'
      end
  end.

(** ** State and exceptions *)

(** A computation over a mutable state [S] that returns or raises; the
    state changes made before an exception survive it, as the mutations of
    Python objects do. *)
Definition M (S A : Type) : Type := S -> Outcome A * S.

Definition ret {S A} (a : A) : M S A := fun s => (Return a, s).

Definition raise {S A} (e : Exn) : M S A := fun s => (Raise e, s).

Definition bind {S A B} (m : M S A) (k : A -> M S B) : M S B :=
  fun s =>
    match m s with
    | (Return a, s') => k a s'
    | (Raise e, s') => (Raise e, s')
    end.

(** [try: body  except Exception as e: handler e] *)
Definition try_except {S A} (body : M S A) (handler : Exn -> M S A) : M S A :=
  fun s =>
    match body s with
    | (Return a, s') => (Return a, s')
    | (Raise e, s') => handler e s'
    end.

Definition lift {S A} (o : Outcome A) : M S A := fun s => (o, s).

Declare Scope monad_scope.
Delimit Scope monad_scope with monad.
Notation "x <- m ;; k" := (bind m (fun x => k))
  (at level 100, m at next level, right associativity) : monad_scope.
Notation "m ;;; k" := (bind m (fun _ => k))
  (at level 100, right associativity) : monad_scope.

(** A frame of local variables [L] on top of the outside world [W]. *)
Definition await {W L A} (call : M W A) : M (W * L) A :=
  fun '(w, l) => let '(o, w') := call w in (o, (w', l)).

Definition locals {W L} : M (W * L) L := fun '(w, l) => (Return l, (w, l)).

Definition update {W L} (f : L -> L) : M (W * L) unit :=
  fun '(w, l) => (Return tt, (w, f l)).

(** Runs [body] in a fresh frame and hands back the frame it leaves. *)
Definition frame {W L A} (init : L) (body : M (W * L) A) : M W (A * L) :=
  fun w =>
    match body (w, init) with
    | (Return a, (w', l)) => (Return (a, l), w')
    | (Raise e, (w', _)) => (Raise e, w')
    end.

(** Bind on plain outcomes. *)
Definition obind {A B} (o : Outcome A) (k : A -> Outcome B) : Outcome B :=
  match o with
  | Return a => k a
  | Raise e => Raise e
  end.

Declare Scope outcome_scope.
Delimit Scope outcome_scope with outcome.
Notation "x <- o ;; k" := (obind o (fun x => k))
  (at level 100, o at next level, right associativity) : outcome_scope.

(** ** [wifi/wifi_troubleshooter.py]: data *)

Module Wifi.
Import Analyzer.

(** A knowledge-base reference, a [Dict[str, str]] with a title and a url. *)
Record Reference : Type := { ref_title : string; ref_url : string }.

#[global] Instance Reference_eq_dec : EqDecision Reference.
Proof. solve_decision. Defined.

(** *** Records returned by the dashboard API *)

(** A device of [get_network_devices]; keys [model], [status], [name],
    [serial], [tags]. *)
Record Device : Type := {
  dev_model : option string;
  dev_status : option string;
  dev_name : option string;
  dev_serial : option string;
  dev_tags : option (list string)
}.

(** A radio of [get_device_wireless_status]; keys [status], [band],
    [channelUtilization]. *)
Record Radio : Type := {
  radio_status : option string;
  radio_band : option string;
  radio_channelUtilization : option Z
}.

Record WirelessStatus : Type := { radios : option (list Radio) }.

(** A client of [get_network_clients]; keys [ssid], [signal], [protocol]. *)
Record NetworkClient : Type := {
  client_ssid : option string;
  client_signal : option Z;
  client_protocol : option string
}.

Record FailedConnection : Type := { failureReason : option string }.

(** The SSID configuration of [get_network_wireless_ssid]; keys [enabled],
    [hidden], [authMode], and whether [radiusServers] is present. *)
Record SsidDetails : Type := {
  det_enabled : option bool;
  det_hidden : option bool;
  det_authMode : option string;
  det_radiusServers : bool
}.

(** *** [WifiIssue] *)

(** [validation_details]: the keys [_validate_with_api] may set. *)
Record ValidationDetails : Type := {
  ssid_enabled : option bool;
  ssid_visible : option bool;
  auth_type : option (option string);
  radius_configured : option bool;
  ap_status : option WirelessStatus;
  failed_connections : option (list FailedConnection)
}.

(** [{}] *)
Definition no_details : ValidationDetails :=
  {| ssid_enabled := None; ssid_visible := None; auth_type := None;
     radius_configured := None; ap_status := None;
     failed_connections := None |}.

(** [validation_details[key] = value] *)
Definition with_ssid_enabled (b : bool) (d : ValidationDetails)
  : ValidationDetails :=
  {| ssid_enabled := Some b; ssid_visible := ssid_visible d;
     auth_type := auth_type d; radius_configured := radius_configured d;
     ap_status := ap_status d; failed_connections := failed_connections d |}.

Definition with_ssid_visible (b : bool) (d : ValidationDetails)
  : ValidationDetails :=
  {| ssid_enabled := ssid_enabled d; ssid_visible := Some b;
     auth_type := auth_type d; radius_configured := radius_configured d;
     ap_status := ap_status d; failed_connections := failed_connections d |}.

Definition with_auth_type (a : option string) (d : ValidationDetails)
  : ValidationDetails :=
  {| ssid_enabled := ssid_enabled d; ssid_visible := ssid_visible d;
     auth_type := Some a; radius_configured := radius_configured d;
     ap_status := ap_status d; failed_connections := failed_connections d |}.

Definition with_radius_configured (b : bool) (d : ValidationDetails)
  : ValidationDetails :=
  {| ssid_enabled := ssid_enabled d; ssid_visible := ssid_visible d;
     auth_type := auth_type d; radius_configured := Some b;
     ap_status := ap_status d; failed_connections := failed_connections d |}.

Definition with_ap_status (s : WirelessStatus) (d : ValidationDetails)
  : ValidationDetails :=
  {| ssid_enabled := ssid_enabled d; ssid_visible := ssid_visible d;
     auth_type := auth_type d; radius_configured := radius_configured d;
     ap_status := Some s; failed_connections := failed_connections d |}.

Definition with_failed_connections
    (fcs : list FailedConnection) (d : ValidationDetails)
  : ValidationDetails :=
  {| ssid_enabled := ssid_enabled d; ssid_visible := ssid_visible d;
     auth_type := auth_type d; radius_configured := radius_configured d;
     ap_status := ap_status d; failed_connections := Some fcs |}.

Record WifiIssue : Type := {
  issue_type : string;
  issue_subtype : string;
  severity : Z;
  description : string;
  affected_components : list string;
  validation_details : ValidationDetails
}.

(** The parameters of [WifiIssue.__init__]. *)
Definition WifiIssue_parameters : list string :=
  [ "issue_type"; "issue_subtype"; "severity"; "description";
    "affected_components"; "validation_details" ].

(** [WifiIssue(issue_type=.., issue_subtype=.., severity=..,
    description=.., affected_components=.., **more)]: every call in the
    module passes the first five by keyword and never
    [validation_details]; [more] lists the further keywords of the call.
    A keyword that is no parameter of [__init__] is a [TypeError]. *)
Definition WifiIssue_init
    (issue_type issue_subtype : string) (severity : Z)
    (description : string) (affected_components : list string)
    (more : list string) : Outcome WifiIssue :=
  match List.find (fun k => negb (str_mem k WifiIssue_parameters)) more with
  | Some k =>
      Raise (TypeError
               ("WifiIssue.__init__() got an unexpected keyword argument '"
                +:+ k +:+ "'"))
  | None =>
      Return {| issue_type := issue_type;
                issue_subtype := issue_subtype;
                severity := severity;
                description := description;
                affected_components := affected_components;
                validation_details := no_details |}
  end.

Definition set_severity (i : WifiIssue) (s : Z) : WifiIssue :=
  {| issue_type := issue_type i; issue_subtype := issue_subtype i;
     severity := s; description := description i;
     affected_components := affected_components i;
     validation_details := validation_details i |}.

Definition set_description (i : WifiIssue) (d : string) : WifiIssue :=
  {| issue_type := issue_type i; issue_subtype := issue_subtype i;
     severity := severity i; description := d;
     affected_components := affected_components i;
     validation_details := validation_details i |}.

Definition set_validation_details (i : WifiIssue) (v : ValidationDetails)
  : WifiIssue :=
  {| issue_type := issue_type i; issue_subtype := issue_subtype i;
     severity := severity i; description := description i;
     affected_components := affected_components i;
     validation_details := v |}.

(** *** The inputs of [troubleshoot] *)

(** [ssid_data["dot11w"]]; keys [enabled], [required]. *)
Record Dot11w : Type := {
  pmf_enabled_key : option bool;
  pmf_required_key : option bool
}.

(** [ssid_data["wpaConfig"]]; key [encryption]. *)
Record WpaConfig : Type := { encryption : option string }.

(** [ssid_data]; keys [enabled], [broadcasting], [authMode], [dot11w],
    [availabilityTags], [availableOnAllAps], [wpaConfig], [number],
    [name]; [ssid_other_keys] tells whether the dict has further keys. *)
Record SsidData : Type := {
  enabled : option bool;
  broadcasting : option bool;
  authMode : option string;
  dot11w : option Dot11w;
  availabilityTags : option (list string);
  availableOnAllAps : option bool;
  wpaConfig : option WpaConfig;
  number : option Z;
  name : option string;
  ssid_other_keys : bool
}.

(** [{}] *)
Definition empty_ssid_data : SsidData :=
  {| enabled := None; broadcasting := None; authMode := None;
     dot11w := None; availabilityTags := None; availableOnAllAps := None;
     wpaConfig := None; number := None; name := None;
     ssid_other_keys := false |}.

(** Truth value of the dict: it has a key. *)
Definition ssid_data_truthy (d : SsidData) : bool :=
  bool_decide (is_Some (enabled d)) || bool_decide (is_Some (broadcasting d))
  || bool_decide (is_Some (authMode d)) || bool_decide (is_Some (dot11w d))
  || bool_decide (is_Some (availabilityTags d))
  || bool_decide (is_Some (availableOnAllAps d))
  || bool_decide (is_Some (wpaConfig d)) || bool_decide (is_Some (number d))
  || bool_decide (is_Some (name d)) || ssid_other_keys d.

(** [client_data]; keys [status], [failureReason], [signal];
    [client_other_keys] tells whether the dict has further keys. *)
Record ClientData : Type := {
  status : option string;
  client_failureReason : option string;
  signal : option Z;
  client_other_keys : bool
}.

Definition empty_client_data : ClientData :=
  {| status := None; client_failureReason := None; signal := None;
     client_other_keys := false |}.

Definition client_data_truthy (d : ClientData) : bool :=
  bool_decide (is_Some (status d))
  || bool_decide (is_Some (client_failureReason d))
  || bool_decide (is_Some (signal d)) || client_other_keys d.

(** The [network_data] dict that [troubleshoot] builds. *)
Record NetworkData : Type := {
  network_id : string;
  ssid_data : SsidData;
  client_data : ClientData;
  issue_description : option string
}.

(** [x or {}] for an optional dict. *)
Definition ssid_data_or_empty (d : option SsidData) : SsidData :=
  match d with
  | Some d => if ssid_data_truthy d then d else empty_ssid_data
  | None => empty_ssid_data
  end.

Definition client_data_or_empty (d : option ClientData) : ClientData :=
  match d with
  | Some d => if client_data_truthy d then d else empty_client_data
  | None => empty_client_data
  end.

(** Truth value of an optional string: present and non-empty. *)
Definition opt_str_truthy (s : option string) : bool :=
  match s with Some s => str_truthy s | None => false end.

(** [s.lower() if s else ""] *)
Definition lower_or_empty (s : option string) : string :=
  match s with
  | Some s => if str_truthy s then lower s else ""
  | None => ""
  end.

(** [issues.append(WifiIssue(..))] *)
Definition append_issue (issues : list WifiIssue) (mk : Outcome WifiIssue)
  : Outcome (list WifiIssue) :=
  (issue <- mk ;; Return (issues ++ [issue]))%outcome.

(** *** [TroubleshootingResult] *)

Record TroubleshootingResult : Type := {
  issues : list WifiIssue;
  primary_issue : option WifiIssue;
  confidence : Z;
  recommendations : list string;
  knowledge_references : list Reference;
  network_data : option NetworkData
}.

(** [max(issues, key=lambda x: x.severity)]: the running maximum is
    replaced only by a strictly larger key. *)
Fixpoint max_from (best : WifiIssue) (rest : list WifiIssue) : WifiIssue :=
  match rest with
  | [] => best
  | x :: rest' =>
      if severity best <? severity x then max_from x rest'
      else max_from best rest'
  end.

(** [max(issues, key=..) if issues else None] *)
Definition max_severity_issue (issues : list WifiIssue) : option WifiIssue :=
  match issues with
  | [] => None
  | x :: rest => Some (max_from x rest)
  end.

(** [TroubleshootingResult.__init__] *)
Definition TroubleshootingResult_init
    (issues : list WifiIssue) (confidence : Z)
    (recommendations : list string) (knowledge_references : list Reference)
    (network_data : option NetworkData) : TroubleshootingResult :=
  {| issues := issues;
     primary_issue := max_severity_issue issues;
     confidence := confidence;
     recommendations := recommendations;
     knowledge_references := knowledge_references;
     network_data := network_data |}.

(** JSON-safe values, the range of the [to_dict] methods; an object keeps
    its keys in insertion order. *)
#[local] Unset Elimination Schemes.
Inductive json : Type :=
| JNull
| JBool (b : bool)
| JInt (n : Z)
| JStr (s : string)
| JList (xs : list json)
| JObj (fields : list (string * json)).
#[local] Set Elimination Schemes.

(** [d[key]] on an object. *)
Fixpoint json_lookup (key : string) (fields : list (string * json))
  : option json :=
  match fields with
  | [] => None
  | (k, v) :: fields' =>
      if String.eqb k key then Some v else json_lookup key fields'
  end.

Definition json_get (key : string) (j : json) : option json :=
  match j with
  | JObj fields => json_lookup key fields
  | _ => None
  end.

Definition opt_field {A} (key : string) (f : A -> json) (o : option A)
  : list (string * json) :=
  match o with Some a => [ (key, f a) ] | None => [] end.

Definition json_opt_str (o : option string) : json :=
  match o with Some s => JStr s | None => JNull end.

Definition radio_json (r : Radio) : json :=
  JObj (opt_field "status" JStr (radio_status r)
        ++ opt_field "band" JStr (radio_band r)
        ++ opt_field "channelUtilization" JInt (radio_channelUtilization r)).

Definition wireless_status_json (s : WirelessStatus) : json :=
  JObj (opt_field "radios" (fun rs => JList (map radio_json rs)) (radios s)).

Definition failed_connection_json (fc : FailedConnection) : json :=
  JObj (opt_field "failureReason" JStr (failureReason fc)).

Definition validation_details_json (v : ValidationDetails) : json :=
  JObj (opt_field "ssid_enabled" JBool (ssid_enabled v)
        ++ opt_field "ssid_visible" JBool (ssid_visible v)
        ++ opt_field "auth_type" json_opt_str (auth_type v)
        ++ opt_field "radius_configured" JBool (radius_configured v)
        ++ opt_field "ap_status" wireless_status_json (ap_status v)
        ++ opt_field "failed_connections"
             (fun fcs => JList (map failed_connection_json fcs))
             (failed_connections v)).

Definition reference_json (r : Reference) : json :=
  JObj [ ("title", JStr (ref_title r)); ("url", JStr (ref_url r)) ].

(** [WifiIssue.to_dict] *)
Definition WifiIssue_to_dict (i : WifiIssue) : json :=
  JObj [ ("issue_type", JStr (issue_type i));
         ("issue_subtype", JStr (issue_subtype i));
         ("severity", JInt (severity i));
         ("description", JStr (description i));
         ("affected_components", JList (map JStr (affected_components i)));
         ("validation_details",
          validation_details_json (validation_details i)) ].

(** [TroubleshootingResult.to_dict]; a [WifiIssue] object is always true. *)
Definition TroubleshootingResult_to_dict (r : TroubleshootingResult) : json :=
  JObj [ ("issues", JList (map WifiIssue_to_dict (issues r)));
         ("primary_issue",
          match primary_issue r with
          | Some p => WifiIssue_to_dict p
          | None => JNull
          end);
         ("confidence", JInt (confidence r));
         ("recommendations", JList (map JStr (recommendations r)));
         ("knowledge_references",
          JList (map reference_json (knowledge_references r))) ].

(** ** [wifi/wifi_troubleshooter.py]: the rule layer *)

(** The client-compatibility terms of [_check_ssid_issues]. *)
Definition client_issue_terms : list string :=
  [ "can't connect"; "cannot connect"; "unable to connect";
    "compatibility"; "older device"; "legacy device" ].

(** [WifiTroubleshooter._check_ssid_issues] *)
Definition _check_ssid_issues (network_data : NetworkData)
  : Outcome (list WifiIssue) :=
  let issues := [] in
  let ssid_data := ssid_data network_data in
  if negb (default true (enabled ssid_data)) then
    append_issue issues
      (WifiIssue_init "configuration" "ssid_disabled" 90
         "The SSID is disabled in the network configuration"
         [ "ssid" ] [])
  else
  (issues <-
     (if default true (enabled ssid_data)
         && negb (default true (broadcasting ssid_data))
      then append_issue issues
             (WifiIssue_init "connectivity" "ssid_not_broadcasting" 80
                "The SSID is enabled but not broadcasting"
                [ "ssid"; "access_points" ] [])
      else Return issues) ;;
   let auth_mode := authMode ssid_data in
   let issue_desc := issue_description network_data in
   let issue_desc_lower := lower_or_empty issue_desc in
   let pmf_setting :=
     default {| pmf_enabled_key := None; pmf_required_key := None |}
       (dot11w ssid_data) in
   let pmf_enabled := default false (pmf_enabled_key pmf_setting) in
   let pmf_required := default false (pmf_required_key pmf_setting) in
   let client_issues_mentioned :=
     any_in client_issue_terms issue_desc_lower in
   let is_open_enhanced := bool_decide (auth_mode = Some "open-enhanced") in
   issues <-
     (if pmf_required && client_issues_mentioned
      then append_issue issues
             (WifiIssue_init "compatibility" "pmf_required_compatibility" 75
                "Required Protected Management Frames (PMF) may cause compatibility issues with some clients"
                [ "ssid"; "clients"; "security" ] [ "details" ])
      else Return issues) ;;
   issues <-
     (if is_open_enhanced && client_issues_mentioned
      then
        if pmf_required
        then append_issue issues
               (WifiIssue_init "compatibility" "open_enhanced_pmf_config" 70
                  "Open-Enhanced is correctly enabled (critical security feature), but PMF being required might cause compatibility issues"
                  [ "ssid"; "clients"; "security" ] [ "details" ])
        else Return issues
      else Return issues) ;;
   let availability_tags := default [] (availabilityTags ssid_data) in
   let is_available_on_all_aps :=
     default true (availableOnAllAps ssid_data) in
   issues <-
     (if truthy availability_tags && negb is_available_on_all_aps
      then append_issue issues
             (WifiIssue_init "configuration" "restricted_ap_availability" 80
                ("SSID is restricted to APs with tags: "
                 +:+ str_join ", " availability_tags)
                [ "ssid"; "access_points" ] [ "details" ])
      else Return issues) ;;
   let wpa_config := default {| encryption := None |} (wpaConfig ssid_data) in
   let encryption_mode := default "" (encryption wpa_config) in
   issues <-
     (if (bool_decide (auth_mode = Some "wpa3")
          || bool_decide (auth_mode = Some "wpa3-enterprise"))
         && client_issues_mentioned
      then append_issue issues
             (WifiIssue_init "compatibility" "wpa3_only_compatibility" 70
                "WPA3-only mode may not be supported by all client devices"
                [ "ssid"; "clients"; "security" ] [ "details" ])
      else Return issues) ;;
   issues <-
     (if bool_decide (auth_mode = Some "open")
         && str_in "open" issue_desc_lower
      then append_issue issues
             (WifiIssue_init "security" "open_network_issues" 60
                "Open network (not Open-Enhanced) may be causing connection issues with some client devices"
                [ "ssid"; "clients" ] [])
      else Return issues) ;;
   Return issues)%outcome.

(** [WifiTroubleshooter._check_client_issues] *)
Definition _check_client_issues (network_data : NetworkData)
  : Outcome (list WifiIssue) :=
  let issues := [] in
  let client_data := client_data network_data in
  let issue_description_raw := issue_description network_data in
  let issue_description := lower_or_empty issue_description_raw in
  (issues <-
     (if bool_decide (status client_data = Some "failed")
      then
        let reason := default "unknown" (client_failureReason client_data) in
        if String.eqb reason "auth_failure"
        then append_issue issues
               (WifiIssue_init "connectivity" "authentication_failure" 85
                  "Client failed to authenticate to the network"
                  [ "client"; "ssid" ] [])
        else if String.eqb reason "dhcp_failure"
        then append_issue issues
               (WifiIssue_init "connectivity" "dhcp_failure" 75
                  "Client failed to obtain an IP address via DHCP"
                  [ "client"; "dhcp" ] [])
        else append_issue issues
               (WifiIssue_init "connectivity" "connection_failure" 70
                  ("Client connection failed with reason: " +:+ reason)
                  [ "client"; "ssid" ] [])
      else Return issues) ;;
   issues <-
     (match signal client_data with
      | Some signal_strength =>
          if signal_strength <? -70
          then append_issue issues
                 (WifiIssue_init "performance" "low_signal_strength" 60
                    ("Client has poor signal strength: "
                     +:+ int_str signal_strength +:+ " dBm")
                    [ "client"; "access_points" ] [])
          else Return issues
      | None => Return issues
      end) ;;
   issues <-
     (if (str_in "mac" issue_description
          && str_in "windows" issue_description)
         || str_in "multiple devices" issue_description
      then append_issue issues
             (WifiIssue_init "compatibility" "cross_platform_issues" 65
                "Issue affects multiple device types, suggesting SSID configuration incompatibility"
                [ "ssid"; "clients" ] [])
      else Return issues) ;;
   Return issues)%outcome.

(** The multi-device boost at the end of [_analyze_issue_description]. *)
Definition boost_multi_device (issue : WifiIssue) : WifiIssue :=
  let issue :=
    if severity issue <? 90
    then set_severity issue (severity issue + 10) else issue in
  set_description issue
    (description issue +:+ " (affects multiple device types)").

(** [WifiTroubleshooter._analyze_issue_description].  The function ends
    in [return issues]: it hands back the list alone. *)
Definition _analyze_issue_description (description : option string)
  : Outcome (list WifiIssue) :=
  let issues := [] in
  let description := default "" description in
  let description_lower := lower description in
  (issues <-
     (if any_in [ "can't connect"; "cannot connect"; "unable to connect";
                  "unable to join" ] description_lower
      then
        let severity := 80 in
        let issue_type := "connectivity" in
        let issue_subtype := "connection_failure" in
        let client_indicators :=
          [ "client"; "device"; "phone"; "laptop"; "computer"; "user";
            "iphone"; "android"; "mac"; "windows"; "ios"; "specific" ] in
        let has_client_indicator :=
          any_in client_indicators description_lower in
        let '(issue_subtype, description, severity) :=
          if str_in "password" description_lower
             || str_in "credentials" description_lower
          then ("authentication_failure",
                if has_client_indicator
                then "Specific clients are experiencing authentication failures when connecting"
                else "Clients are unable to connect due to possible authentication issues",
                severity)
          else if str_in "see the network" description_lower
                  || str_in "find the network" description_lower
          then ("ssid_not_visible",
                if has_client_indicator
                then "Specific clients cannot see or find the wireless network"
                else "Clients cannot see or find the wireless network",
                severity)
          else if str_in "immediately" description_lower
                  && str_in "error" description_lower
          then ("immediate_connection_failure",
                if has_client_indicator
                then "Specific clients immediately receive an error when trying to connect"
                else "Clients immediately receive an error when trying to connect",
                85)
          else if has_client_indicator
          then ("client_specific_connection_failure",
                "Specific clients are unable to connect while others may be connecting successfully",
                82)
          else (issue_subtype,
                "Clients are unable to connect to the wireless network",
                severity) in
        append_issue issues
          (WifiIssue_init issue_type issue_subtype severity description
             [ "clients"; "ssid" ] [])
      else if any_in [ "slow"; "performance"; "dropping"; "intermittent" ]
                description_lower
      then append_issue issues
             (WifiIssue_init "performance" "poor_performance" 60
                "Network performance issues affecting client experience"
                [ "clients"; "access_points"; "network" ] [])
      else Return issues) ;;
   issues <-
     (match search_connect_to description_lower with
      | Some ssid_name =>
          append_issue issues
            (WifiIssue_init "connectivity" "ssid_specific_issue" 75
               ("Issue specifically affects the '" +:+ ssid_name +:+ "' SSID")
               [ "ssid" ] [])
      | None => Return issues
      end) ;;
   issues <-
     (if str_in "mac" description_lower
      then append_issue issues
             (WifiIssue_init "compatibility" "mac_specific_issue" 50
                "Issue may be specific to Mac devices" [ "clients" ] [])
      else Return issues) ;;
   issues <-
     (if str_in "windows" description_lower
      then append_issue issues
             (WifiIssue_init "compatibility" "windows_specific_issue" 50
                "Issue may be specific to Windows devices" [ "clients" ] [])
      else Return issues) ;;
   let issues :=
     if str_in "multiple devices" description_lower
        || (str_in "both" description_lower
            && (str_in "mac" description_lower
                && str_in "windows" description_lower))
     then map boost_multi_device issues
     else issues in
   Return issues)%outcome.

(** [WifiTroubleshooter._calculate_confidence] *)
Definition _calculate_confidence
    (issues : list WifiIssue) (network_data : NetworkData) : Z :=
  match issues with
  | [] => 50
  | first :: rest =>
      let max_severity :=
        fold_left Z.max (map severity rest) (severity first) in
      let data_completeness := 0 in
      let data_completeness :=
        if ssid_data_truthy (ssid_data network_data)
        then data_completeness + 30 else data_completeness in
      let data_completeness :=
        if client_data_truthy (client_data network_data)
        then data_completeness + 30 else data_completeness in
      let data_completeness :=
        if opt_str_truthy (issue_description network_data)
        then data_completeness + 20 else data_completeness in
      let confidence :=
        py_int (inject_Z max_severity * (6 # 10)
                + inject_Z data_completeness * (4 # 10)) in
      Z.min confidence 100
  end.

(** ** [wifi/wifi_troubleshooter.py]: the outside world *)

(** A topic of a knowledge-base answer; key [id]. *)
Record Topic : Type := { topic_key_id : option string }.

(** The dict of [KnowledgeBase.get_topic_content]; key [references]. *)
Record TopicContent : Type := { references : option (list Reference) }.

(** The dict of [KnowledgeBase.query]; keys [answer], [topics]. *)
Record KbResults : Type := {
  answer : option string;
  topics : option (list Topic)
}.

(** The abstract base class [KnowledgeBase], over a world [W]. *)
Class KnowledgeBase (W : Type) : Type := {
  initialize : M W unit;
  query : string -> M W KbResults;
  get_topic_content : string -> M W TopicContent
}.

(** The dashboard client handed to [troubleshoot]. *)
Record MerakiClient (W : Type) : Type := {
  get_network_devices : string -> M W (list Device);
  get_device_wireless_status : string -> M W WirelessStatus;
  get_network_clients : string -> M W (list NetworkClient);
  get_network_wireless_ssid : string -> Z -> M W SsidDetails;
  get_network_wireless_failed_connections :
    string -> M W (list FailedConnection)
}.
Arguments get_network_devices {W} _ _.
Arguments get_device_wireless_status {W} _ _.
Arguments get_network_clients {W} _ _.
Arguments get_network_wireless_ssid {W} _ _ _.
Arguments get_network_wireless_failed_connections {W} _ _.

(** The attributes of a [WifiTroubleshooter] together with the world its
    knowledge base and client live in. *)
Record Troubleshooter (W : Type) : Type := {
  world : W;
  _kb_initialized : bool
}.
Arguments world {W} _.
Arguments _kb_initialized {W} _.

(** [for x in xs: body x] *)
Fixpoint for_each {S A} (xs : list A) (body : A -> M S unit) : M S unit :=
  match xs with
  | [] => ret tt
  | x :: xs' => bind (body x) (fun _ => for_each xs' body)
  end.

(** [[f x for x in xs]] where [f] awaits. *)
Fixpoint map_m {S A B} (f : A -> M S B) (xs : list A) : M S (list B) :=
  match xs with
  | [] => ret []
  | x :: xs' =>
      bind (f x) (fun y => bind (map_m f xs') (fun ys => ret (y :: ys)))
  end.

(** [s.startswith(p)] *)
Definition startswith (s p : string) : bool := String.prefix p s.

(** [a, b = xs]: unpacking into two targets. *)
Definition unpack2 {A} (xs : list A) : Outcome (A * A) :=
  match xs with
  | [a; b] => Return (a, b)
  | [] | [_] => Raise (ValueError "not enough values to unpack (expected 2)")
  | _ => Raise (ValueError "too many values to unpack (expected 2)")
  end.

(** [repr] of a list of strings as an f-string field renders it (quotes
    inside the items are not escaped here). *)
Definition list_repr (xs : list string) : string :=
  "[" +:+ str_join ", " (map (fun x => "'" +:+ x +:+ "'") xs) +:+ "]".

Section Troubleshooting.

Context {W : Type} `{KB : KnowledgeBase W}.

Local Abbreviation T := (Troubleshooter W).

(** A call on the world from a method of the troubleshooter. *)
Definition on_world {A} (call : M W A) : M T A :=
  fun self =>
    let '(o, w') := call (world self) in
    (o, {| world := w'; _kb_initialized := _kb_initialized self |}).

Local Open Scope monad_scope.

(** [issues.append(WifiIssue(..))] on the local [issues]. *)
Definition append (mk : Outcome WifiIssue) : M (T * list WifiIssue) unit :=
  issue <- lift mk ;; update (fun issues => issues ++ [issue]).

(** [ap.get("name", ap.get("serial", "Unknown"))] *)
Definition ap_label (ap : Device) : string :=
  default (default "Unknown" (dev_serial ap)) (dev_name ap).

(** Truth value of the optional SSID dict handed to [troubleshoot]. *)
Definition opt_ssid_truthy (d : option SsidData) : bool :=
  match d with Some d => ssid_data_truthy d | None => false end.

(** [WifiTroubleshooter._check_ap_configurations] *)
Definition _check_ap_configurations
    (network_id : string) (meraki_client : option (MerakiClient W))
    (ssid_data : option SsidData) : M T (list WifiIssue) :=
  match meraki_client with
  | None => ret []
  | Some client =>
      r <- frame []
        (try_except
           (aps <- await (on_world (get_network_devices client network_id)) ;;
            let wireless_aps :=
              List.filter
                (fun ap => startswith (default "" (dev_model ap)) "MR") aps in
            if negb (truthy wireless_aps) then
              append
                (WifiIssue_init "configuration" "no_wireless_aps" 90
                   "No wireless access points detected in the network"
                   [ "access_points"; "network" ] [])
            else
              let offline_aps :=
                List.filter
                  (fun ap => negb (bool_decide (dev_status ap = Some "online")))
                  wireless_aps in
              (if truthy offline_aps
               then append
                      (WifiIssue_init "connectivity" "offline_access_points" 85
                         (int_str (len offline_aps)
                          +:+ " access points are offline or in problematic state")
                         [ "access_points" ] [ "details" ])
               else ret tt) ;;;
              (if opt_ssid_truthy ssid_data then
                 let ssid_data := default empty_ssid_data ssid_data in
                 let ap_tags_required :=
                   default [] (availabilityTags ssid_data) in
                 let is_available_on_all_aps :=
                   default true (availableOnAllAps ssid_data) in
                 if truthy ap_tags_required && negb is_available_on_all_aps
                 then
                   let has_required_tag ap :=
                     existsb
                       (fun tag => str_mem tag (default [] (dev_tags ap)))
                       ap_tags_required in
                   let missing_tag_aps :=
                     map ap_label
                       (List.filter (fun ap => negb (has_required_tag ap))
                          wireless_aps) in
                   let aps_with_required_tags :=
                     len (List.filter has_required_tag wireless_aps) in
                   if aps_with_required_tags =? 0
                   then append
                          (WifiIssue_init "configuration"
                             "no_aps_with_required_tags" 90
                             ("SSID requires APs with tags "
                              +:+ list_repr ap_tags_required
                              +:+ ", but no APs have these tags")
                             [ "access_points"; "ssid" ] [ "details" ])
                   else if truthy missing_tag_aps
                           && (aps_with_required_tags <? len wireless_aps)
                   then append
                          (WifiIssue_init "configuration"
                             "some_aps_missing_required_tags" 75
                             ("Some APs are missing the required tags "
                              +:+ list_repr ap_tags_required
                              +:+ " for SSID availability")
                             [ "access_points"; "ssid" ] [ "details" ])
                   else ret tt
                 else ret tt
               else ret tt) ;;;
              (if truthy wireless_aps then
                 try_except
                   (sample_ap <- lift (py_index wireless_aps 0) ;;
                    serial <-
                      lift (match dev_serial sample_ap with
                            | Some s => Return s
                            | None => Raise (KeyError "serial")
                            end) ;;
                    ap_wireless_status <-
                      await (on_world
                               (get_device_wireless_status client serial)) ;;
                    for_each (default [] (radios ap_wireless_status))
                      (fun radio =>
                         (if negb (bool_decide
                                     (radio_status radio = Some "normal"))
                          then append
                                 (WifiIssue_init "performance"
                                    "radio_status_issue" 70
                                    ("AP radio ("
                                     +:+ default "unknown" (radio_band radio)
                                     +:+ ") status is "
                                     +:+ default "abnormal" (radio_status radio))
                                    [ "access_points"; "radio" ] [])
                          else ret tt) ;;;
                         match radio_channelUtilization radio with
                         | Some utilization =>
                             if negb (utilization =? 0) && (70 <? utilization)
                             then append
                                    (WifiIssue_init "performance"
                                       "high_channel_utilization" 65
                                       ("High channel utilization ("
                                        +:+ int_str utilization +:+ "%) on "
                                        +:+ default "unknown" (radio_band radio)
                                        +:+ " radio")
                                       [ "access_points"; "radio"; "channel" ]
                                       [])
                             else ret tt
                         | None => ret tt
                         end))
                   (fun _ => ret tt)
               else ret tt))
           (fun _ => ret tt)) ;;
      ret (snd r)
  end.

(** [WifiTroubleshooter._check_connected_clients] *)
Definition _check_connected_clients
    (network_id : string) (meraki_client : option (MerakiClient W))
    (ssid_data : option SsidData) : M T (list WifiIssue) :=
  match meraki_client with
  | None => ret []
  | Some client =>
      r <- frame []
        (try_except
           (clients <- await (on_world (get_network_clients client network_id)) ;;
            let wireless_clients :=
              List.filter (fun c => bool_decide (is_Some (client_ssid c)))
                clients in
            if negb (truthy wireless_clients) && opt_ssid_truthy ssid_data
            then
              let ssid_data := default empty_ssid_data ssid_data in
              let ssid_name := default "Unknown SSID" (name ssid_data) in
              append
                (WifiIssue_init "connectivity" "no_connected_clients" 80
                   ("No clients are connected to the '" +:+ ssid_name
                    +:+ "' SSID")
                   [ "ssid"; "clients" ] []) ;;;
              try_except
                (failed_connections <-
                   await (on_world
                            (get_network_wireless_failed_connections
                               client network_id)) ;;
                 if truthy failed_connections
                    && (0 <? len failed_connections)
                 then
                   let reason_has term (fc : FailedConnection) :=
                     str_in term (lower (default "" (failureReason fc))) in
                   let auth_failures :=
                     List.filter (reason_has "auth") failed_connections in
                   let dhcp_failures :=
                     List.filter (reason_has "dhcp") failed_connections in
                   let assoc_failures :=
                     List.filter (reason_has "association")
                       failed_connections in
                   (if truthy auth_failures
                    then append
                           (WifiIssue_init "connectivity"
                              "authentication_failures" 85
                              (int_str (len auth_failures)
                               +:+ " clients failed to authenticate to the network")
                              [ "ssid"; "clients"; "authentication" ]
                              [ "details" ])
                    else ret tt) ;;;
                   (if truthy dhcp_failures
                    then append
                           (WifiIssue_init "connectivity" "dhcp_failures" 80
                              (int_str (len dhcp_failures)
                               +:+ " clients failed to obtain IP addresses via DHCP")
                              [ "ssid"; "clients"; "dhcp" ] [ "details" ])
                    else ret tt) ;;;
                   (if truthy assoc_failures
                    then append
                           (WifiIssue_init "connectivity"
                              "association_failures" 75
                              (int_str (len assoc_failures)
                               +:+ " clients failed to associate with the wireless network")
                              [ "ssid"; "clients"; "radio" ] [ "details" ])
                    else ret tt)
                 else ret tt)
                (fun _ => ret tt)
            else if truthy wireless_clients then
              let poor_signal_clients :=
                List.filter (fun c => default 0 (client_signal c) <? -70)
                  wireless_clients in
              (if truthy poor_signal_clients && (0 <? len poor_signal_clients)
               then append
                      (WifiIssue_init "performance" "poor_signal_strength" 65
                         (int_str (len poor_signal_clients)
                          +:+ " clients have poor signal strength (< -70 dBm)")
                         [ "clients"; "access_points"; "signal" ]
                         [ "details" ])
               else ret tt) ;;;
              let legacy_clients :=
                List.filter
                  (fun c =>
                     match client_protocol c with
                     | Some p => str_mem p [ "802.11b"; "802.11g"; "802.11a" ]
                     | None => false
                     end)
                  wireless_clients in
              (if truthy legacy_clients && (0 <? len legacy_clients)
               then append
                      (WifiIssue_init "performance" "legacy_clients" 60
                         (int_str (len legacy_clients)
                          +:+ " clients are using older 802.11 standards")
                         [ "clients"; "performance" ] [ "details" ])
               else ret tt) ;;;
              match ssid_data with
              | Some ssid_data =>
                  match name ssid_data with
                  | Some ssid_name =>
                      let ssid_clients :=
                        List.filter
                          (fun c => bool_decide (client_ssid c = Some ssid_name))
                          wireless_clients in
                      if negb (truthy ssid_clients)
                      then append
                             (WifiIssue_init "connectivity"
                                "no_clients_on_ssid" 75
                                ("No clients are connected to the '"
                                 +:+ ssid_name +:+ "' SSID specifically")
                                [ "ssid"; "clients" ] [])
                      else ret tt
                  | None => ret tt
                  end
              | None => ret tt
              end
            else ret tt)
           (fun _ => ret tt)) ;;
      ret (snd r)
  end.

(** The dict [_validate_with_api] returns; keys [validated],
    [validation_details]. *)
Record ValidationResults : Type := {
  validated : bool;
  details : ValidationDetails
}.

Definition set_validated (r : ValidationResults) : ValidationResults :=
  {| validated := true; details := details r |}.

Definition set_details (f : ValidationDetails -> ValidationDetails)
    (r : ValidationResults) : ValidationResults :=
  {| validated := validated r; details := f (details r) |}.

(** Truth value of [ssid_data and "number" in ssid_data]. *)
Definition ssid_number (ssid_data : option SsidData) : option Z :=
  match ssid_data with
  | Some d => number d
  | None => None
  end.

(** [WifiTroubleshooter._validate_with_api] *)
Definition _validate_with_api
    (issue : WifiIssue) (network_id : string) (ssid_data : option SsidData)
    (meraki_client : option (MerakiClient W)) : M T ValidationResults :=
  let validation_results := {| validated := false; details := no_details |} in
  match meraki_client with
  | None => ret validation_results
  | Some client =>
      r <- frame validation_results
        (try_except
           (if String.eqb (issue_subtype issue) "ssid_disabled"
               || String.eqb (issue_subtype issue) "ssid_not_broadcasting"
            then
              match ssid_number ssid_data with
              | Some ssid_number =>
                  ssid_details <-
                    await (on_world
                             (get_network_wireless_ssid
                                client network_id ssid_number)) ;;
                  update
                    (set_details
                       (with_ssid_enabled
                          (default false (det_enabled ssid_details)))) ;;;
                  update
                    (set_details
                       (with_ssid_visible
                          (negb (default false (det_hidden ssid_details))))) ;;;
                  update set_validated
              | None => ret tt
              end
            else if String.eqb (issue_subtype issue) "authentication_failure"
            then
              match ssid_number ssid_data with
              | Some ssid_number =>
                  ssid_details <-
                    await (on_world
                             (get_network_wireless_ssid
                                client network_id ssid_number)) ;;
                  update
                    (set_details
                       (with_auth_type (det_authMode ssid_details))) ;;;
                  (if det_radiusServers ssid_details
                   then update (set_details (with_radius_configured true))
                   else ret tt) ;;;
                  update set_validated
              | None => ret tt
              end
            else if str_in "performance" (issue_type issue)
            then
              try_except
                (aps <-
                   await (on_world (get_network_devices client network_id)) ;;
                 let wireless_aps :=
                   List.filter
                     (fun ap => startswith (default "" (dev_model ap)) "MR")
                     aps in
                 if truthy wireless_aps then
                   sample_ap <- lift (py_index wireless_aps 0) ;;
                   serial <-
                     lift (match dev_serial sample_ap with
                           | Some s => Return s
                           | None => Raise (KeyError "serial")
                           end) ;;
                   ap_status <-
                     await (on_world
                              (get_device_wireless_status client serial)) ;;
                   update (set_details (with_ap_status ap_status)) ;;;
                   update set_validated
                 else ret tt)
                (fun _ => ret tt)
            else if String.eqb (issue_subtype issue)
                      "client_specific_connection_failure"
            then
              try_except
                (failed_connections <-
                   await (on_world
                            (get_network_wireless_failed_connections
                               client network_id)) ;;
                 update
                   (set_details (with_failed_connections failed_connections)) ;;;
                 update set_validated)
                (fun _ => ret tt)
            else ret tt)
           (fun _ => ret tt)) ;;
      ret (snd r)
  end.

(** The body of the validation loop of [troubleshoot] for one issue, once
    [_validate_with_api] has answered. *)
Definition apply_validation
    (issue : WifiIssue) (validation_result : ValidationResults) : WifiIssue :=
  if validated validation_result then
    let issue := set_validation_details issue (details validation_result) in
    let issue :=
      match ssid_enabled (details validation_result) with
      | Some ssid_enabled =>
          if String.eqb (issue_subtype issue) "ssid_disabled" && ssid_enabled
          then set_severity issue (severity issue - 30)
          else issue
      | None => issue
      end in
    let issue :=
      match failed_connections (details validation_result) with
      | Some failed_conns =>
          if truthy failed_conns && (0 <? len failed_conns)
          then
            set_description
              (set_severity issue (severity issue + 10))
              (description issue +:+ " (Confirmed: "
               +:+ int_str (len failed_conns)
               +:+ " failed connection attempts)")
          else issue
      | None => issue
      end in
    issue
  else issue.

(** Step 7 of [troubleshoot]: validate every issue, then keep the issues
    of positive severity. *)
Definition validate_issues
    (issues : list WifiIssue) (network_id : string)
    (ssid_data : option SsidData) (meraki_client : option (MerakiClient W))
  : M T (list WifiIssue) :=
  validated_issues <-
    map_m
      (fun issue =>
         validation_result <-
           _validate_with_api issue network_id ssid_data meraki_client ;;
         ret (apply_validation issue validation_result))
      issues ;;
  ret (List.filter (fun issue => 0 <? severity issue) validated_issues).

(** The terms of the Open-Enhanced safety checks. *)
Definition disable_terms : list string :=
  [ "disable open-enhanced"; "turn off open-enhanced";
    "disable open enhanced"; "turn off open enhanced";
    "removing open-enhanced"; "removing open enhanced" ].

(** [any(term in rec.lower() for term in [..six terms..])] *)
Definition suggests_disabling (rec : string) : bool :=
  any_in disable_terms (lower rec).

(** [any(term in rec.lower() for term in ["open-enhanced", "open enhanced"])] *)
Definition mentions_open_enhanced (rec : string) : bool :=
  any_in [ "open-enhanced"; "open enhanced" ] (lower rec).

Definition safe_guidance : string :=
  "Ensure that Open-Enhanced is enabled on the wireless network. This is a critical feature that should always remain enabled.".

Definition keep_enabled_note : string :=
  " (Note: Open-Enhanced should always remain enabled)".

Definition reaffirming_statement : string :=
  "Maintain Open-Enhanced configuration as enabled - this is a critical feature that should always remain active".

(** The knowledge-base answer as it enters [recommendations]. *)
Definition answer_recommendation (answer : string) : string :=
  if any_in disable_terms (lower answer) then safe_guidance else answer.

(** The de-duplication loop of [_get_recommendations]. *)
Definition unique_recommendations (recommendations : list string)
  : list string :=
  fold_left
    (fun unique rec => if str_mem rec unique then unique else unique ++ [rec])
    recommendations [].

(** The "critical protection" loop of [_get_recommendations] and the
    statement appended after it. *)
Definition safe_recommendations (unique_recommendations : list string)
  : list string :=
  let safe :=
    fold_left
      (fun safe rec =>
         if suggests_disabling rec then safe
         else if mentions_open_enhanced rec
         then safe ++ [ rec +:+ keep_enabled_note ]
         else safe ++ [ rec ])
      unique_recommendations [] in
  if len safe <? len unique_recommendations
  then safe ++ [ reaffirming_statement ]
  else safe.

Definition topic_mapping : gmap string string :=
  list_to_map
    [ ("ssid_disabled", "troubleshooting_1");
      ("ssid_not_broadcasting", "troubleshooting_1");
      ("authentication_failure", "troubleshooting_3");
      ("dhcp_failure", "troubleshooting_3");
      ("connection_failure", "troubleshooting_1");
      ("low_signal_strength", "troubleshooting_2");
      ("poor_performance", "troubleshooting_2");
      ("cross_platform_issues", "troubleshooting_3");
      ("open_network_issues", "best_practices_3") ].

(** ["specific client" in description.lower() if description else False] *)
Definition is_client_specific (primary_issue : WifiIssue) : bool :=
  let description := description primary_issue in
  if str_truthy description
  then str_in "specific client" (lower description) else false.

(** The recommendations [_get_recommendations] derives from the subtype
    of the primary issue, before it turns to the knowledge base. *)
Definition rule_recommendations
    (primary_issue : WifiIssue) (is_open_enhanced : bool) : list string :=
  let subtype := issue_subtype primary_issue in
  if String.eqb subtype "ssid_disabled" then
    [ "Enable the SSID in the Meraki dashboard" ]
  else if String.eqb subtype "ssid_not_broadcasting"
          || String.eqb subtype "ssid_not_visible" then
    if is_client_specific primary_issue then
      [ "Verify that the affected clients are within range of at least one access point";
        "Check if the affected clients have the correct band capabilities (2.4GHz/5GHz/6GHz) for this SSID";
        "Verify that client WiFi radios are enabled and not in airplane mode";
        "Examine client WiFi scan logs to see what networks are visible to them" ]
    else
      [ "Verify that the SSID is configured to broadcast";
        "Check that access points are online and properly configured";
        "Verify that the SSID is configured on all expected access points" ]
  else if String.eqb subtype "authentication_failure"
          || String.eqb subtype "client_specific_connection_failure" then
    if is_client_specific primary_issue then
      [ "Verify that the affected clients have the correct credentials and are using the proper authentication method";
        "Check if the affected clients have updated WiFi drivers and operating systems";
        "Verify that the affected clients support the security protocols used by the SSID (e.g., WPA3, 802.1X)";
        "Examine client device logs for WiFi-related errors during connection attempts" ]
    else
      [ "Verify that clients are using the correct password and authentication method";
        "Ensure the SSID security settings are compatible with client devices";
        "Check for RADIUS server issues if using enterprise authentication" ]
  else if String.eqb subtype "dhcp_failure" then
    [ "Verify that DHCP server is functioning properly";
      "Check that the DHCP scope is not exhausted";
      "Ensure that there are no IP conflicts on the network" ]
  else if String.eqb subtype "open_network_issues" then
    [ "First verify that access points in the client's location are properly tagged for this SSID" ]
    ++ (if is_open_enhanced
        then [ "For client compatibility issues, consider changing PMF setting to 'optional' while maintaining 'open-enhanced' authentication" ]
        else [ "Check if the client device has any security policies that block connections to public networks" ])
    ++ [ "Verify that the client's MAC address is not blocked by any firewall or access control rules" ]
  else if String.eqb subtype "immediate_connection_failure" then
    if is_client_specific primary_issue then
      [ "Check the affected client's ability to connect to other WiFi networks";
        "Verify the affected client is not blocked by MAC filtering or firewall rules";
        "Try resetting the WiFi network adapter on the affected device(s)";
        "Examine client device logs for detailed error messages during connection attempts";
        "Verify client device supports the WiFi standards used by this SSID (e.g., 802.11ac/ax)" ]
    else
      [ "Verify the SSID broadcast is enabled and access points are online";
        "Check for MAC address filtering or other access control settings";
        "Ensure client devices support the SSID security type and WiFi standards" ]
  else [].

(** The locals [knowledge_refs] and [recommendations]. *)
Definition add_refs (refs : list Reference)
    (l : list Reference * list string) : list Reference * list string :=
  (fst l ++ refs, snd l).

Definition add_new_ref (ref : Reference)
    (l : list Reference * list string) : list Reference * list string :=
  if bool_decide (ref ∈ fst l) then l else (fst l ++ [ref], snd l).

Definition add_recommendation (rec : string)
    (l : list Reference * list string) : list Reference * list string :=
  (fst l, snd l ++ [rec]).

(** The question put to the knowledge base about the primary issue. *)
Definition kb_question (primary_issue : WifiIssue) : string :=
  "How to resolve issue where " +:+ description primary_issue
  +:+ " in Meraki wireless networks?".

(** [WifiTroubleshooter._get_recommendations].  With [issues] non-empty
    the primary issue is an object, so the early exit guarded by
    [if not primary_issue] is never taken. *)
Definition _get_recommendations
    (issues : list WifiIssue) (network_data : NetworkData)
  : M T (list Reference * list string) :=
  match issues with
  | [] =>
      r <- frame
        ([],
         [ "No specific issues were identified. Consider checking the following:";
           "- Verify that the SSID is properly configured and enabled";
           "- Check that all access points are online and broadcasting the SSID";
           "- Ensure client devices have the correct security settings and credentials" ])
        (try_except
           (let topic_id := "troubleshooting_1" in
            topic_content <- await (on_world (get_topic_content topic_id)) ;;
            match references topic_content with
            | Some refs => update (add_refs refs)
            | None => ret tt
            end)
           (fun _ => ret tt)) ;;
      ret (snd r)
  | first :: rest =>
      let ssid_data := ssid_data network_data in
      let auth_mode := default "" (authMode ssid_data) in
      let is_open_enhanced := String.eqb auth_mode "open-enhanced" in
      let primary_issue := max_from first rest in
      r <- frame ([], rule_recommendations primary_issue is_open_enhanced)
        (try_except
           (let topic_id :=
              default "troubleshooting_1"
                (topic_mapping !! issue_subtype primary_issue) in
            topic_content <- await (on_world (get_topic_content topic_id)) ;;
            (match references topic_content with
             | Some refs => update (add_refs refs)
             | None => ret tt
             end) ;;;
            let kb_query := kb_question primary_issue in
            kb_results <- await (on_world (query kb_query)) ;;
            (match answer kb_results with
             | Some answer =>
                 if str_truthy answer
                 then update (add_recommendation (answer_recommendation answer))
                 else ret tt
             | None => ret tt
             end) ;;;
            match topics kb_results with
            | Some topics =>
                for_each topics
                  (fun topic =>
                     match topic_key_id topic with
                     | Some id =>
                         try_except
                           (additional_content <-
                              await (on_world (get_topic_content id)) ;;
                            match references additional_content with
                            | Some refs =>
                                for_each refs
                                  (fun ref => update (add_new_ref ref))
                            | None => ret tt
                            end)
                           (fun _ => ret tt)
                     | None => ret tt
                     end)
            | None => ret tt
            end)
           (fun _ => ret tt)) ;;
      let '(knowledge_refs, recommendations) := snd r in
      let unique_recommendations := unique_recommendations recommendations in
      ret (knowledge_refs, safe_recommendations unique_recommendations)
  end.

(** [WifiTroubleshooter.initialize_knowledge_base] *)
Definition initialize_knowledge_base : M T unit :=
  fun self =>
    if _kb_initialized self then (Return tt, self)
    else
      match initialize (world self) with
      | (Return _, w') =>
          (Return tt, {| world := w'; _kb_initialized := true |})
      | (Raise (KnowledgeBaseError m), w') =>
          (Raise (WifiTroubleshootingError
                    ("Failed to initialize knowledge base: " +:+ m)),
           {| world := w'; _kb_initialized := _kb_initialized self |})
      | (Raise e, w') =>
          (Raise e, {| world := w'; _kb_initialized := _kb_initialized self |})
      end.

(** [WifiTroubleshooter.troubleshoot] *)
Definition troubleshoot
    (network_id : string) (ssid_data : option SsidData)
    (client_data : option ClientData) (issue_description : option string)
    (meraki_client : option (MerakiClient W)) : M T TroubleshootingResult :=
  (fun self =>
     if negb (_kb_initialized self) then initialize_knowledge_base self
     else (Return tt, self)) ;;;
  try_except
    (let issues := [] in
     let network_data :=
       {| network_id := network_id;
          ssid_data := ssid_data_or_empty ssid_data;
          client_data := client_data_or_empty client_data;
          issue_description := issue_description |} in
     ssid_issues <- lift (_check_ssid_issues network_data) ;;
     let issues := issues ++ ssid_issues in
     client_issues <- lift (_check_client_issues network_data) ;;
     let issues := issues ++ client_issues in
     issues <-
       (match meraki_client with
        | Some _ =>
            ap_issues <-
              _check_ap_configurations network_id meraki_client ssid_data ;;
            let issues :=
              if truthy ap_issues then issues ++ ap_issues else issues in
            client_connection_issues <-
              _check_connected_clients network_id meraki_client ssid_data ;;
            let issues :=
              if truthy client_connection_issues
              then issues ++ client_connection_issues else issues in
            ret issues
        | None => ret issues
        end) ;;
     issues <-
       (if negb (truthy issues) && opt_str_truthy issue_description then
          result <- lift (_analyze_issue_description issue_description) ;;
          (* nlp_issues, extracted_context = result *)
          targets <- lift (unpack2 result) ;;
          let '(nlp_issues, extracted_context) := targets in
          (* issues.extend(nlp_issues), on a single WifiIssue *)
          raise (TypeError "'WifiIssue' object is not iterable")
        else ret issues) ;;
     issues <-
       (match meraki_client with
        | Some _ => validate_issues issues network_id ssid_data meraki_client
        | None => ret issues
        end) ;;
     r <- _get_recommendations issues network_data ;;
     let '(knowledge_refs, recommendations) := r in
     let confidence := _calculate_confidence issues network_data in
     ret (TroubleshootingResult_init issues confidence recommendations
            knowledge_refs (Some network_data)))
    (fun e =>
       match e with
       | KnowledgeBaseError m =>
           raise (WifiTroubleshootingError
                    ("Knowledge base query failed during troubleshooting: "
                     +:+ m))
       | _ =>
           raise (WifiTroubleshootingError
                    ("Unexpected error during WiFi troubleshooting: "
                     +:+ exn_str e))
       end).

End Troubleshooting.

End Wifi.

(** * Vocabulary of the properties *)

(** ** Spectrum analysis *)

Module RFSpec.
Import Spectrum Analyzer.

(** The points a rule of the analyzer matches: inside the frequency
    window, with a power above the noise floor by the rule's margin. *)
Definition microwave_points (sd : SpectrumData) (nf : Q)
  : list SpectrumDataPoint :=
  List.filter
    (fun dp => Qle_bool 2445 (frequency dp) && Qle_bool (frequency dp) 2465
               && Qltb (nf + 10) (power dp))
    (data_points sd).

Definition bluetooth_points (sd : SpectrumData) (nf : Q)
  : list SpectrumDataPoint :=
  List.filter
    (fun dp => Qle_bool 2402 (frequency dp) && Qle_bool (frequency dp) 2480
               && Qltb (nf + 5) (power dp))
    (data_points sd).

Definition radar_points (sd : SpectrumData) (nf : Q)
  : list SpectrumDataPoint :=
  List.filter
    (fun dp => Qle_bool 5250 (frequency dp) && Qle_bool (frequency dp) 5350
               && Qltb (nf + 15) (power dp))
    (data_points sd).

(** The mean power of a list of points. *)
Definition mean_power (pts : list SpectrumDataPoint) : Q :=
  (py_sum (map power pts) / inject_Z (len pts))%Q.

(** The source a rule reports for the points it matched. *)
Definition rule_source (name : string) (lo hi : Q) (k : Q) (conf : Z)
    (desc : string) (pts : list SpectrumDataPoint) (nf : Q)
  : InterferenceSource :=
  {| type := name; frequency_range := (lo, hi);
     avg_power := mean_power pts;
     impact_level := Z.min 100 (py_int ((mean_power pts - nf) * k));
     confidence := conf; description := desc |}.


(** An analysis raises nothing but [RFAnalysisError] on the batch, as
    [analyze_spectrum] does by construction. *)
Definition rf_errors_only
    (analyze : SpectrumData -> Outcome SpectrumAnalysis)
    (l : list SpectrumData) : Prop :=
  forall sd e, In sd l -> analyze sd = Raise e ->
               exists m d, e = RFAnalysisError m d.

(** [a] is the analysis of the last item of the batch with serial [k]
    that was analysed successfully. *)
Definition last_success
    (analyze : SpectrumData -> Outcome SpectrumAnalysis)
    (l : list SpectrumData) (k : string) (a : SpectrumAnalysis) : Prop :=
  exists l1 sd l2,
    l = l1 ++ sd :: l2 /\ access_point_serial sd = k
    /\ analyze sd = Return a
    /\ Forall (fun sd' => access_point_serial sd' = k ->
                          returns (analyze sd') = false) l2.

(** [line] is the sub-error collected for the failed item [sd]. *)
Definition sub_error
    (analyze : SpectrumData -> Outcome SpectrumAnalysis)
    (sd : SpectrumData) (line : string) : Prop :=
  exists e, analyze sd = Raise e
            /\ line = "Error analyzing AP " +:+ access_point_serial sd
                      +:+ ": " +:+ exn_str e.

Definition failing
    (analyze : SpectrumData -> Outcome SpectrumAnalysis)
    (sd : SpectrumData) : bool :=
  negb (returns (analyze sd)).

(** *** Sample inputs *)

Definition sample_point (f p : Q) : SpectrumDataPoint :=
  {| frequency := f; power := p; utilization := 0; timestamp := 0 |}.

(** One quiet reading at -95 dBm and six readings of -84.75 dBm at
    2450 MHz. *)
Definition microwave_sample : SpectrumData :=
  {| access_point_serial := "Q2XX-0001";
     band := BAND_2_4GHZ; channel := 6; channel_width := WIDTH_20MHZ;
     data_points :=
       sample_point 2412 (-95) :: repeat (sample_point 2450 (-339 # 4)) 6;
     start_time := 0; end_time := 0 |}.

Definition quiet_sample (serial : string) : SpectrumData :=
  {| access_point_serial := serial;
     band := BAND_5GHZ; channel := 36; channel_width := WIDTH_40MHZ;
     data_points := [ sample_point 5180 (-92); sample_point 5200 (-90) ];
     start_time := 0; end_time := 0 |}.

(** An analysis that fails on the access point [AP2]. *)
Definition scenario_analyze (sd : SpectrumData) : Outcome SpectrumAnalysis :=
  if String.eqb (access_point_serial sd) "AP2"
  then Raise (RFAnalysisError "Failed to analyze spectrum data: malformed" [])
  else analyze_spectrum (fun _ => "") (fun _ => "") sd.

Definition scenario_batch : list SpectrumData :=
  [ quiet_sample "AP1"; quiet_sample "AP2"; quiet_sample "AP3" ].

End RFSpec.

(** ** Troubleshooting *)

Module WifiSpec.
Import Analyzer Wifi.

(** Invariants of a computation in [M]. *)
Definition triple {S A} (P : S -> Prop) (m : M S A) (Q : S -> Prop) : Prop :=
  forall s, P s -> Q (snd (m s)).

Definition preserves {S A} (I : S -> Prop) (m : M S A) : Prop :=
  forall s, I s -> I (snd (m s)).

(** The [network_data] dict [troubleshoot] builds from its arguments. *)
Definition build_network_data
    (nid : string) (ssid : option SsidData) (client : option ClientData)
    (desc : option string) : NetworkData :=
  {| network_id := nid; ssid_data := ssid_data_or_empty ssid;
     client_data := client_data_or_empty client;
     issue_description := desc |}.

(** Truth value of the optional client dict handed to [troubleshoot]. *)
Definition opt_client_truthy (d : option ClientData) : bool :=
  match d with Some d => client_data_truthy d | None => false end.

(** *** Severities *)

(** The severities the detection rules assign: positive multiples of 5. *)
Definition rule_severity (z : Z) : Prop := z mod 5 = 0 /\ 0 < z.

Definition severities_ok (l : list WifiIssue) : Prop :=
  Forall (fun i => rule_severity (severity i)) l.

(** The weights of the available data. *)
Definition data_completeness (ssid client desc : bool) : Z :=
  (if ssid then 30 else 0) + (if client then 30 else 0)
  + (if desc then 20 else 0).

(** *** Validation *)

(** The note appended to a description for confirmed failed connections. *)
Definition confirmation_note (fcs : list FailedConnection) : string :=
  " (Confirmed: " +:+ int_str (len fcs) +:+ " failed connection attempts)".

(** [issue'] is [issue] after one run of [_validate_with_api] and the
    adjustments of the validation loop. *)
Definition validated_as {W : Type}
    (nid : string) (ssid : option SsidData) (mc : option (MerakiClient W))
    (issue issue' : WifiIssue) : Prop :=
  exists (s1 s2 : Troubleshooter W) vr,
    _validate_with_api issue nid ssid mc s1 = (Return vr, s2)
    /\ issue' = apply_validation issue vr.

(** *** The keyword [details] *)

Definition details_keyword_error : Exn :=
  TypeError "WifiIssue.__init__() got an unexpected keyword argument 'details'".

(** An SSID snapshot that is enabled and requires PMF, with a description
    in client-compatibility language. *)
Definition pmf_required_snapshot (nd : NetworkData) : Prop :=
  default true (enabled (ssid_data nd)) = true
  /\ (exists pmf, dot11w (ssid_data nd) = Some pmf
                  /\ pmf_required_key pmf = Some true)
  /\ any_in client_issue_terms (lower_or_empty (issue_description nd)) = true.

(** *** Recommendations *)

(** Some suffix of [t], after dropping [k] characters for a [k] among
    [ks], is a prefix of [n]. *)
Definition overlaps_at (ks : list nat) (t n : string) : bool :=
  existsb (fun k => String.prefix (str_drop k t) n) ks.

(** What the safety loop emits for one recommendation. *)
Definition filter_one (rec : string) : list string :=
  if suggests_disabling rec then []
  else if mentions_open_enhanced rec then [ rec +:+ keep_enabled_note ]
  else [ rec ].

(** A property of the local [recommendations] of [_get_recommendations]. *)
Definition on_recs {W : Type} (J : list string -> Prop)
    (s : Troubleshooter W * (list Reference * list string)) : Prop :=
  J (snd (snd s)).

(** What the knowledge base may add to the rule recommendations. *)
Definition kb_candidates (kb_recs : list string) : Prop :=
  kb_recs = []
  \/ exists answer, str_truthy answer = true
                    /\ kb_recs = [ answer_recommendation answer ].

(** The guidance returned when no issue was found. *)
Definition no_issue_guidance : list string :=
  [ "No specific issues were identified. Consider checking the following:";
    "- Verify that the SSID is properly configured and enabled";
    "- Check that all access points are online and broadcasting the SSID";
    "- Ensure client devices have the correct security settings and credentials" ].

Definition is_open_enhanced (nd : NetworkData) : bool :=
  String.eqb (default "" (authMode (ssid_data nd))) "open-enhanced".

(** A retained recommendation as it is emitted: annotated when it
    mentions Open-Enhanced. *)
Definition emitted_form (c : string) : string :=
  if mentions_open_enhanced c then c +:+ keep_enabled_note else c.

(** The output reaffirms that Open-Enhanced stays enabled: through the
    guidance that replaces a filtered knowledge-base answer, or through the
    statement appended after the safety loop. *)
Definition reaffirmed (recs : list string) : Prop :=
  In (safe_guidance +:+ keep_enabled_note) recs
  \/ In reaffirming_statement recs.

(** [recs] is what remains of [candidates]: nothing in it suggests
    disabling Open-Enhanced; a candidate that does is absent and the output
    reaffirms the requirement; every other candidate is present in its
    emitted form; and nothing else is present. *)
Definition safely_filtered (candidates recs : list string) : Prop :=
  Forall (fun rec => suggests_disabling rec = false) recs
  /\ (forall c, In c candidates -> suggests_disabling c = true ->
                ~ In c recs /\ reaffirmed recs)
  /\ (forall c, In c candidates -> suggests_disabling c = false ->
                In (emitted_form c) recs)
  /\ (forall rec, In rec recs ->
        (exists c, In c candidates /\ suggests_disabling c = false
                   /\ rec = emitted_form c)
        \/ ((rec = safe_guidance +:+ keep_enabled_note
             \/ rec = reaffirming_statement)
            /\ exists c, In c candidates /\ suggests_disabling c = true)).

(** The candidate recommendations of a result: the rule-layer strings of
    its primary issue and at most one knowledge-base answer. *)
Definition candidates_of (r : TroubleshootingResult) (nd : NetworkData)
    (candidates : list string) : Prop :=
  match issues r with
  | [] => candidates = no_issue_guidance
  | first :: rest =>
      exists kb_answers,
        (kb_answers = [] \/ exists a, kb_answers = [ a ])
        /\ candidates
           = rule_recommendations (max_from first rest) (is_open_enhanced nd)
             ++ kb_answers
  end.

(** *** Sample inputs *)

Definition macbook_description : string :=
  "Can't connect to OfficeWiFi from my MacBook".

Definition plain_issue (t st : string) (sev : Z) (d : string)
    (comps : list string) : WifiIssue :=
  {| issue_type := t; issue_subtype := st; severity := sev;
     description := d; affected_components := comps;
     validation_details := no_details |}.

(** An SSID that is disabled, as number 3 of its network. *)
Definition disabled_ssid : SsidData :=
  {| enabled := Some false; broadcasting := None; authMode := None;
     dot11w := None; availabilityTags := None; availableOnAllAps := None;
     wpaConfig := None; number := Some 3; name := Some "OfficeWiFi";
     ssid_other_keys := false |}.

(** An SSID that is enabled and requires PMF. *)
Definition pmf_ssid : SsidData :=
  {| enabled := Some true; broadcasting := None; authMode := None;
     dot11w := Some {| pmf_enabled_key := Some true;
                       pmf_required_key := Some true |};
     availabilityTags := None; availableOnAllAps := None;
     wpaConfig := None; number := None; name := None;
     ssid_other_keys := false |}.

(** A knowledge base without state whose answer advises against the
    safety rule. *)
Definition unsafe_kb : KnowledgeBase unit :=
  {| initialize := ret tt;
     query := fun _ =>
       ret {| answer := Some "You can disable Open-Enhanced on this SSID.";
              topics := None |};
     get_topic_content := fun _ => ret {| references := Some [] |} |}.


Definition ready : Troubleshooter unit :=
  {| world := tt; _kb_initialized := true |}.

End WifiSpec.

(** * Further modules of the pipeline *)

(** ** More Python primitives *)

(** [min(xs)] and [max(xs)] over floats, from the first item on: the
    running extremum is replaced only by a strictly smaller (larger)
    item. *)
Fixpoint float_min_from (best : Q) (rest : list Q) : Q :=
  match rest with
  | [] => best
  | x :: rest' =>
      if Qltb x best then float_min_from x rest'
      else float_min_from best rest'
  end.

Fixpoint float_max_from (best : Q) (rest : list Q) : Q :=
  match rest with
  | [] => best
  | x :: rest' =>
      if Qltb best x then float_max_from x rest'
      else float_max_from best rest'
  end.

(** [sum(ns)] over ints. *)
Definition int_sum (ns : list Z) : Z := fold_left Z.add ns 0.

(** [c.upper()] on an ASCII character. *)
Definition upper_char (c : ascii) : ascii :=
  let n := N_of_ascii c in
  if ((97 <=? n) && (n <=? 122))%N then ascii_of_N (n - 32) else c.

(** [s.capitalize()] *)
Definition capitalize (s : string) : string :=
  match s with
  | EmptyString => EmptyString
  | String c s' => String (upper_char c) (lower s')
  end.

(** [s.replace("_", " ")] *)
Fixpoint replace_underscores (s : string) : string :=
  match s with
  | EmptyString => EmptyString
  | String c s' =>
      String (if Ascii.eqb c "_" then " "%char else c) (replace_underscores s')
  end.

(** [d.get(key)] on a dict kept in insertion order. *)
Fixpoint dict_get {A} (key : string) (d : list (string * A)) : option A :=
  match d with
  | [] => None
  | (k, v) :: d' => if String.eqb k key then Some v else dict_get key d'
  end.

(** ** [rf/spectrum.py]: the methods of [SpectrumData] *)

Module SpectrumMethods.
Import Spectrum.

(** [SpectrumData(access_point_serial, band, channel, channel_width)]:
    the dataclass defaults. *)
Definition SpectrumData_init
    (access_point_serial : string) (band : FrequencyBand) (channel : Z)
    (channel_width : ChannelWidth) : SpectrumData :=
  {| access_point_serial := access_point_serial;
     band := band; channel := channel; channel_width := channel_width;
     data_points := []; start_time := 0; end_time := 0 |}.

(** [SpectrumData.add_data_point]: the object after the call. *)
Definition add_data_point (self : SpectrumData) (data_point : SpectrumDataPoint)
  : SpectrumData :=
  let data_points := data_points self ++ [ data_point ] in
  let start_time :=
    if (start_time self =? 0) || (timestamp data_point <? start_time self)
    then timestamp data_point else start_time self in
  let end_time :=
    if end_time self <? timestamp data_point
    then timestamp data_point else end_time self in
  {| access_point_serial := access_point_serial self;
     band := band self; channel := channel self;
     channel_width := channel_width self;
     data_points := data_points;
     start_time := start_time; end_time := end_time |}.

(** [SpectrumData.get_frequency_range] *)
Definition get_frequency_range (self : SpectrumData) : Q * Q :=
  match map frequency (data_points self) with
  | [] => (0, 0)%Q
  | f :: fs =>
      let min_freq := float_min_from f fs in
      let max_freq := float_max_from f fs in
      (min_freq, max_freq)
  end.

End SpectrumMethods.

(** ** [rf/rf_troubleshooter.py] *)

Module RFTroubleshooter.
Import Spectrum Analyzer.

(** The dict of [KnowledgeBase.query] as this module reads it; keys
    [recommendations], [references]. *)
Record KbResults : Type := {
  kb_recommendations : option (list string);
  kb_references : option (list Wifi.Reference)
}.

(** The knowledge base of the troubleshooter, over a world [W]. *)
Class KnowledgeBase (W : Type) : Type := {
  initialize : M W unit;
  query : string -> M W KbResults;
  get_topic_content : string -> M W Wifi.TopicContent
}.

(** What a method of the troubleshooter raises: its own
    [RFTroubleshootingError], always built from a message alone, or an
    exception it does not catch. *)
Inductive Failure : Type :=
| RFTroubleshootingError (message : string)
| Uncaught (e : Exn).

(** [str(e)] *)
Definition failure_str (f : Failure) : string :=
  match f with
  | RFTroubleshootingError message => message
  | Uncaught e => exn_str e
  end.

Inductive Result (A : Type) : Type :=
| Done (a : A)
| Failed (f : Failure).
Arguments Done {A} a.
Arguments Failed {A} f.

(** [max(sources, key=lambda x: x.impact_level)]: the running maximum is
    replaced only by a strictly larger key. *)
Fixpoint max_impact_from
    (best : InterferenceSource) (rest : list InterferenceSource)
  : InterferenceSource :=
  match rest with
  | [] => best
  | x :: rest' =>
      if impact_level best <? impact_level x then max_impact_from x rest'
      else max_impact_from best rest'
  end.

(** The topic of the knowledge base for each issue type. *)
Definition topic_mapping : gmap string string :=
  list_to_map
    [ ("poor_channel_quality", "troubleshooting_2");
      ("normal_operation", "best_practices_1");
      ("bluetooth_interference", "rf_analysis_1");
      ("zigbee_interference", "rf_analysis_1");
      ("microwave_interference", "rf_analysis_1");
      ("radar_interference", "rf_analysis_1");
      ("co_channel_interference", "troubleshooting_2");
      ("unknown_interference", "troubleshooting_1") ].

(** The recommendations [_get_recommendations] appends for the issue
    type, once the topic content has been fetched. *)
Definition issue_recommendations (issue_type : string) : list string :=
  if String.eqb issue_type "bluetooth_interference" then
    [ "Consider switching to 5 GHz channels to avoid Bluetooth interference";
      "Increase distance between APs and Bluetooth devices" ]
  else if String.eqb issue_type "microwave_interference" then
    [ "Move the AP away from kitchen areas or microwave ovens";
      "Switch affected APs to the 5 GHz band if possible" ]
  else if String.eqb issue_type "co_channel_interference" then
    [ "Adjust channel planning to minimize overlap with neighboring networks";
      "Reduce transmit power to decrease the interference radius" ]
  else if String.eqb issue_type "poor_channel_quality" then
    [ "Consider performing a site survey to identify optimal AP placement" ]
  else [].

(** The question put to the knowledge base about the issue type. *)
Definition kb_question (issue_type : string) : string :=
  "How to resolve " +:+ replace_underscores issue_type
  +:+ " in Meraki wireless networks?".

(** The locals [knowledge_refs] and [recommendations]. *)
Definition extend_refs (refs : list Wifi.Reference)
    (l : list Wifi.Reference * list string)
  : list Wifi.Reference * list string :=
  (fst l ++ refs, snd l).

Definition extend_recommendations (recs : list string)
    (l : list Wifi.Reference * list string)
  : list Wifi.Reference * list string :=
  (fst l, snd l ++ recs).

(** [RFTroubleshooter._calculate_confidence]; [//] on a positive divisor
    is the floor quotient. *)
Definition _calculate_confidence
    (spectrum_analysis : SpectrumAnalysis) (issue_type : string) : Z :=
  let base_confidence :=
    if String.eqb issue_type "normal_operation" then
      channel_quality spectrum_analysis
    else if negb (truthy (interference_sources spectrum_analysis)) then 60
    else
      let interference_confidences :=
        map confidence (interference_sources spectrum_analysis) in
      int_sum interference_confidences / len interference_confidences in
  let data_points_factor :=
    Z.min 20 (len (data_points (spectrum_data spectrum_analysis)) / 10) in
  let confidence := Z.min 100 (base_confidence + data_points_factor) in
  confidence.

(** [TroubleshootingResult] of this module. *)
Record TroubleshootingResult : Type := {
  spectrum_analysis : SpectrumAnalysis;
  issue_type : string;
  issue_description : string;
  confidence : Z;
  recommendations : list string;
  knowledge_references : list Wifi.Reference
}.

Section Troubleshooter.

(** Python's conversions of a float to text, as in the analyzer. *)
Variable float_str : Q -> string.
Variable float_fmt1 : Q -> string.

Context {W : Type} `{KB : KnowledgeBase W}.

(** An [RFTroubleshooter] has the mutable attributes of a
    [WifiTroubleshooter]: its knowledge base, in the world, and
    [_kb_initialized]; its analyzer keeps no state. *)
Local Abbreviation T := (Wifi.Troubleshooter W).

Local Open Scope monad_scope.

(** [RFTroubleshooter._identify_issue_type] *)
Definition _identify_issue_type (spectrum_analysis : SpectrumAnalysis)
  : string * string :=
  match interference_sources spectrum_analysis with
  | [] =>
      if channel_quality spectrum_analysis <? 40 then
        ("poor_channel_quality",
         "Poor channel quality detected with no specific interference source. "
         +:+ "Channel quality score: "
         +:+ int_str (channel_quality spectrum_analysis) +:+ "/100. "
         +:+ "Noise floor: " +:+ float_str (noise_floor spectrum_analysis)
         +:+ " dBm.")
      else
        ("normal_operation",
         "No significant issues detected. "
         +:+ "Channel quality score: "
         +:+ int_str (channel_quality spectrum_analysis) +:+ "/100.")
  | first :: rest =>
      let primary_interference := max_impact_from first rest in
      if str_mem (type primary_interference)
           [ "bluetooth"; "zigbee"; "microwave" ] then
        (type primary_interference +:+ "_interference",
         capitalize (type primary_interference)
         +:+ " interference detected "
         +:+ "with impact level "
         +:+ int_str (impact_level primary_interference) +:+ "/100. "
         +:+ "Affected frequency range: "
         +:+ float_str (fst (frequency_range primary_interference)) +:+ " - "
         +:+ float_str (snd (frequency_range primary_interference))
         +:+ " MHz.")
      else if str_in "radar" (type primary_interference) then
        ("radar_interference",
         "Radar interference detected with impact level "
         +:+ int_str (impact_level primary_interference) +:+ "/100. "
         +:+ "This may cause DFS channels to be unavailable.")
      else if str_in "rogue" (type primary_interference) then
        ("co_channel_interference",
         "Co-channel interference from other WiFi networks detected "
         +:+ "with impact level "
         +:+ int_str (impact_level primary_interference) +:+ "/100. "
         +:+ "This may be causing contention on channel "
         +:+ int_str (channel (spectrum_data spectrum_analysis)) +:+ ".")
      else
        ("unknown_interference",
         "Unknown interference detected with impact level "
         +:+ int_str (impact_level primary_interference) +:+ "/100. "
         +:+ "Affected frequency range: "
         +:+ float_str (fst (frequency_range primary_interference)) +:+ " - "
         +:+ float_str (snd (frequency_range primary_interference))
         +:+ " MHz.")
  end.

(** [RFTroubleshooter._get_recommendations]: only [KnowledgeBaseError]
    is caught; what the knowledge-base stage added before it failed
    stays. *)
Definition _get_recommendations
    (issue_type : string) (spectrum_analysis : SpectrumAnalysis)
  : M T (list Wifi.Reference * list string) :=
  r <- frame ([], Spectrum.recommendations spectrum_analysis)
    (try_except
       (let topic_id :=
          default "troubleshooting_1" (topic_mapping !! issue_type) in
        topic_content <-
          await (Wifi.on_world (get_topic_content topic_id)) ;;
        (match Wifi.references topic_content with
         | Some refs => update (extend_refs refs)
         | None => ret tt
         end) ;;;
        update (extend_recommendations (issue_recommendations issue_type)) ;;;
        let kb_query := kb_question issue_type in
        kb_results <- await (Wifi.on_world (query kb_query)) ;;
        (match kb_recommendations kb_results with
         | Some recs => update (extend_recommendations recs)
         | None => ret tt
         end) ;;;
        match kb_references kb_results with
        | Some refs => update (extend_refs refs)
        | None => ret tt
        end)
       (fun e =>
          match e with
          | KnowledgeBaseError _ => ret tt
          | _ => raise e
          end)) ;;
  let '(knowledge_refs, recommendations) := snd r in
  let unique_recommendations :=
    Wifi.unique_recommendations recommendations in
  ret (knowledge_refs, unique_recommendations).

(** [RFTroubleshooter.initialize_knowledge_base] *)
Definition initialize_knowledge_base (self : T) : Result unit * T :=
  if Wifi._kb_initialized self then (Done tt, self)
  else
    match initialize (Wifi.world self) with
    | (Return _, w') =>
        (Done tt, {| Wifi.world := w'; Wifi._kb_initialized := true |})
    | (Raise (KnowledgeBaseError m), w') =>
        (Failed (RFTroubleshootingError
                   ("Failed to initialize knowledge base: " +:+ m)),
         {| Wifi.world := w';
            Wifi._kb_initialized := Wifi._kb_initialized self |})
    | (Raise e, w') =>
        (Failed (Uncaught e),
         {| Wifi.world := w';
            Wifi._kb_initialized := Wifi._kb_initialized self |})
    end.

(** The [try] body of [troubleshoot]. *)
Definition diagnose (spectrum_data : SpectrumData)
  : M T TroubleshootingResult :=
  spectrum_analysis <-
    lift (analyze_spectrum float_str float_fmt1 spectrum_data) ;;
  let '(issue_type, issue_details) :=
    _identify_issue_type spectrum_analysis in
  r <- _get_recommendations issue_type spectrum_analysis ;;
  let '(knowledge_refs, recommendations) := r in
  let confidence := _calculate_confidence spectrum_analysis issue_type in
  ret {| spectrum_analysis := spectrum_analysis;
         issue_type := issue_type;
         issue_description := issue_details;
         confidence := confidence;
         recommendations := recommendations;
         knowledge_references := knowledge_refs |}.

(** [RFTroubleshooter.troubleshoot]: every exception of the body is
    re-raised as [RFTroubleshootingError]. *)
Definition troubleshoot (spectrum_data : SpectrumData) (self : T)
  : Result TroubleshootingResult * T :=
  match (if negb (Wifi._kb_initialized self)
         then initialize_knowledge_base self else (Done tt, self)) with
  | (Failed f, self) => (Failed f, self)
  | (Done _, self) =>
      match diagnose spectrum_data self with
      | (Return result, self) => (Done result, self)
      | (Raise (RFAnalysisError m d), self) =>
          (Failed (RFTroubleshootingError
                     ("RF analysis failed during troubleshooting: "
                      +:+ exn_str (RFAnalysisError m d))), self)
      | (Raise (KnowledgeBaseError m), self) =>
          (Failed (RFTroubleshootingError
                     ("Knowledge base query failed during troubleshooting: "
                      +:+ m)), self)
      | (Raise e, self) =>
          (Failed (RFTroubleshootingError
                     ("Unexpected error during RF troubleshooting: "
                      +:+ exn_str e)), self)
      end
  end.

(** The loop of [batch_troubleshoot]: an item that fails with
    [RFTroubleshootingError] is skipped; any other exception leaves the
    loop. *)
Fixpoint batch_loop
    (spectrum_data_list : list SpectrumData)
    (results : gmap string TroubleshootingResult) (self : T)
  : Result (gmap string TroubleshootingResult) * T :=
  match spectrum_data_list with
  | [] => (Done results, self)
  | spectrum_data :: rest =>
      let ap_serial := access_point_serial spectrum_data in
      match troubleshoot spectrum_data self with
      | (Done result, self) =>
          batch_loop rest (<[ap_serial := result]> results) self
      | (Failed (RFTroubleshootingError _), self) =>
          batch_loop rest results self
      | (Failed (Uncaught e), self) => (Failed (Uncaught e), self)
      end
  end.

(** [RFTroubleshooter.batch_troubleshoot] *)
Definition batch_troubleshoot
    (spectrum_data_list : list SpectrumData) (self : T)
  : Result (gmap string TroubleshootingResult) * T :=
  match (if negb (Wifi._kb_initialized self)
         then initialize_knowledge_base self else (Done tt, self)) with
  | (Failed f, self) => (Failed f, self)
  | (Done _, self) =>
      match batch_loop spectrum_data_list ∅ self with
      | (Done results, self) => (Done results, self)
      | (Failed f, self) =>
          (Failed (RFTroubleshootingError
                     ("Batch troubleshooting failed: " +:+ failure_str f)),
           self)
      end
  end.

End Troubleshooter.

End RFTroubleshooter.

(** ** [knowledge/wifi_kb.py] *)

Module WifiKB.
Import Analyzer Wifi.

(** A topic of [self.topics]; keys [id], [title], [description],
    [category] and, for some topics, [source_url]. *)
Record TopicDict : Type := {
  topic_id : string;
  topic_title : string;
  topic_description : string;
  topic_category : string;
  topic_source_url : option string
}.

(** An entry of [self.knowledge_data]; keys [content], [references]. *)
Record ContentDict : Type := {
  content : string;
  content_references : list Reference
}.

(** The attributes of a [WifiKnowledgeBase] that its methods read or
    write. *)
Record WifiKnowledgeBase : Type := {
  _initialized : bool;
  knowledge_data : list (string * ContentDict);
  categories : list string;
  topics : list (string * list TopicDict)
}.

(** [WifiKnowledgeBase(config)] *)
Definition WifiKnowledgeBase_init : WifiKnowledgeBase :=
  {| _initialized := false; knowledge_data := [];
     categories := []; topics := [] |}.

(** *** The data that [initialize] installs *)

Definition initial_categories : list string :=
  [ "wifi_basics"; "best_practices"; "troubleshooting"; "rf_analysis" ].

Definition initial_topics : list (string * list TopicDict) :=
  [
    ("wifi_basics",
     [
       {| topic_id := "wifi_basics_1";
          topic_title := "Understanding WiFi Fundamentals";
          topic_description :=
            "Basic concepts of WiFi networking and wireless communication";
          topic_category := "wifi_basics";
          topic_source_url := None |};
       {| topic_id := "wifi_basics_2";
          topic_title := "802.11 Standards and Protocols";
          topic_description :=
            "Overview of WiFi standards and protocols (802.11a/b/g/n/ac/ax)";
          topic_category := "wifi_basics";
          topic_source_url := None |} ]);
    ("best_practices",
     [
       {| topic_id := "best_practices_1";
          topic_title := "WiFi Network Design Best Practices";
          topic_description :=
            "Guidelines for designing optimal WiFi networks";
          topic_category := "best_practices";
          topic_source_url := Some
               "https://documentation.meraki.com/MR/Wi-Fi_Basics_and_Best_Practices" |};
       {| topic_id := "best_practices_2";
          topic_title := "Channel Planning and Radio Settings";
          topic_description :=
            "Best practices for channel selection and radio configuration";
          topic_category := "best_practices";
          topic_source_url := Some
               "https://documentation.meraki.com/MR/Wi-Fi_Basics_and_Best_Practices" |};
       {| topic_id := "best_practices_3";
          topic_title := "Security Recommendations";
          topic_description :=
            "WiFi security best practices for Meraki networks";
          topic_category := "best_practices";
          topic_source_url := Some
               "https://documentation.meraki.com/MR/Wi-Fi_Basics_and_Best_Practices" |} ]);
    ("troubleshooting",
     [
       {| topic_id := "troubleshooting_1";
          topic_title := "Wireless Issue Resolution Guide";
          topic_description :=
            "Comprehensive guide for resolving common wireless issues";
          topic_category := "troubleshooting";
          topic_source_url := Some
               "https://documentation.meraki.com/MR/Wireless_Troubleshooting/Wireless_Issue_Resolution_Guide" |};
       {| topic_id := "troubleshooting_2";
          topic_title := "Tools for Troubleshooting Poor Wireless Performance";
          topic_description :=
            "Meraki tools and approaches for diagnosing wireless performance issues";
          topic_category := "troubleshooting";
          topic_source_url := Some
               "https://documentation.meraki.com/MR/Wi-Fi_Basics_and_Best_Practices/Tools_for_Troubleshooting_Poor_Wireless_Performance" |};
       {| topic_id := "troubleshooting_3";
          topic_title := "Client Connectivity Issues";
          topic_description :=
            "Diagnosing and resolving client connection problems";
          topic_category := "troubleshooting";
          topic_source_url := Some
               "https://documentation.meraki.com/MR/Wireless_Troubleshooting/Wireless_Issue_Resolution_Guide" |} ]);
    ("rf_analysis",
     [
       {| topic_id := "rf_analysis_1";
          topic_title := "Understanding RF Spectrum Analysis";
          topic_description :=
            "Basics of RF spectrum analysis and interpretation";
          topic_category := "rf_analysis";
          topic_source_url := None |};
       {| topic_id := "rf_analysis_2";
          topic_title := "Using Meraki RF Spectrum Analyzer";
          topic_description :=
            "Guide to using the built-in RF spectrum analysis tools";
          topic_category := "rf_analysis";
          topic_source_url := None |} ]) ].

Definition wifi_basics_1_content : string :=
  "WiFi Fundamentals content would go here...".

Definition best_practices_1_content : string :=
  join_lines
    [ "";
      "                    # WiFi Network Design Best Practices";
      "                    ";
      "                    ## Access Point Placement";
      "                    - Mount APs at ceiling height when possible";
      "                    - Avoid mounting APs near metal objects or concrete walls";
      "                    - For optimal coverage, place APs centrally in the intended coverage area";
      "                    - Maintain 30-40 foot spacing between APs in typical office environments";
      "                    ";
      "                    ## Channel Configuration";
      "                    - Use auto channel configuration where possible";
      "                    - For manual configuration, use non-overlapping channels (1, 6, 11) on 2.4 GHz";
      "                    - For 5 GHz, maximize channel separation and utilize DFS channels when allowed";
      "                    ";
      "                    ## Power Settings";
      "                    - Avoid maximum power settings in dense environments";
      "                    - Target -65 to -70 dBm as the minimum signal strength at the edge of the coverage area";
      "                    - Adjust power evenly across all APs in the same area";
      "                    " ].

Definition troubleshooting_1_content : string :=
  join_lines
    [ "";
      "                    # Wireless Issue Resolution Guide";
      "                    ";
      "                    ## Common Wireless Issues and Resolutions";
      "                    ";
      "                    ### Connectivity Issues";
      "                    1. **Client Cannot Connect to SSID**";
      "                       - Verify the SSID is broadcasting";
      "                       - Check client compatibility with the security type";
      "                       - Ensure the passphrase is correct";
      "                       - Verify the client is within range of an AP";
      "                       ";
      "                    2. **Intermittent Connectivity**";
      "                       - Check for RF interference";
      "                       - Verify adequate signal strength (-67 dBm or better)";
      "                       - Check for overlapping channels";
      "                       - Ensure adequate AP density for the environment";
      "                       ";
      "                    3. **Poor Performance**";
      "                       - Identify potential sources of interference";
      "                       - Check for channel utilization above 50%";
      "                       - Verify appropriate bandwidth settings";
      "                       - Check for outdated clients or drivers";
      "                    " ].

Definition troubleshooting_2_content : string :=
  join_lines
    [ "";
      "                    # Tools for Troubleshooting Poor Wireless Performance";
      "                    ";
      "                    ## Meraki Dashboard Tools";
      "                    ";
      "                    ### Wireless Health";
      "                    - **Connection Stats**: Monitors connection success rate and failures";
      "                    - **Latency Stats**: Tracks latency between clients, APs, and gateways";
      "                    - **Performance Stats**: Shows throughput and signal quality metrics";
      "                    ";
      "                    ### Air Marshal";
      "                    - Detects and locates rogue APs and potential security threats";
      "                    - Identifies interfering networks";
      "                    ";
      "                    ### Channel Utilization";
      "                    - Shows channel usage and interference levels";
      "                    - Helps identify congested channels";
      "                    ";
      "                    ## Client-Side Tools";
      "                    - **Wireless Diagnostics** (macOS): Built-in tool for analyzing WiFi connections";
      "                    - **NetSpot**: WiFi analyzer for site surveys";
      "                    - **WiFi Analyzer** (Android): Mobile app for checking signal strength and channels";
      "                    " ].

Definition troubleshooting_3_content : string :=
  join_lines
    [ "";
      "                    # Client Connectivity Issues";
      "                    ";
      "                    ## Common Client Connectivity Problems";
      "                    ";
      "                    ### Authentication Failures";
      "                    - **WPA/WPA2 Authentication Failures**";
      "                      - Verify the correct passphrase is being used";
      "                      - Check for special characters that might be misinterpreted";
      "                      - Ensure client supports the chosen encryption method";
      "                    ";
      "                    - **802.1X Authentication Issues**";
      "                      - Verify RADIUS server configuration";
      "                      - Check client certificates and EAP methods";
      "                      - Confirm user credentials are valid";
      "                    ";
      "                    ### Association Problems";
      "                    - **Client Cannot See SSID**";
      "                      - Verify SSID broadcasting is enabled";
      "                      - Check client is in range of the AP";
      "                      - Ensure client supports the frequency band (2.4 GHz vs 5 GHz)";
      "                    ";
      "                    - **Client Can See SSID But Cannot Connect**";
      "                      - Check signal strength (should be -70 dBm or better)";
      "                      - Verify client is not on a blocklist";
      "                      - Check for MAC filtering rules";
      "                    ";
      "                    ### Post-Connection Issues";
      "                    - **Client Disconnects Frequently**";
      "                      - Look for roaming issues between APs";
      "                      - Check for interference sources";
      "                      - Verify adequate signal strength throughout coverage area";
      "                    ";
      "                    - **Client Gets IP But Cannot Access Resources**";
      "                      - Check VLAN configuration";
      "                      - Verify firewall and traffic shaping rules";
      "                      - Confirm DNS services are working properly";
      "                    " ].

Definition rf_analysis_1_content : string :=
  "RF Spectrum Analysis content would go here...".

Definition initial_knowledge_data : list (string * ContentDict) :=
  [
    ("wifi_basics_1",
     {| content := wifi_basics_1_content;
        content_references :=
          [] |});
    ("best_practices_1",
     {| content := best_practices_1_content;
        content_references :=
          [ {| ref_title := "WiFi Basics and Best Practices";
               ref_url :=
                 "https://documentation.meraki.com/MR/Wi-Fi_Basics_and_Best_Practices" |} ] |});
    ("troubleshooting_1",
     {| content := troubleshooting_1_content;
        content_references :=
          [ {| ref_title := "Wireless Issue Resolution Guide";
               ref_url :=
                 "https://documentation.meraki.com/MR/Wireless_Troubleshooting/Wireless_Issue_Resolution_Guide" |} ] |});
    ("troubleshooting_2",
     {| content := troubleshooting_2_content;
        content_references :=
          [ {| ref_title := "Tools for Troubleshooting Poor Wireless Performance";
               ref_url :=
                 "https://documentation.meraki.com/MR/Wi-Fi_Basics_and_Best_Practices/Tools_for_Troubleshooting_Poor_Wireless_Performance" |} ] |});
    ("troubleshooting_3",
     {| content := troubleshooting_3_content;
        content_references :=
          [ {| ref_title := "Wireless Issue Resolution Guide";
               ref_url :=
                 "https://documentation.meraki.com/MR/Wireless_Troubleshooting/Wireless_Issue_Resolution_Guide" |};
            {| ref_title := "Troubleshooting Client Connectivity";
               ref_url :=
                 "https://documentation.meraki.com/MR/Client_Addressing_and_Bridging/Troubleshooting_Client_Connectivity" |} ] |});
    ("rf_analysis_1",
     {| content := rf_analysis_1_content;
        content_references :=
          [] |}) ].

(** *** The methods *)

(** [WifiKnowledgeBase.initialize]: the body only assigns, so its
    handler is never entered. *)
Definition initialize : M WifiKnowledgeBase unit :=
  fun self =>
    (Return tt,
     {| _initialized := true;
        knowledge_data := initial_knowledge_data;
        categories := initial_categories;
        topics := initial_topics |}).

(** The dict [query] returns; keys [answer], [topics], [references].  A
    topic that [next(.., {})] did not find is [None]. *)
Record QueryResponse : Type := {
  answer : string;
  response_topics : list (option TopicDict);
  response_references : list Reference
}.

(** A branch of the keyword matching of [query]. *)
Definition matched_response
    (self : WifiKnowledgeBase) (topic_id' category answer : string)
  : Outcome QueryResponse :=
  let topic_data := dict_get topic_id' (knowledge_data self) in
  match dict_get category (topics self) with
  | None => Raise (KeyError category)
  | Some category_topics =>
      Return
        {| answer := answer;
           response_topics :=
             [ List.find (fun t => String.eqb (topic_id t) topic_id')
                 category_topics ];
           response_references :=
             match topic_data with
             | Some topic_data => content_references topic_data
             | None => []
             end |}
  end.

(** [try: body  except Exception as e: raise KnowledgeBaseError(prefix + str(e))] *)
Definition wrapped {A} (prefix : string) (body : Outcome A)
  : M WifiKnowledgeBase A :=
  fun self =>
    match body with
    | Return a => (Return a, self)
    | Raise e => (Raise (KnowledgeBaseError (prefix +:+ exn_str e)), self)
    end.

Definition not_initialized {A} : M WifiKnowledgeBase A :=
  raise (KnowledgeBaseError "Knowledge base not initialized").

(** [WifiKnowledgeBase.query] *)
Definition query (query : string) : M WifiKnowledgeBase QueryResponse :=
  fun self =>
    if negb (_initialized self) then not_initialized self
    else
      wrapped "Error querying WiFi knowledge base: "
        (let query := lower query in
         if str_in "best practice" query || str_in "design" query then
           matched_response self "best_practices_1" "best_practices"
             "Based on Meraki's best practices for WiFi network design, you should consider proper AP placement, channel configuration, and power settings."
         else if str_in "troubleshoot" query || str_in "issue" query
                 || str_in "problem" query then
           matched_response self "troubleshooting_1" "troubleshooting"
             "For troubleshooting wireless issues, start by checking connectivity, signal strength, and potential interference sources."
         else if str_in "performance" query || str_in "slow" query then
           matched_response self "troubleshooting_2" "troubleshooting"
             "To troubleshoot poor wireless performance, use Meraki Dashboard tools like Wireless Health, Air Marshal, and Channel Utilization."
         else if str_in "rf" query || str_in "spectrum" query
                 || str_in "interference" query then
           matched_response self "rf_analysis_1" "rf_analysis"
             "RF spectrum analysis helps identify interference sources and optimize wireless performance."
         else
           Return
             {| answer :=
                  "I don't have specific information about that query. Try asking about WiFi best practices, troubleshooting, or RF analysis.";
                response_topics := [];
                response_references := [] |})
        self.

(** [WifiKnowledgeBase.get_categories] *)
Definition get_categories : M WifiKnowledgeBase (list string) :=
  fun self =>
    if negb (_initialized self) then not_initialized self
    else (Return (categories self), self).

(** [self.topics.values()], flattened in iteration order. *)
Definition all_topics (self : WifiKnowledgeBase) : list TopicDict :=
  concat (map snd (topics self)).

(** [WifiKnowledgeBase.get_topics] *)
Definition get_topics (category : option string)
  : M WifiKnowledgeBase (list TopicDict) :=
  fun self =>
    if negb (_initialized self) then not_initialized self
    else
      wrapped "Error getting topics: "
        (match category with
         | Some category =>
             if str_truthy category then
               if negb (str_mem category (categories self))
               then Raise (KnowledgeBaseError
                             ("Unknown category: " +:+ category))
               else Return (default [] (dict_get category (topics self)))
             else Return (all_topics self)
         | None => Return (all_topics self)
         end)
        self.

(** The dict [get_topic_content] returns: the metadata of the topic with
    the keys [content] and [references]. *)
Record TopicContentDict : Type := {
  metadata : TopicDict;
  topic_content : string;
  topic_references : list Reference
}.

(** [WifiKnowledgeBase.get_topic_content]: the two loops stop at the
    first topic with the id, in the iteration order of the categories. *)
Definition get_topic_content (topic_id' : string)
  : M WifiKnowledgeBase TopicContentDict :=
  fun self =>
    if negb (_initialized self) then not_initialized self
    else
      wrapped "Error getting topic content: "
        (let topic_metadata :=
           List.find (fun topic => String.eqb (topic_id topic) topic_id')
             (all_topics self) in
         match topic_metadata with
         | None =>
             Raise (KnowledgeBaseError ("Topic not found: " +:+ topic_id'))
         | Some topic_metadata =>
             match dict_get topic_id' (knowledge_data self) with
             | None =>
                 Raise (KnowledgeBaseError
                          ("Content not found for topic: " +:+ topic_id'))
             | Some topic_content =>
                 Return {| metadata := topic_metadata;
                           topic_content := content topic_content;
                           topic_references :=
                             content_references topic_content |}
             end
         end)
        self.

(** *** The knowledge base as the troubleshooters read it *)

(** [m], with its result read through [f]. *)
Definition read_as {A B} (f : A -> B) (m : M WifiKnowledgeBase A)
  : M WifiKnowledgeBase B :=
  fun self =>
    match m self with
    | (Return a, self) => (Return (f a), self)
    | (Raise e, self) => (Raise e, self)
    end.

Definition topic_content_view (d : TopicContentDict) : TopicContent :=
  {| references := Some (topic_references d) |}.

(** The knowledge base of a [WifiTroubleshooter]. *)
Definition wifi_knowledge_base : Wifi.KnowledgeBase WifiKnowledgeBase :=
  {| Wifi.initialize := initialize;
     Wifi.query := fun q =>
       read_as
         (fun r =>
            {| Wifi.answer := Some (answer r);
               Wifi.topics :=
                 Some (map (fun t =>
                              {| topic_key_id := option_map topic_id t |})
                         (response_topics r)) |})
         (query q);
     Wifi.get_topic_content := fun t =>
       read_as topic_content_view (get_topic_content t) |}.

(** The knowledge base of an [RFTroubleshooter]: the answers carry no
    key [recommendations]. *)
Definition rf_knowledge_base
  : RFTroubleshooter.KnowledgeBase WifiKnowledgeBase :=
  {| RFTroubleshooter.initialize := initialize;
     RFTroubleshooter.query := fun q =>
       read_as
         (fun r =>
            {| RFTroubleshooter.kb_recommendations := None;
               RFTroubleshooter.kb_references :=
                 Some (response_references r) |})
         (query q);
     RFTroubleshooter.get_topic_content := fun t =>
       read_as topic_content_view (get_topic_content t) |}.

(** A fresh [WifiTroubleshooter] or [RFTroubleshooter]. *)
Definition new_troubleshooter : Troubleshooter WifiKnowledgeBase :=
  {| world := WifiKnowledgeBase_init; _kb_initialized := false |}.

End WifiKB.

(** * Vocabulary of the further properties *)

Module SpectrumSpec.
Import Spectrum.

(** The window of a [SpectrumData] is exact: unset without readings,
    otherwise the earliest and the latest timestamp. *)
Definition window_ok (sd : SpectrumData) : Prop :=
  match data_points sd with
  | [] => start_time sd = 0 /\ end_time sd = 0
  | _ :: _ =>
      0 < start_time sd
      /\ (exists dp, In dp (data_points sd) /\ start_time sd = timestamp dp)
      /\ (exists dp, In dp (data_points sd) /\ end_time sd = timestamp dp)
      /\ Forall (fun dp => start_time sd <= timestamp dp <= end_time sd)
           (data_points sd)
  end.

End SpectrumSpec.

Module AnalyzerSpec.
Import Spectrum Analyzer.


(** The recommendation [_generate_recommendations] has for a source of
    each type it knows. *)
Definition source_recommendation (t : string) : option string :=
  if String.eqb t "microwave" then
    Some "Microwave oven interference detected. Consider moving the AP further from kitchen areas or switching to 5 GHz operations."
  else if String.eqb t "bluetooth" then
    Some "Bluetooth interference detected. Consider moving Bluetooth devices away from the AP or switching to 5 GHz operations."
  else if String.eqb t "radar" then
    Some "Radar/DFS interference detected. Consider using a non-DFS channel if stable operation is required."
  else None.

End AnalyzerSpec.

Module RFTroubleshooterSpec.
Import Spectrum Analyzer RFTroubleshooter.

(** The knowledge base fails with [KnowledgeBaseError] only. *)
Definition kb_errors_only {W : Type} (KB : KnowledgeBase W) : Prop :=
  (forall t w e w', get_topic_content t w = (Raise e, w') ->
                    exists m, e = KnowledgeBaseError m)
  /\ (forall q w e w', query q w = (Raise e, w') ->
                       exists m, e = KnowledgeBaseError m).

(** [e] was raised by a call to the knowledge base. *)
Definition raised_by_kb {W : Type} (KB : KnowledgeBase W) (e : Exn) : Prop :=
  (exists t w w', get_topic_content t w = (Raise e, w'))
  \/ (exists q w w', query q w = (Raise e, w')).

(** [rec] is among the recommendations of some answer of the knowledge
    base. *)
Definition recommended_by_kb {W : Type} (KB : KnowledgeBase W)
    (rec : string) : Prop :=
  exists q w w' res recs,
    query q w = (Return res, w')
    /\ kb_recommendations res = Some recs /\ In rec recs.

(** [self] with the world [w]. *)
Definition with_world {W : Type} (self : Wifi.Troubleshooter W) (w : W)
  : Wifi.Troubleshooter W :=
  {| Wifi.world := w; Wifi._kb_initialized := Wifi._kb_initialized self |}.


End RFTroubleshooterSpec.

Module WifiKBSpec.
Import Wifi WifiKB.

(** The knowledge base after [initialize]. *)
Definition ready_kb : WifiKnowledgeBase :=
  {| _initialized := true;
     knowledge_data := initial_knowledge_data;
     categories := initial_categories;
     topics := initial_topics |}.

(** The ids of the topics that [initialize] declares. *)
Definition declared_topics : list string :=
  [ "wifi_basics_1"; "wifi_basics_2"; "best_practices_1"; "best_practices_2";
    "best_practices_3"; "troubleshooting_1"; "troubleshooting_2";
    "troubleshooting_3"; "rf_analysis_1"; "rf_analysis_2" ].

(** The ids of the topics that have an entry in [knowledge_data]. *)
Definition topics_with_content : list string :=
  [ "wifi_basics_1"; "best_practices_1"; "troubleshooting_1";
    "troubleshooting_2"; "troubleshooting_3"; "rf_analysis_1" ].

Definition not_initialized_error : Exn :=
  KnowledgeBaseError "Knowledge base not initialized".

(** The five answers of [query]. *)
Definition best_practices_answer : string :=
  "Based on Meraki's best practices for WiFi network design, you should consider proper AP placement, channel configuration, and power settings.".

Definition troubleshooting_answer : string :=
  "For troubleshooting wireless issues, start by checking connectivity, signal strength, and potential interference sources.".

Definition performance_answer : string :=
  "To troubleshoot poor wireless performance, use Meraki Dashboard tools like Wireless Health, Air Marshal, and Channel Utilization.".

Definition rf_answer : string :=
  "RF spectrum analysis helps identify interference sources and optimize wireless performance.".

Definition default_answer : string :=
  "I don't have specific information about that query. Try asking about WiFi best practices, troubleshooting, or RF analysis.".

Definition query_answers : list string :=
  [ best_practices_answer; troubleshooting_answer; performance_answer;
    rf_answer; default_answer ].

(** A troubleshooter whose knowledge base is initialised. *)
Definition ready_troubleshooter : Troubleshooter WifiKnowledgeBase :=
  {| world := ready_kb; _kb_initialized := true |}.

End WifiKBSpec.

Module WifiChecksSpec.
Import Analyzer Wifi WifiSpec.

(** The description uses client-compatibility language. *)
Definition client_issues_mentioned (nd : NetworkData) : bool :=
  any_in client_issue_terms (lower_or_empty (issue_description nd)).

Definition pmf_required (nd : NetworkData) : bool :=
  default false
    (pmf_required_key
       (default {| pmf_enabled_key := None; pmf_required_key := None |}
          (dot11w (ssid_data nd)))).

Definition restricted_to_tags (nd : NetworkData) : bool :=
  truthy (default [] (availabilityTags (ssid_data nd)))
  && negb (default true (availableOnAllAps (ssid_data nd))).

Definition wpa3_only (nd : NetworkData) : bool :=
  bool_decide (authMode (ssid_data nd) = Some "wpa3")
  || bool_decide (authMode (ssid_data nd) = Some "wpa3-enterprise").

(** One of the rules of [_check_ssid_issues] that pass [details] to
    [WifiIssue] applies. *)
Definition details_rule_fires (nd : NetworkData) : bool :=
  (pmf_required nd && client_issues_mentioned nd)
  || restricted_to_tags nd
  || (wpa3_only nd && client_issues_mentioned nd).

Definition open_network_mentioned (nd : NetworkData) : bool :=
  bool_decide (authMode (ssid_data nd) = Some "open")
  && str_in "open" (lower_or_empty (issue_description nd)).

Definition ssid_disabled_issue : WifiIssue :=
  plain_issue "configuration" "ssid_disabled" 90
    "The SSID is disabled in the network configuration" [ "ssid" ].

Definition not_broadcasting_issue : WifiIssue :=
  plain_issue "connectivity" "ssid_not_broadcasting" 80
    "The SSID is enabled but not broadcasting" [ "ssid"; "access_points" ].

Definition open_network_issue : WifiIssue :=
  plain_issue "security" "open_network_issues" 60
    "Open network (not Open-Enhanced) may be causing connection issues with some client devices"
    [ "ssid"; "clients" ].

Definition cross_platform_issue : WifiIssue :=
  plain_issue "compatibility" "cross_platform_issues" 65
    "Issue affects multiple device types, suggesting SSID configuration incompatibility"
    [ "ssid"; "clients" ].

(** The description, lower-cased, names Mac and Windows, or multiple
    devices. *)
Definition cross_platform (description : string) : bool :=
  (str_in "mac" description && str_in "windows" description)
  || str_in "multiple devices" description.

(** The subtypes that the checks against the dashboard can report. *)
Definition ap_check_subtypes : list string :=
  [ "no_wireless_aps"; "radio_status_issue"; "high_channel_utilization" ].

Definition client_check_subtypes : list string :=
  [ "no_connected_clients"; "no_clients_on_ssid" ].

Definition subtypes_within (allowed : list string) (l : list WifiIssue)
  : Prop :=
  Forall (fun i => In (issue_subtype i) allowed) l.

(** A wireless access point that is not online. *)
Definition offline_ap (ap : Device) : Prop :=
  startswith (default "" (dev_model ap)) "MR" = true
  /\ dev_status ap <> Some "online".

(** A wireless client with a poor signal or an older 802.11 standard. *)
Definition weak_or_legacy_client (c : NetworkClient) : Prop :=
  is_Some (client_ssid c)
  /\ (default 0 (client_signal c) < -70
      \/ exists p, client_protocol c = Some p
                   /\ In p [ "802.11b"; "802.11g"; "802.11a" ]).

End WifiChecksSpec.

(** *** Sample inputs *)

Module ExtraSamples.
Import Spectrum.

(** Three readings, stamped 30, 10 and 20. *)
Definition stamped_points : list SpectrumDataPoint :=
  [ {| frequency := 2412; power := -90; utilization := 12; timestamp := 30 |};
    {| frequency := 2437; power := -88; utilization := 15; timestamp := 10 |};
    {| frequency := 2462; power := -91; utilization := 9; timestamp := 20 |} ].

(** A source of impact 45. *)
Definition sample_source : InterferenceSource :=
  {| type := "microwave"; frequency_range := (2445, 2465)%Q;
     avg_power := -70; impact_level := 45; confidence := 75;
     description := "Possible microwave oven interference detected" |}.

(** The analyzer with floats rendered as the empty text. *)
Definition sample_analyze (sd : SpectrumData) : Outcome SpectrumAnalysis :=
  Analyzer.analyze_spectrum (fun _ => "") (fun _ => "") sd.

End ExtraSamples.

(** * Properties of the spectrum analyzer *)

Module RFProperties.
Import Spectrum Analyzer RFSpec.

(** ** Sorting *)

Lemma insert_sorted_perm x l : Permutation (insert_sorted x l) (x :: l).
Proof.
  induction l as [|y l IH]; simpl; [reflexivity|].
  destruct (Qle_bool x y); [reflexivity|].
  rewrite IH. apply perm_swap.
Qed.

Lemma py_sorted_perm l : Permutation (py_sorted l) l.
Proof.
  induction l as [|x l IH]; simpl; [constructor|].
  rewrite insert_sorted_perm. now constructor.
Qed.

Lemma insert_sorted_sorted x l :
  StronglySorted Qle l -> StronglySorted Qle (insert_sorted x l).
Proof.
  induction 1 as [|y l Hs IH Hy]; simpl.
  - repeat constructor.
  - destruct (Qle_bool x y) eqn:E.
    + apply Qle_bool_iff in E. constructor; [now constructor|].
      constructor; [exact E|].
      eapply List.Forall_impl; [|exact Hy]. intros z Hz. now apply Qle_trans with y.
    + assert (Hyx : (y <= x)%Q).
      { destruct (Qlt_le_dec y x) as [H|H]; [now apply Qlt_le_weak|].
        apply Qle_bool_iff in H. congruence. }
      constructor; [exact IH|].
      eapply Permutation_Forall; [symmetry; apply insert_sorted_perm|].
      now constructor.
Qed.

Lemma py_sorted_sorted l : StronglySorted Qle (py_sorted l).
Proof.
  induction l; simpl; [constructor|now apply insert_sorted_sorted].
Qed.

Lemma py_sorted_length l : length (py_sorted l) = length l.
Proof. apply Permutation_length, py_sorted_perm. Qed.

(** ** Lengths and truncation *)

(** [int(N * 0.1)] is the integer quotient of [N] by 10. *)
Lemma py_int_tenth n : 0 <= n -> py_int (inject_Z n * (1 # 10)) = n / 10.
Proof.
  intros Hn. unfold py_int. simpl.
  rewrite Z.mul_1_r. apply Z.quot_div_nonneg; lia.
Qed.

Lemma len_cons {A} (x : A) l : len (x :: l) = len l + 1.
Proof. unfold len. simpl length. lia. Qed.

Lemma len_nonneg {A} (l : list A) : 0 <= len l.
Proof. unfold len. lia. Qed.

Lemma Qltb_lt x y : Qltb x y = true <-> (x < y)%Q.
Proof.
  unfold Qltb. rewrite negb_true_iff. split.
  - intros H. destruct (Qlt_le_dec x y) as [?|Hle]; [assumption|].
    apply Qle_bool_iff in Hle. congruence.
  - intros H. destruct (Qle_bool y x) eqn:E; [|reflexivity].
    apply Qle_bool_iff in E. lra.
Qed.

(** ** The interference rules *)

Lemma truthy_nonempty {A} (l : list A) : truthy l = true -> l <> [].
Proof. destruct l; [discriminate|congruence]. Qed.

Lemma truthy_len {A} (l : list A) n :
  0 <= n -> truthy l && (n <? len l) = (n <? len l).
Proof.
  intros Hn. destruct l; [|reflexivity]. simpl.
  symmetry. apply Z.ltb_ge. change (len []) with 0. lia.
Qed.

Lemma check_2_4ghz_unfold sd nf :
  _check_for_2_4ghz_interference sd nf =
  (if 5 <? len (microwave_points sd nf)
   then [ rule_source "microwave" 2445 2465 5 75
            "Possible microwave oven interference detected"
            (microwave_points sd nf) nf ]
   else [])
  ++ (if 10 <? len (bluetooth_points sd nf)
      then [ rule_source "bluetooth" 2402 2480 3 65
               "Bluetooth device interference detected"
               (bluetooth_points sd nf) nf ]
      else []).
Proof.
  unfold _check_for_2_4ghz_interference. cbv zeta.
  fold (microwave_points sd nf). fold (bluetooth_points sd nf).
  rewrite !truthy_len by lia.
  destruct (5 <? _); destruct (10 <? _); reflexivity.
Qed.

Lemma check_5ghz_unfold sd nf :
  _check_for_5ghz_interference sd nf =
  if 3 <? len (radar_points sd nf)
  then [ rule_source "radar" 5250 5350 4 80
           "Possible radar/DFS interference detected" (radar_points sd nf) nf ]
  else [].
Proof.
  unfold _check_for_5ghz_interference. cbv zeta.
  fold (radar_points sd nf).
  rewrite !truthy_len by lia.
  destruct (3 <? _); reflexivity.
Qed.

(** ** Noise floor and channel quality *)

Lemma noise_floor_returns sd :
  exists nf, _calculate_noise_floor sd = Return nf.
Proof.
  unfold _calculate_noise_floor.
  destruct (data_points sd) as [|dp dps] eqn:E; [eauto|].
  set (powers := py_sorted _). unfold py_index.
  destruct (nth_error powers _) eqn:En; [eauto|].
  apply nth_error_None in En. exfalso.
  assert (Hl : len powers = len (dp :: dps)).
  { unfold len, powers. now rewrite py_sorted_length, length_map. }
  rewrite py_int_tenth in En by apply len_nonneg.
  rewrite len_cons in Hl. pose proof (len_nonneg dps).
  assert (len powers / 10 <= len powers)
    by (apply Z.div_le_upper_bound; lia).
  unfold len in *. lia.
Qed.

Section Claims.

Variables (float_str float_fmt1 : Q -> string).

(** C5.  On an empty sample set the noise floor is exactly -95 dBm and
    the analysis reports a channel quality of 100.  On a non-empty set of
    N points the noise floor is the element at index
    [max(0, floor(0.1 * N) - 1)] of the power readings sorted ascending. *)
Theorem noise_floor_percentile (sd : SpectrumData) :
  (data_points sd = [] ->
   _calculate_noise_floor sd = Return (-95)%Q /\
   exists a, analyze_spectrum float_str float_fmt1 sd = Return a
             /\ noise_floor a = (-95)%Q /\ channel_quality a = 100)
  /\
  (data_points sd <> [] ->
   exists sorted nf,
     Permutation sorted (map power (data_points sd))
     /\ StronglySorted Qle sorted
     /\ _calculate_noise_floor sd = Return nf
     /\ nth_error sorted
          (Z.to_nat (Z.max 0 (len (data_points sd) / 10 - 1))) = Some nf).
Proof.
  split.
  - intros E. unfold analyze_spectrum, _calculate_noise_floor. rewrite E.
    split; [reflexivity|]. eexists. split; [reflexivity|].
    split; [reflexivity|]. cbn [channel_quality].
    unfold _identify_interference, _check_for_2_4ghz_interference,
      _check_for_5ghz_interference, _check_for_6ghz_interference,
      _evaluate_channel_quality, get_average_utilization.
    rewrite E. destruct (band sd); reflexivity.
  - intros Hne. destruct (noise_floor_returns sd) as [nf Hnf].
    exists (py_sorted (map power (data_points sd))), nf.
    split; [apply py_sorted_perm|]. split; [apply py_sorted_sorted|].
    split; [exact Hnf|].
    unfold _calculate_noise_floor in Hnf.
    destruct (data_points sd) as [|dp dps] eqn:E; [congruence|].
    rewrite py_int_tenth in Hnf by apply len_nonneg.
    unfold py_index in Hnf.
    replace (len (py_sorted (map power (dp :: dps)))) with (len (dp :: dps))
      in Hnf by (unfold len; now rewrite py_sorted_length, length_map).
    destruct (nth_error _ _); congruence.
Qed.

End Claims.

(** ** The microwave rule *)




(** ** Batch analysis *)

Lemma snoc_cases {A} (l : list A) : l = [] \/ exists l' x, l = l' ++ [x].
Proof. induction l using rev_ind; [now left|right; eauto]. Qed.

Section BatchFacts.
Variable analyze : SpectrumData -> Outcome SpectrumAnalysis.

Local Abbreviation rf_errors_only := (RFSpec.rf_errors_only analyze).
Local Abbreviation last_success := (RFSpec.last_success analyze).
Local Abbreviation sub_error := (RFSpec.sub_error analyze).
Local Abbreviation failing := (RFSpec.failing analyze).

Lemma batch_fold_snoc l sd acc :
  fold_left (batch_step analyze) (l ++ [sd]) acc
  = batch_step analyze (fold_left (batch_step analyze) l acc) sd.
Proof. now rewrite fold_left_app. Qed.

Lemma last_success_snoc_fail l sd k a :
  returns (analyze sd) = false ->
  last_success (l ++ [sd]) k a <-> last_success l k a.
Proof.
  intros Hf. split.
  - intros (l1 & x & l2 & E & Hk & Hx & Hall).
    destruct (snoc_cases l2) as [->|(l2' & y & ->)].
    + apply app_inj_tail in E as [-> ->]. rewrite Hx in Hf. discriminate.
    + change (x :: l2' ++ [y]) with ((x :: l2') ++ [y]) in E.
      rewrite app_assoc in E.
      apply app_inj_tail in E as [E1 E2]. subst l sd.
      apply Forall_app in Hall as [Hall _].
      now exists l1, x, l2'.
  - intros (l1 & x & l2 & -> & Hk & Hx & Hall).
    exists l1, x, (l2 ++ [sd]). rewrite <- app_assoc. simpl.
    repeat split; auto. apply Forall_app. split; [exact Hall|].
    constructor; [auto|constructor].
Qed.

Lemma last_success_snoc_ok l sd k a ax :
  analyze sd = Return ax ->
  last_success (l ++ [sd]) k a <->
  (k = access_point_serial sd /\ a = ax)
  \/ (k <> access_point_serial sd /\ last_success l k a).
Proof.
  intros Hok. split.
  - intros (l1 & x & l2 & E & Hk & Hx & Hall).
    destruct (snoc_cases l2) as [->|(l2' & y & ->)].
    + apply app_inj_tail in E as [E1 E2]. subst l sd. left.
      split; [congruence|congruence].
    + change (x :: l2' ++ [y]) with ((x :: l2') ++ [y]) in E.
      rewrite app_assoc in E.
      apply app_inj_tail in E as [E1 E2]. subst l sd.
      apply Forall_app in Hall as [Hall Hy].
      right. split.
      * intros ->. inversion Hy as [|? ? Hy' _]; subst.
        specialize (Hy' eq_refl). rewrite Hok in Hy'. discriminate.
      * now exists l1, x, l2'.
  - intros [[-> ->]|[Hne (l1 & x & l2 & -> & Hk & Hx & Hall)]].
    + exists l, sd, []. repeat split; auto.
    + exists l1, x, (l2 ++ [sd]). rewrite <- app_assoc. simpl.
      repeat split; auto. apply Forall_app. split; [exact Hall|].
      constructor; [|constructor]. intros E. congruence.
Qed.

Lemma last_success_nil k a : ~ last_success [] k a.
Proof. intros (l1 & x & l2 & E & _). destruct l1; discriminate. Qed.

Lemma last_success_In l k a :
  last_success l k a ->
  exists sd, In sd l /\ access_point_serial sd = k /\ analyze sd = Return a.
Proof.
  intros (l1 & sd & l2 & -> & Hk & Hok & _). exists sd.
  split; [apply in_or_app; right; now left|auto].
Qed.

Lemma last_success_exists l k :
  (exists sd, In sd l /\ access_point_serial sd = k
              /\ returns (analyze sd) = true) ->
  exists a, last_success l k a.
Proof.
  induction l as [|x l IH] using rev_ind; intros (sd & Hin & Hk & Hok).
  - destruct Hin.
  - destruct (analyze x) as [ax|e] eqn:Hx.
    + destruct (decide (k = access_point_serial x)) as [->|Hne].
      * exists ax. apply (last_success_snoc_ok _ _ _ _ _ Hx). now left.
      * apply in_app_or in Hin as [Hin|[->|[]]]; [|congruence].
        destruct IH as [a Ha]; [now exists sd|].
        exists a. apply (last_success_snoc_ok _ _ _ _ _ Hx). now right.
    + apply in_app_or in Hin as [Hin|[->|[]]].
      * destruct IH as [a Ha]; [now exists sd|].
        exists a. apply last_success_snoc_fail; [now rewrite Hx|exact Ha].
      * rewrite Hx in Hok. discriminate.
Qed.

Lemma batch_fold l :
  rf_errors_only l ->
  exists results errors,
    fold_left (batch_step analyze) l (Return (∅, [])) = Return (results, errors)
    /\ (forall k a, results !! k = Some a <-> last_success l k a)
    /\ Forall2 sub_error (List.filter failing l) errors.
Proof.
  induction l as [|sd l IH] using rev_ind; intros Hrf.
  - exists ∅, []. split; [reflexivity|]. split; [|constructor].
    intros k a. rewrite lookup_empty. split; [discriminate|].
    intros H. now apply last_success_nil in H.
  - destruct IH as (results & errors & Hfold & Hres & Herr).
    { intros x e Hin. apply Hrf. apply in_or_app. now left. }
    rewrite batch_fold_snoc, Hfold. unfold batch_step.
    rewrite List.filter_app. simpl. unfold failing at 2.
    destruct (analyze sd) as [ax|e] eqn:Hsd; simpl.
    + eexists. eexists. split; [reflexivity|]. rewrite app_nil_r.
      split; [|exact Herr]. intros k a.
      rewrite (last_success_snoc_ok _ _ _ _ _ Hsd).
      destruct (decide (access_point_serial sd = k)) as [<-|Hne].
      * rewrite lookup_insert_eq. split.
        -- intros [= ->]. now left.
        -- intros [[_ ->]|[Hne _]]; congruence.
      * rewrite lookup_insert_ne by exact Hne. rewrite Hres. split.
        -- intros H. right. split; [congruence|exact H].
        -- intros [[-> _]|[_ H]]; [congruence|exact H].
    + destruct (Hrf sd e) as (m & d & ->); [apply in_or_app; right; now left|exact Hsd|].
      eexists. eexists. split; [reflexivity|]. split.
      * intros k a. rewrite last_success_snoc_fail by (now rewrite Hsd).
        apply Hres.
      * apply Forall2_app; [exact Herr|]. constructor; [|constructor].
        exists (RFAnalysisError m d). split; [exact Hsd|reflexivity].
Qed.

Lemma filter_failing_all l :
  Forall (fun sd => returns (analyze sd) = false) l ->
  List.filter failing l = l.
Proof.
  induction 1 as [|sd l H _ IH]; simpl; [reflexivity|].
  unfold failing at 1. rewrite H. simpl. now rewrite IH.
Qed.

(** C8.  On a non-empty batch whose analyses fail with [RFAnalysisError]
    only: when every item fails the call raises [RFAnalysisError] with one
    sub-error per item, in order, under the key [errors]; when some item
    succeeds the call returns a map whose keys are exactly the serials of
    the successful items, each bound to the analysis of the last
    successful item with that serial. *)
Theorem batch_analyze_outcome (l : list SpectrumData) :
  l <> [] -> rf_errors_only l ->
  (Forall (fun sd => returns (analyze sd) = false) l ->
   exists errors,
     batch_analyze analyze l
     = Raise (RFAnalysisError
                ("Batch analysis failed for all " +:+ int_str (len l)
                 +:+ " access points")
                [ ("errors", errors) ])
     /\ Forall2 sub_error l errors)
  /\ (Exists (fun sd => returns (analyze sd) = true) l ->
      exists results,
        batch_analyze analyze l = Return results
        /\ (forall k a, results !! k = Some a <-> last_success l k a)
        /\ (forall k, is_Some (results !! k) <->
                      exists sd, In sd l /\ access_point_serial sd = k
                                 /\ returns (analyze sd) = true)
        /\ (NoDup (map access_point_serial l) ->
            forall sd a, In sd l -> analyze sd = Return a ->
                         results !! access_point_serial sd = Some a)).
Proof.
  intros Hne Hrf.
  destruct (batch_fold l Hrf) as (results & errors & Hfold & Hres & Herr).
  unfold batch_analyze. rewrite Hfold. split.
  - intros Hall. rewrite (filter_failing_all l Hall) in Herr.
    exists errors. split; [|exact Herr].
    assert (Htr : truthy errors = true).
    { destruct Herr; [congruence|reflexivity]. }
    assert (Hempty : results = ∅).
    { apply map_empty. intros k.
      destruct (results !! k) as [a|] eqn:E; [|reflexivity].
      apply Hres in E. apply last_success_In in E as (sd & Hin & _ & Hok).
      rewrite List.Forall_forall in Hall. specialize (Hall sd Hin).
      rewrite Hok in Hall. discriminate. }
    rewrite Htr, Hempty, bool_decide_eq_true_2 by reflexivity. reflexivity.
  - intros Hex. exists results.
    assert (Hdom : forall k, is_Some (results !! k) <->
                     exists sd, In sd l /\ access_point_serial sd = k
                                /\ returns (analyze sd) = true).
    { intros k. split.
      - intros [a E]. apply Hres in E.
        apply last_success_In in E as (sd & Hin & Hk & Hok).
        exists sd. rewrite Hok. auto.
      - intros H. apply last_success_exists in H as [a Ha].
        exists a. now apply Hres. }
    assert (Hnonempty : bool_decide (results = ∅) = false).
    { apply bool_decide_eq_false_2. intros ->.
      apply List.Exists_exists in Hex as (sd & Hin & Hok).
      destruct (proj2 (Hdom (access_point_serial sd))) as [a Ha]; [eauto|].
      rewrite lookup_empty in Ha. discriminate. }
    rewrite Hnonempty, andb_false_r.
    split; [reflexivity|]. split; [exact Hres|]. split; [exact Hdom|].
    intros Hnd sd a Hin Hok. apply Hres.
    apply in_split in Hin as (l1 & l2 & ->).
    exists l1, sd, l2. repeat split; auto.
    rewrite map_app in Hnd. simpl in Hnd.
    apply NoDup_app in Hnd as (_ & _ & Hnd).
    apply NoDup_cons in Hnd as [Hnotin _].
    apply List.Forall_forall. intros sd' Hin' E. exfalso. apply Hnotin.
    rewrite <- E. apply list_elem_of_In. now apply in_map.
Qed.

End BatchFacts.

(** ** Sample runs *)

Lemma noise_floor_percentile_witness :
  exists sorted nf,
    Permutation sorted (map power (data_points microwave_sample))
    /\ StronglySorted Qle sorted
    /\ _calculate_noise_floor microwave_sample = Return nf
    /\ nth_error sorted 0 = Some nf.
Proof.
  exact (proj2 (noise_floor_percentile (fun _ => "") (fun _ => "")
                  microwave_sample)
           ltac:(discriminate)).
Defined.


Lemma scenario_rf_errors_only : rf_errors_only scenario_analyze scenario_batch.
Proof.
  intros sd e Hin H.
  destruct Hin as [<-|[<-|[<-|[]]]]; vm_compute in H;
    solve [discriminate H | injection H as <-; eauto].
Defined.

Lemma batch_analyze_outcome_witness :
  exists results,
    batch_analyze scenario_analyze scenario_batch = Return results
    /\ is_Some (results !! "AP1")
    /\ results !! "AP2" = None
    /\ is_Some (results !! "AP3").
Proof.
  destruct (proj2 (batch_analyze_outcome scenario_analyze scenario_batch
                     ltac:(discriminate) scenario_rf_errors_only))
    as (results & Hb & _ & Hdom & _).
  { apply Exists_cons_hd. reflexivity. }
  exists results. split; [exact Hb|]. split; [|split].
  - apply Hdom. exists (quiet_sample "AP1").
    split; [now left|]. split; reflexivity.
  - destruct (results !! "AP2") as [a|] eqn:E; [|reflexivity].
    assert (H : is_Some (results !! "AP2")) by (rewrite E; eauto).
    apply Hdom in H as (sd & Hin & Hk & Hok).
    destruct Hin as [<-|[<-|[<-|[]]]]; discriminate.
  - apply Hdom. exists (quiet_sample "AP3").
    split; [right; right; now left|]. split; reflexivity.
Defined.

End RFProperties.

(** * The analyzer over binary64 *)

Module Binary64Properties.
Import Binary64 PrimFloat.


End Binary64Properties.

(** * Properties of the WiFi troubleshooter *)

Module WifiProperties.
Import Analyzer Wifi WifiSpec.

(** max_from *)
(** ** The primary issue *)

Lemma max_from_spec best rest :
  exists k p,
    (best :: rest) !! k = Some p /\ max_from best rest = p
    /\ (forall j q, (best :: rest) !! j = Some q -> severity q <= severity p)
    /\ (forall j q, (j < k)%nat -> (best :: rest) !! j = Some q ->
                    severity q < severity p).
Proof.
  revert best. induction rest as [|x rest IH]; intros best.
  - exists 0%nat, best. repeat split; auto.
    + intros [|j] q; simpl; [intros [= ->]; lia|discriminate].
    + intros j q Hj. lia.
  - simpl. destruct (severity best <? severity x) eqn:E.
    + apply Z.ltb_lt in E.
      destruct (IH x) as (k & p & Hk & Hp & Hmax & Hfirst).
      exists (S k), p. split; [exact Hk|]. split; [exact Hp|]. split.
      * intros [|j] q; simpl.
        -- intros [= ->]. specialize (Hmax 0%nat x eq_refl). lia.
        -- apply Hmax.
      * intros [|j] q Hj; simpl.
        -- intros [= ->]. specialize (Hmax 0%nat x eq_refl). lia.
        -- apply Hfirst. lia.
    + apply Z.ltb_ge in E.
      destruct (IH best) as (k & p & Hk & Hp & Hmax & Hfirst).
      destruct k as [|k].
      * simpl in Hk. injection Hk as <-.
        exists 0%nat, best. split; [reflexivity|]. split; [exact Hp|]. split.
        -- intros [|[|j]] q; simpl.
           ++ intros [= ->]; lia.
           ++ intros [= ->]; lia.
           ++ intros H. apply (Hmax (S j)). exact H.
        -- intros j q Hj. lia.
      * exists (S (S k)), p. split; [exact Hk|]. split; [exact Hp|]. split.
        -- intros [|[|j]] q; simpl.
           ++ intros [= ->]. apply (Hmax 0%nat). reflexivity.
           ++ intros [= ->]. specialize (Hfirst 0%nat best ltac:(lia) eq_refl). lia.
           ++ intros H. apply (Hmax (S j)). exact H.
        -- intros [|[|j]] q Hj; simpl.
           ++ intros [= ->]. apply (Hfirst 0%nat); [lia|reflexivity].
           ++ intros [= ->]. specialize (Hfirst 0%nat best ltac:(lia) eq_refl). lia.
           ++ intros H. apply (Hfirst (S j)); [lia|exact H].
Qed.

(** C10.  With no issues the primary issue is [None], [to_dict] maps
    ["primary_issue"] to null and keeps the confidence, recommendations
    and knowledge references; with issues, the primary issue is the first
    one in construction order whose severity is maximal. *)
Theorem primary_issue_is_first_maximum
    (confidence : Z) (recommendations : list string)
    (knowledge_references : list Reference) (network_data : option NetworkData) :
  (let r := TroubleshootingResult_init [] confidence recommendations
              knowledge_references network_data in
   primary_issue r = None
   /\ json_get "primary_issue" (TroubleshootingResult_to_dict r) = Some JNull
   /\ json_get "confidence" (TroubleshootingResult_to_dict r)
      = Some (JInt confidence)
   /\ json_get "recommendations" (TroubleshootingResult_to_dict r)
      = Some (JList (map JStr recommendations))
   /\ json_get "knowledge_references" (TroubleshootingResult_to_dict r)
      = Some (JList (map reference_json knowledge_references)))
  /\ (forall issues : list WifiIssue,
        issues <> [] ->
        exists k p,
          primary_issue
            (TroubleshootingResult_init issues confidence recommendations
               knowledge_references network_data) = Some p
          /\ issues !! k = Some p
          /\ (forall j q, issues !! j = Some q -> severity q <= severity p)
          /\ (forall j q, (j < k)%nat -> issues !! j = Some q ->
                          severity q < severity p)).
Proof.
  split.
  - cbv zeta. repeat split; reflexivity.
  - intros [|best rest] Hne; [congruence|].
    destruct (max_from_spec best rest) as (k & p & Hk & Hp & Hmax & Hfirst).
    exists k, p. simpl. rewrite Hp. auto.
Qed.

(** ** Reasoning about [M] *)

Lemma bind_inv {S A B} (m : M S A) (k : A -> M S B) s b s' :
  bind m k s = (Return b, s') ->
  exists a s1, m s = (Return a, s1) /\ k a s1 = (Return b, s').
Proof.
  unfold bind. destruct (m s) as [[a|e] s1]; [eauto|discriminate].
Qed.

Lemma bind_Return {S A B} (m : M S A) (k : A -> M S B) s a s1 :
  m s = (Return a, s1) -> bind m k s = k a s1.
Proof. unfold bind. now intros ->. Qed.

Lemma bind_Raise {S A B} (m : M S A) (k : A -> M S B) s e s1 :
  m s = (Raise e, s1) -> bind m k s = (Raise e, s1).
Proof. unfold bind. now intros ->. Qed.

Lemma try_except_swallow {S} (body : M S unit) s :
  exists s', try_except body (fun _ => ret tt) s = (Return tt, s').
Proof.
  unfold try_except, ret. destruct (body s) as [[[]|e] s1]; eauto.
Qed.

Lemma frame_swallow {W L} (init : L) (body : M (W * L) unit) w :
  exists l w',
    frame init (try_except body (fun _ => ret tt)) w = (Return (tt, l), w')
    /\ snd (try_except body (fun _ => ret tt) (w, init)) = (w', l).
Proof.
  unfold frame.
  destruct (try_except_swallow body (w, init)) as [[w' l] E].
  rewrite E. eauto.
Qed.

Section ValidationFacts.
Context {W : Type} `{KB : KnowledgeBase W}.

Lemma validate_with_api_returns issue nid ssid mc (self : Troubleshooter W) :
  exists vr self', _validate_with_api issue nid ssid mc self = (Return vr, self').
Proof.
  unfold _validate_with_api. destruct mc as [client|]; [|unfold ret; eauto].
  unfold bind.
  match goal with |- context [frame ?i (try_except ?b _) self] =>
    destruct (frame_swallow i b self) as (l & w' & -> & _) end.
  unfold ret. eauto.
Qed.

Lemma validate_issues_returns issues nid ssid mc (self : Troubleshooter W) :
  exists adjusted self',
    validate_issues issues nid ssid mc self
    = (Return (List.filter (fun issue => 0 <? severity issue) adjusted), self')
    /\ Forall2 (validated_as nid ssid mc) issues adjusted.
Proof.
  unfold validate_issues.
  assert (H : exists adjusted self',
             map_m (fun issue =>
                      bind (_validate_with_api issue nid ssid mc)
                        (fun vr => ret (apply_validation issue vr)))
               issues self = (Return adjusted, self')
             /\ Forall2 (validated_as nid ssid mc) issues adjusted).
  { revert self. induction issues as [|i issues IH]; intros self.
    - exists [], self. split; [reflexivity|constructor].
    - simpl.
      destruct (validate_with_api_returns i nid ssid mc self) as (vr & s1 & E).
      destruct (IH s1) as (adj & s2 & E2 & HF).
      exists (apply_validation i vr :: adj), s2. split.
      { erewrite bind_Return; [|erewrite bind_Return; [|exact E]; reflexivity].
        erewrite bind_Return; [|exact E2]. reflexivity. }
      constructor; [|exact HF]. now exists self, s1, vr. }
  destruct H as (adjusted & self' & E & HF).
  exists adjusted, self'. split; [|exact HF].
  erewrite bind_Return; [|exact E]. reflexivity.
Qed.

End ValidationFacts.

(** ** The adjustments of the validation loop *)

Lemma apply_validation_spec issue vr :
  validated vr = true ->
  let issue' := apply_validation issue vr in
  let stale :=
    String.eqb (issue_subtype issue) "ssid_disabled"
    && bool_decide (ssid_enabled (details vr) = Some true) in
  let fcs := default [] (failed_connections (details vr)) in
  severity issue'
  = severity issue - (if stale then 30 else 0) + (if truthy fcs then 10 else 0)
  /\ description issue'
     = (if truthy fcs then description issue +:+ confirmation_note fcs
        else description issue)
  /\ validation_details issue' = details vr
  /\ issue_type issue' = issue_type issue
  /\ issue_subtype issue' = issue_subtype issue.
Proof.
  intros Hv. unfold apply_validation. rewrite Hv. cbv zeta.
  destruct (ssid_enabled (details vr)) as [[|]|];
    destruct (failed_connections (details vr)) as [[|fc fcs]|];
    simpl; destruct (String.eqb (issue_subtype issue) "ssid_disabled");
    simpl; repeat split; lia.
Qed.

Section ApiFacts.
Context {W : Type} `{KB : KnowledgeBase W}.



End ApiFacts.

(** ** The constructor of [WifiIssue] *)

Lemma WifiIssue_init_details t st sev d comps :
  WifiIssue_init t st sev d comps [ "details" ] = Raise details_keyword_error.
Proof. reflexivity. Qed.

Lemma WifiIssue_init_plain t st sev d comps :
  WifiIssue_init t st sev d comps []
  = Return {| issue_type := t; issue_subtype := st; severity := sev;
              description := d; affected_components := comps;
              validation_details := no_details |}.
Proof. reflexivity. Qed.

Lemma check_ssid_issues_pmf_raises nd :
  pmf_required_snapshot nd ->
  _check_ssid_issues nd = Raise details_keyword_error.
Proof.
  intros (Hen & (pmf & Hpmf & Hreq) & Hterms).
  unfold _check_ssid_issues. rewrite Hen. cbn [negb andb]. cbv zeta.
  rewrite Hpmf. change (default _ (Some pmf)) with pmf.
  rewrite Hreq, Hterms. change (default false (Some true)) with true.
  cbn [andb]. rewrite WifiIssue_init_details.
  destruct (negb (default true (broadcasting (ssid_data nd)))); reflexivity.
Qed.

Section TroubleshootFacts.
Context {W : Type} `{KB : KnowledgeBase W}.

Lemma troubleshoot_ssid_check_raises
    nid ssid client desc mc (self : Troubleshooter W) e :
  _check_ssid_issues
    {| network_id := nid; ssid_data := ssid_data_or_empty ssid;
       client_data := client_data_or_empty client;
       issue_description := desc |} = Raise e ->
  returns (fst (troubleshoot nid ssid client desc mc self)) = false
  /\ (_kb_initialized self = true ->
      troubleshoot nid ssid client desc mc self
      = (Raise (WifiTroubleshootingError
                  (match e with
                   | KnowledgeBaseError m =>
                       "Knowledge base query failed during troubleshooting: "
                       +:+ m
                   | _ => "Unexpected error during WiFi troubleshooting: "
                          +:+ exn_str e
                   end)), self)).
Proof.
  intros Hraise. unfold troubleshoot. split.
  - unfold bind at 1.
    destruct (if negb (_kb_initialized self) then _ else _) as [[[]|e0] s1];
      [|reflexivity].
    unfold try_except, bind at 1, lift. rewrite Hraise.
    destruct e; reflexivity.
  - intros Hinit. unfold bind at 1. rewrite Hinit. simpl.
    unfold try_except, bind at 1, lift. rewrite Hraise.
    destruct e; reflexivity.
Qed.

End TroubleshootFacts.

(** ** Severities of the rule layer *)

Lemma obind_inv {A B} (o : Outcome A) (k : A -> Outcome B) b :
  obind o k = Return b -> exists a, o = Return a /\ k a = Return b.
Proof. destruct o; simpl; [eauto|discriminate]. Qed.

Lemma WifiIssue_init_severity t st sev d comps kw i :
  WifiIssue_init t st sev d comps kw = Return i -> severity i = sev.
Proof.
  unfold WifiIssue_init. destruct (List.find _ kw); [discriminate|].
  now intros [= <-].
Qed.

Lemma append_issue_ok issues t st sev d comps kw l :
  append_issue issues (WifiIssue_init t st sev d comps kw) = Return l ->
  severities_ok issues -> rule_severity sev -> severities_ok l.
Proof.
  unfold append_issue. intros H Hok Hsev.
  apply obind_inv in H as (i & Hi & [= <-]).
  apply Forall_app. split; [exact Hok|]. constructor; [|constructor].
  now rewrite (WifiIssue_init_severity _ _ _ _ _ _ _ Hi).
Qed.

Ltac rule_sev := split; [reflexivity|lia].

Ltac step_ok H :=
  repeat match type of H with
         | context [if ?c then _ else _] => destruct c
         | context [match ?o with Some _ => _ | None => _ end] => destruct o
         end;
  first
    [ injection H as <-; assumption
    | eapply append_issue_ok; [exact H|assumption|rule_sev] ].

Ltac next_step H :=
  let l := fresh "l" in
  let E := fresh "E" in
  let Hok := fresh "Hok" in
  apply obind_inv in H as (l & E & H);
  assert (Hok : severities_ok l) by step_ok E;
  clear E.

Lemma check_ssid_issues_ok nd l :
  _check_ssid_issues nd = Return l -> severities_ok l.
Proof.
  intros H. unfold _check_ssid_issues in H. cbv zeta in H.
  assert (Hnil : severities_ok []) by constructor.
  destruct (negb (default true (enabled (ssid_data nd)))).
  - step_ok H.
  - do 6 next_step H. injection H as <-. assumption.
Qed.

Lemma check_client_issues_ok nd l :
  _check_client_issues nd = Return l -> severities_ok l.
Proof.
  intros H. unfold _check_client_issues in H. cbv zeta in H.
  assert (Hnil : severities_ok []) by constructor.
  do 3 next_step H. injection H as <-. assumption.
Qed.

(** ** Invariants of the locals of a frame *)

Lemma preserves_ret {S A} (I : S -> Prop) (a : A) : preserves I (ret a).
Proof. intros s H. exact H. Qed.

Lemma preserves_raise {S A} (I : S -> Prop) e : preserves I (@raise S A e).
Proof. intros s H. exact H. Qed.

Lemma preserves_lift {S A} (I : S -> Prop) (o : Outcome A) :
  preserves I (lift o).
Proof. intros s H. exact H. Qed.

Lemma preserves_bind {S A B} (I : S -> Prop) (m : M S A) (k : A -> M S B) :
  preserves I m -> (forall a, preserves I (k a)) -> preserves I (bind m k).
Proof.
  intros Hm Hk s H. unfold bind. specialize (Hm s H).
  destruct (m s) as [[a|e] s1]; simpl in *; [now apply Hk|exact Hm].
Qed.

Lemma preserves_try {S A} (I : S -> Prop) (body : M S A) h :
  preserves I body -> (forall e, preserves I (h e)) ->
  preserves I (try_except body h).
Proof.
  intros Hm Hh s H. unfold try_except. specialize (Hm s H).
  destruct (body s) as [[a|e] s1]; simpl in *; [exact Hm|now apply Hh].
Qed.

Lemma preserves_await {W L A} (J : L -> Prop) (call : M W A) :
  preserves (fun s : W * L => J (snd s)) (await call).
Proof.
  intros [w l] H. unfold await. destruct (call w) as [o w']. exact H.
Qed.

Lemma preserves_update {W L} (J : L -> Prop) (f : L -> L) :
  (forall l, J l -> J (f l)) ->
  preserves (fun s : W * L => J (snd s)) (update f).
Proof. intros Hf [w l] H. simpl in *. now apply Hf. Qed.

Lemma preserves_for_each {S A} (I : S -> Prop) (xs : list A) body :
  (forall x, preserves I (body x)) -> preserves I (for_each xs body).
Proof.
  intros Hb. induction xs as [|x xs IH]; simpl.
  - apply preserves_ret.
  - apply preserves_bind; [apply Hb|intros _; exact IH].
Qed.

Lemma frame_locals {W L A} (J : L -> Prop) (init : L) (m : M (W * L) A)
    w a l w' :
  preserves (fun s : W * L => J (snd s)) m -> J init ->
  frame init m w = (Return (a, l), w') -> J l.
Proof.
  intros Hm Hinit. unfold frame. specialize (Hm (w, init) Hinit).
  destruct (m (w, init)) as [[a0|e] [w1 l1]]; [|discriminate].
  intros [= <- <- <-]. exact Hm.
Qed.

Section ApiChecks.
Context {W : Type} `{KB : KnowledgeBase W}.

Lemma preserves_append t st sev d comps kw :
  rule_severity sev ->
  preserves (fun s : Troubleshooter W * list WifiIssue => severities_ok (snd s))
    (append (WifiIssue_init t st sev d comps kw)).
Proof.
  intros Hsev [w l] H. unfold append, bind, lift, update.
  destruct (WifiIssue_init t st sev d comps kw) as [i|e] eqn:E; [|exact H].
  simpl in *. apply Forall_app. split; [exact H|].
  constructor; [|constructor].
  now rewrite (WifiIssue_init_severity _ _ _ _ _ _ _ E).
Qed.

Ltac pres :=
  repeat first
    [ apply preserves_ret
    | apply preserves_raise
    | apply preserves_lift
    | apply preserves_await
    | apply preserves_append; rule_sev
    | apply preserves_try; [|intros ?]
    | apply preserves_for_each; intros ?
    | apply preserves_bind; [|intros ?]
    | match goal with
      | |- preserves _ (if ?c then _ else _) => destruct c
      | |- preserves _ (match ?o with Some _ => _ | None => _ end) =>
          destruct o
      end ].

Lemma check_ap_configurations_ok nid mc ssid (self self' : Troubleshooter W) l :
  _check_ap_configurations nid mc ssid self = (Return l, self') ->
  severities_ok l.
Proof.
  unfold _check_ap_configurations. destruct mc as [client|].
  - intros H. apply bind_inv in H as ([[] l0] & s1 & Hf & [= <- <-]).
    eapply (frame_locals severities_ok) in Hf; [exact Hf| |constructor].
    cbv zeta. pres.
  - intros [= <- <-]. constructor.
Qed.

Lemma check_connected_clients_ok nid mc ssid (self self' : Troubleshooter W) l :
  _check_connected_clients nid mc ssid self = (Return l, self') ->
  severities_ok l.
Proof.
  unfold _check_connected_clients. destruct mc as [client|].
  - intros H. apply bind_inv in H as ([[] l0] & s1 & Hf & [= <- <-]).
    eapply (frame_locals severities_ok) in Hf; [exact Hf| |constructor].
    cbv zeta. pres.
  - intros [= <- <-]. constructor.
Qed.

End ApiChecks.

(** ** What [troubleshoot] returns *)

Lemma apply_validation_mod5 i vr :
  severity i mod 5 = 0 -> severity (apply_validation i vr) mod 5 = 0.
Proof.
  intros H. destruct (validated vr) eqn:Hv.
  - destruct (apply_validation_spec i vr Hv) as (-> & _).
    apply Z.mod_divide in H as [k Hk]; [|lia]. rewrite Hk.
    destruct (_ && _); destruct (truthy _).
    + replace (k * 5 - 30 + 10) with ((k - 4) * 5) by lia. apply Z_mod_mult.
    + replace (k * 5 - 30 + 0) with ((k - 6) * 5) by lia. apply Z_mod_mult.
    + replace (k * 5 - 0 + 10) with ((k + 2) * 5) by lia. apply Z_mod_mult.
    + replace (k * 5 - 0 + 0) with (k * 5) by lia. apply Z_mod_mult.
  - unfold apply_validation. now rewrite Hv.
Qed.

Section TroubleshootInversion.
Context {W : Type} `{KB : KnowledgeBase W}.

Lemma validate_issues_ok issues nid ssid mc (self self' : Troubleshooter W) out :
  validate_issues issues nid ssid mc self = (Return out, self') ->
  severities_ok issues -> severities_ok out.
Proof.
  intros H Hok.
  destruct (validate_issues_returns issues nid ssid mc self)
    as (adjusted & s' & E & HF).
  rewrite E in H. injection H as <- <-.
  apply List.Forall_forall. intros i Hin. apply filter_In in Hin as [Hin Hpos].
  apply Z.ltb_lt in Hpos. split; [|exact Hpos].
  clear E Hpos. induction HF as [|x y xs ys Hxy HF IH]; [destruct Hin|].
  inversion Hok as [|? ? Hx Hxs]; subst.
  destruct Hin as [<-|Hin]; [|now apply IH].
  destruct Hxy as (s1 & s2 & vr & _ & ->).
  apply apply_validation_mod5. apply Hx.
Qed.

Lemma troubleshoot_inv nid ssid client desc mc (self self' : Troubleshooter W) r :
  troubleshoot nid ssid client desc mc self = (Return r, self') ->
  let nd := build_network_data nid ssid client desc in
  exists issues refs recs s1 s2,
    severities_ok issues
    /\ _get_recommendations issues nd s1 = (Return (refs, recs), s2)
    /\ r = TroubleshootingResult_init issues (_calculate_confidence issues nd)
             recs refs (Some nd).
Proof.
  intros H nd. unfold troubleshoot in H.
  apply bind_inv in H as ([] & s0 & _ & H).
  unfold try_except in H.
  match type of H with context [match ?b s0 with _ => _ end] =>
    destruct (b s0) as [[r0|e] s9] eqn:Hbody end.
  2:{ destruct e; discriminate H. }
  injection H as -> ->. cbv zeta in Hbody.
  fold (build_network_data nid ssid client desc) in Hbody. fold nd in Hbody.
  apply bind_inv in Hbody as (ssid_issues & s1 & Hssid & Hbody).
  injection Hssid as Hssid <-.
  apply bind_inv in Hbody as (client_issues & s2 & Hcl & Hbody).
  injection Hcl as Hcl <-.
  apply bind_inv in Hbody as (issues1 & s3 & H1 & Hbody).
  apply bind_inv in Hbody as (issues2 & s4 & H2 & Hbody).
  apply bind_inv in Hbody as (issues3 & s5 & H3 & Hbody).
  apply bind_inv in Hbody as ([refs recs] & s6 & Hrec & Hbody).
  injection Hbody as <- <-.
  apply check_ssid_issues_ok in Hssid. apply check_client_issues_ok in Hcl.
  assert (Hbase : severities_ok (([] ++ ssid_issues) ++ client_issues)).
  { simpl. apply Forall_app. split; assumption. }
  assert (Hok1 : severities_ok issues1).
  { destruct mc as [c|].
    - apply bind_inv in H1 as (ap_issues & sa & Hap & H1).
      apply bind_inv in H1 as (cc_issues & sb & Hcc & H1).
      injection H1 as <- <-.
      apply check_ap_configurations_ok in Hap.
      apply check_connected_clients_ok in Hcc.
      destruct (truthy ap_issues); destruct (truthy cc_issues).
      all: repeat (apply Forall_app; split); assumption.
    - injection H1 as <- <-. exact Hbase. }
  assert (Hok2 : severities_ok issues2).
  { destruct (negb (truthy issues1) && opt_str_truthy desc).
    - exfalso.
      apply bind_inv in H2 as (result & sa & _ & H2).
      apply bind_inv in H2 as ([a b] & sb & _ & H2).
      discriminate H2.
    - now injection H2 as <- <-. }
  assert (Hok3 : severities_ok issues3).
  { destruct mc as [c|].
    - eapply validate_issues_ok; eassumption.
    - now injection H3 as <- <-. }
  exists issues3, refs, recs, s5, s6. auto.
Qed.

End TroubleshootInversion.

(** ** Confidence *)

Lemma py_int_integer q z : (q == inject_Z z)%Q -> py_int q = z.
Proof.
  unfold Qeq, py_int. simpl. intros H. rewrite Z.mul_1_r in H. rewrite H.
  apply Z.quot_mul. discriminate.
Qed.

Lemma py_round_integer q z : (q == inject_Z z)%Q -> py_round q = z.
Proof.
  intros H. unfold py_round.
  assert (Hf : Qfloor q = z) by (rewrite H; apply Qfloor_Z).
  rewrite Hf.
  assert (Hlt : (q - inject_Z z < 1 # 2)%Q) by (rewrite H; lra).
  apply Qlt_alt in Hlt.
  change ((q - inject_Z z ?= 1 # 2)%Q = Lt) in Hlt. now rewrite Hlt.
Qed.

Lemma fold_max_spec (l : list Z) (a : Z) :
  let m := fold_left Z.max l a in
  In m (a :: l) /\ Forall (fun x => x <= m) (a :: l).
Proof.
  revert a. induction l as [|x l IH]; intros a; simpl.
  - split; [now left|]. constructor; [lia|constructor].
  - destruct (IH (Z.max a x)) as [Hin Hall]. split.
    + destruct Hin as [E|Hin]; [|right; right; exact Hin].
      destruct (Z.max_spec a x) as [[_ E']|[_ E']].
      * right. left. rewrite <- E. now symmetry.
      * left. rewrite <- E. now symmetry.
    + inversion Hall as [|? ? Hm Hl]; subst.
      constructor; [lia|]. constructor; [lia|exact Hl].
Qed.

Lemma calculate_confidence_round first rest nd :
  severities_ok (first :: rest) ->
  exists max_severity,
    In max_severity (map severity (first :: rest))
    /\ Forall (fun i => severity i <= max_severity) (first :: rest)
    /\ _calculate_confidence (first :: rest) nd
       = Z.max 0
           (Z.min 100
              (py_round
                 ((6 # 10) * inject_Z max_severity
                  + (4 # 10)
                    * inject_Z
                        (data_completeness
                           (ssid_data_truthy (ssid_data nd))
                           (client_data_truthy (client_data nd))
                           (opt_str_truthy (issue_description nd)))))).
Proof.
  intros Hok.
  destruct (fold_max_spec (map severity rest) (severity first)) as [Hin Hall].
  set (m := fold_left Z.max (map severity rest) (severity first)) in *.
  exists m. split; [exact Hin|]. split.
  { rewrite List.Forall_forall in Hall. apply List.Forall_forall.
    intros i Hi. apply Hall.
    change (severity first :: map severity rest)
      with (map severity (first :: rest)).
    now apply in_map. }
  assert (Hm : rule_severity m).
  { change (severity first :: map severity rest)
      with (map severity (first :: rest)) in Hin.
    apply in_map_iff in Hin as (i & <- & Hi).
    unfold severities_ok in Hok. rewrite List.Forall_forall in Hok. now apply Hok. }
  destruct Hm as [Hmod Hpos].
  apply Z.mod_divide in Hmod as [k Hk]; [|lia].
  unfold _calculate_confidence. fold m. cbv zeta.
  set (dc := data_completeness _ _ _).
  assert (Hdc : exists j, dc = 10 * j /\ 0 <= j).
  { unfold dc, data_completeness.
    destruct (ssid_data_truthy _), (client_data_truthy _), (opt_str_truthy _);
      simpl; [exists 8|exists 6|exists 5|exists 3|exists 5|exists 3|exists 2|exists 0];
      lia. }
  destruct Hdc as (j & Hj & Hj0).
  replace (0 + 0) with 0 by reflexivity.
  assert (Hdc' : (if opt_str_truthy (issue_description nd)
                  then (if client_data_truthy (client_data nd)
                        then (if ssid_data_truthy (ssid_data nd)
                              then 0 + 30 else 0) + 30
                        else (if ssid_data_truthy (ssid_data nd)
                              then 0 + 30 else 0)) + 20
                  else (if client_data_truthy (client_data nd)
                        then (if ssid_data_truthy (ssid_data nd)
                              then 0 + 30 else 0) + 30
                        else (if ssid_data_truthy (ssid_data nd)
                              then 0 + 30 else 0))) = dc).
  { unfold dc, data_completeness.
    destruct (ssid_data_truthy _), (client_data_truthy _), (opt_str_truthy _);
      reflexivity. }
  rewrite Hdc'.
  assert (Hq : (inject_Z m * (6 # 10) + inject_Z dc * (4 # 10)
                == inject_Z (3 * k + 4 * j))%Q).
  { rewrite Hk, Hj, !inject_Z_plus, !inject_Z_mult.
    change (inject_Z 5) with 5%Q. change (inject_Z 10) with 10%Q.
    change (inject_Z 3) with 3%Q. change (inject_Z 4) with 4%Q. field. }
  rewrite (py_int_integer _ _ Hq).
  rewrite (py_round_integer _ (3 * k + 4 * j)).
  - lia.
  - rewrite <- Hq. ring.
Qed.

Lemma ssid_data_or_empty_truthy ssid :
  ssid_data_truthy (ssid_data_or_empty ssid) = opt_ssid_truthy ssid.
Proof.
  destruct ssid as [d|]; [|reflexivity]. simpl.
  destruct (ssid_data_truthy d) eqn:E; [exact E|reflexivity].
Qed.

Lemma client_data_or_empty_truthy client :
  client_data_truthy (client_data_or_empty client) = opt_client_truthy client.
Proof.
  destruct client as [d|]; [|reflexivity]. simpl.
  destruct (client_data_truthy d) eqn:E; [exact E|reflexivity].
Qed.

Section Confidence.
Context {W : Type} `{KB : KnowledgeBase W}.

(** C4.  When [troubleshoot] returns with at least one issue, its
    confidence is [round(0.6 * max_issue_severity + 0.4 *
    data_completeness)] clamped to [0,100], with 30 for SSID data, 30 for
    client data and 20 for a description; with no issue it is 50. *)
Theorem confidence_formula
    nid ssid client desc mc (self self' : Troubleshooter W) r :
  troubleshoot nid ssid client desc mc self = (Return r, self') ->
  (issues r <> [] ->
   exists max_issue_severity,
     In max_issue_severity (map severity (issues r))
     /\ Forall (fun i => severity i <= max_issue_severity) (issues r)
     /\ confidence r
        = Z.max 0
            (Z.min 100
               (py_round
                  ((6 # 10) * inject_Z max_issue_severity
                   + (4 # 10)
                     * inject_Z
                         (data_completeness (opt_ssid_truthy ssid)
                            (opt_client_truthy client)
                            (opt_str_truthy desc))))))
  /\ (issues r = [] -> confidence r = 50).
Proof.
  intros H. apply troubleshoot_inv in H.
  destruct H as (l & refs & recs & s1 & s2 & Hok & _ & ->). simpl. split.
  - intros Hne. destruct l as [|first rest]; [congruence|].
    destruct (calculate_confidence_round first rest
                (build_network_data nid ssid client desc) Hok)
      as (m & Hin & Hall & Hc).
    exists m. split; [exact Hin|]. split; [exact Hall|].
    rewrite Hc. simpl ssid_data. simpl client_data. simpl issue_description.
    now rewrite ssid_data_or_empty_truthy, client_data_or_empty_truthy.
  - intros ->. reflexivity.
Qed.

End Confidence.

(** ** Substrings *)

Lemma lower_app a b : lower (a +:+ b) = lower a +:+ lower b.
Proof. induction a as [|c a IH]; simpl; [reflexivity|now rewrite IH]. Qed.

Lemma prefix_nil s : String.prefix "" s = true.
Proof. destruct s; reflexivity. Qed.

Lemma prefix_app_split t x n :
  String.prefix t (x +:+ n) = true ->
  String.prefix t x = true
  \/ ((String.length x < String.length t)%nat
      /\ String.prefix (str_drop (String.length x) t) n = true).
Proof.
  revert t. induction x as [|c x IH]; intros t H.
  - destruct t as [|d t]; [now left|]. right. simpl. split; [lia|exact H].
  - destruct t as [|d t]; [left; apply prefix_nil|]. simpl in H |- *.
    destruct (ascii_dec d c) as [->|]; [|discriminate].
    destruct (IH t H) as [Hp|[Hl Hp]]; [now left|].
    right. split; [lia|exact Hp].
Qed.

Lemma prefix_app_weaken t x n :
  String.prefix t x = true -> String.prefix t (x +:+ n) = true.
Proof.
  revert t. induction x as [|c x IH]; intros t H.
  - destruct t; [apply prefix_nil|discriminate].
  - destruct t as [|d t]; [apply prefix_nil|]. simpl in *.
    destruct (ascii_dec d c); [|discriminate]. now apply IH.
Qed.

Lemma str_in_app_no_overlap t a n :
  str_in t n = false ->
  overlaps_at (seq 0 (String.length t)) t n = false ->
  str_in t (a +:+ n) = str_in t a.
Proof.
  intros Hn Hov. induction a as [|c a IH].
  - change ("" +:+ n) with n. rewrite Hn.
    destruct t as [|d t]; [|reflexivity].
    destruct n; discriminate.
  - change (String c a +:+ n) with (String c (a +:+ n)).
    cbn [str_in]. rewrite IH.
    destruct (String.prefix t (String c (a +:+ n))) eqn:E.
    + change (String c (a +:+ n)) with (String c a +:+ n) in E.
      apply prefix_app_split in E as [E|[Hl E]]; [now rewrite E|].
      exfalso. unfold overlaps_at in Hov.
      rewrite <- not_true_iff_false in Hov. apply Hov.
      apply existsb_exists. exists (String.length (String c a)).
      split; [apply in_seq; lia|exact E].
    + destruct (String.prefix t (String c a)) eqn:E'; [|reflexivity].
      apply (prefix_app_weaken _ _ n) in E'.
      change (String c a +:+ n) with (String c (a +:+ n)) in E'. congruence.
Qed.

Lemma any_in_app_no_overlap terms a n :
  forallb (fun t => negb (str_in t n)
                    && negb (overlaps_at (seq 0 (String.length t)) t n))
    terms = true ->
  any_in terms (a +:+ n) = any_in terms a.
Proof.
  unfold any_in. induction terms as [|t terms IH]; intros H; [reflexivity|].
  simpl in H. apply andb_true_iff in H as [Ht H].
  apply andb_true_iff in Ht as [H1 H2].
  apply negb_true_iff in H1, H2.
  cbn [existsb]. rewrite IH by exact H.
  now rewrite str_in_app_no_overlap.
Qed.

Lemma annotated_never_suggests rec :
  suggests_disabling rec = false ->
  suggests_disabling (rec +:+ keep_enabled_note) = false.
Proof.
  unfold suggests_disabling. intros H.
  rewrite lower_app, any_in_app_no_overlap; [exact H|].
  vm_compute. reflexivity.
Qed.

(** ** The safety filter *)

Lemma safe_fold l acc :
  fold_left
    (fun safe rec =>
       if suggests_disabling rec then safe
       else if mentions_open_enhanced rec
       then safe ++ [ rec +:+ keep_enabled_note ]
       else safe ++ [ rec ])
    l acc
  = acc ++ flat_map filter_one l.
Proof.
  revert acc. induction l as [|rec l IH]; intros acc; simpl.
  - now rewrite app_nil_r.
  - rewrite IH. unfold filter_one.
    destruct (suggests_disabling rec); [reflexivity|].
    destruct (mentions_open_enhanced rec); now rewrite <- app_assoc.
Qed.

Lemma filtered_length l :
  (length (flat_map filter_one l) <= length l)%nat
  /\ ((length (flat_map filter_one l) < length l)%nat
      <-> existsb suggests_disabling l = true).
Proof.
  induction l as [|rec l [IH1 IH2]]; simpl.
  - split; [lia|]. split; [lia|discriminate].
  - rewrite length_app. unfold filter_one at 1 3.
    destruct (suggests_disabling rec); simpl.
    + split; [lia|]. split; [reflexivity|lia].
    + destruct (mentions_open_enhanced rec); simpl; (split; [lia|]);
        rewrite <- IH2; lia.
Qed.

Lemma safe_recommendations_eq l :
  safe_recommendations l
  = flat_map filter_one l
    ++ (if existsb suggests_disabling l then [ reaffirming_statement ] else []).
Proof.
  unfold safe_recommendations. rewrite safe_fold. simpl.
  destruct (filtered_length l) as [_ H]. unfold len.
  destruct (existsb suggests_disabling l).
  - assert (Hlt : (length (flat_map filter_one l) < length l)%nat) by now apply H.
    destruct (Z.ltb_spec (Z.of_nat (length (flat_map filter_one l)))
                (Z.of_nat (length l))); [reflexivity|lia].
  - assert (Hge : ~ (length (flat_map filter_one l) < length l)%nat).
    { intros Hlt. apply H in Hlt. discriminate. }
    destruct (Z.ltb_spec (Z.of_nat (length (flat_map filter_one l)))
                (Z.of_nat (length l))); [lia|now rewrite app_nil_r].
Qed.

Lemma reaffirming_statement_safe :
  suggests_disabling reaffirming_statement = false.
Proof. vm_compute. reflexivity. Qed.

Lemma safe_recommendations_In l r :
  In r (safe_recommendations l) <->
  (exists c, In c l /\ suggests_disabling c = false
             /\ r = if mentions_open_enhanced c
                    then c +:+ keep_enabled_note else c)
  \/ (r = reaffirming_statement /\ exists c, In c l /\ suggests_disabling c = true).
Proof.
  rewrite safe_recommendations_eq, in_app_iff, in_flat_map. split.
  - intros [(c & Hc & Hr)|Hr].
    + left. exists c. unfold filter_one in Hr.
      destruct (suggests_disabling c); [destruct Hr|].
      destruct (mentions_open_enhanced c); destruct Hr as [<-|[]]; auto.
    + right. destruct (existsb suggests_disabling l) eqn:E; [|destruct Hr].
      destruct Hr as [<-|[]]. split; [reflexivity|].
      now apply existsb_exists in E.
  - intros [(c & Hc & Hs & ->)|[-> Hex]].
    + left. exists c. split; [exact Hc|]. unfold filter_one. rewrite Hs.
      destruct (mentions_open_enhanced c); now left.
    + right. apply existsb_exists in Hex. rewrite Hex. now left.
Qed.

Lemma safe_recommendations_safe l :
  Forall (fun r => suggests_disabling r = false) (safe_recommendations l).
Proof.
  apply List.Forall_forall. intros r Hr.
  apply safe_recommendations_In in Hr as [(c & _ & Hs & ->)|[-> _]].
  - destruct (mentions_open_enhanced c); [|exact Hs].
    now apply annotated_never_suggests.
  - apply reaffirming_statement_safe.
Qed.

Lemma str_mem_In x l : str_mem x l = true <-> In x l.
Proof.
  unfold str_mem. rewrite existsb_exists. split.
  - intros (y & Hy & E). apply String.eqb_eq in E. now subst.
  - intros H. exists x. split; [exact H|apply String.eqb_refl].
Qed.

Lemma unique_fold_In l acc x :
  In x (fold_left
          (fun unique rec =>
             if str_mem rec unique then unique else unique ++ [rec])
          l acc)
  <-> In x acc \/ In x l.
Proof.
  revert acc. induction l as [|rec l IH]; intros acc; simpl.
  - tauto.
  - rewrite IH. destruct (str_mem rec acc) eqn:E.
    + apply str_mem_In in E. split; [tauto|].
      intros [H|[<-|H]]; auto.
    + rewrite in_app_iff. simpl. tauto.
Qed.

Lemma unique_recommendations_In l x :
  In x (unique_recommendations l) <-> In x l.
Proof. unfold unique_recommendations. rewrite unique_fold_In. simpl. tauto. Qed.

(** ** The recommendations of [_get_recommendations] *)

Lemma triple_bind {S A B} (P R Q : S -> Prop) (m : M S A) (k : A -> M S B) :
  triple P m R -> (forall a, triple R (k a) Q) -> (forall s, R s -> Q s) ->
  triple P (bind m k) Q.
Proof.
  intros Hm Hk HRQ s H. unfold bind. specialize (Hm s H).
  destruct (m s) as [[a|e] s1]; simpl in *; [now apply Hk|now apply HRQ].
Qed.

Lemma triple_try {S A} (P R Q : S -> Prop) (body : M S A) h :
  triple P body R -> (forall e, triple R (h e) Q) -> (forall s, R s -> Q s) ->
  triple P (try_except body h) Q.
Proof.
  intros Hm Hh HRQ s H. unfold try_except. specialize (Hm s H).
  destruct (body s) as [[a|e] s1]; simpl in *; [now apply HRQ|now apply Hh].
Qed.

Lemma triple_preserves {S A} (I : S -> Prop) (m : M S A) :
  preserves I m -> triple I m I.
Proof. exact (fun H => H). Qed.

Lemma frame_triple {W L A} (P Q : W * L -> Prop) (init : L) (m : M (W * L) A)
    w a l w' :
  triple P m Q -> P (w, init) ->
  frame init m w = (Return (a, l), w') -> Q (w', l).
Proof.
  intros Hm Hinit. unfold frame. specialize (Hm (w, init) Hinit).
  destruct (m (w, init)) as [[a0|e] [w1 l1]]; [|discriminate].
  intros [= <- <- <-]. exact Hm.
Qed.

Section Recommendations.
Context {W : Type} `{KB : KnowledgeBase W}.

Local Abbreviation Frame :=
  (Troubleshooter W * (list Reference * list string))%type.

Lemma on_recs_await {A} J (call : M (Troubleshooter W) A) :
  preserves (on_recs J) (await call).
Proof.
  intros [w l] H. unfold await. destruct (call w) as [o w']. exact H.
Qed.

Lemma on_recs_update J (f : list Reference * list string -> _) :
  (forall l, snd (f l) = snd l) ->
  preserves (on_recs (W := W) J) (update f).
Proof.
  intros Hf [w l] H. unfold on_recs in *. simpl in *. now rewrite Hf.
Qed.

Lemma add_refs_snd refs l : snd (add_refs refs l) = snd l.
Proof. reflexivity. Qed.

Lemma add_new_ref_snd ref l : snd (add_new_ref ref l) = snd l.
Proof. unfold add_new_ref. now destruct (bool_decide _). Qed.

Ltac pres_recs :=
  repeat first
    [ apply preserves_ret
    | apply preserves_raise
    | apply preserves_lift
    | apply on_recs_await
    | apply on_recs_update; (apply add_refs_snd || apply add_new_ref_snd)
    | apply preserves_try; [|intros ?]
    | apply preserves_for_each; intros ?
    | apply preserves_bind; [|intros ?]
    | match goal with
      | |- preserves _ (if ?c then _ else _) => destruct c
      | |- preserves _ (match ?o with Some _ => _ | None => _ end) =>
          destruct o
      end ].

Lemma get_recommendations_inv issues nd (s s' : Troubleshooter W) refs recs :
  _get_recommendations issues nd s = (Return (refs, recs), s') ->
  match issues with
  | [] => recs = no_issue_guidance
  | first :: rest =>
      exists kb_recs,
        kb_candidates kb_recs
        /\ recs = safe_recommendations
                    (unique_recommendations
                       (rule_recommendations (max_from first rest)
                          (is_open_enhanced nd) ++ kb_recs))
  end.
Proof.
  unfold _get_recommendations. destruct issues as [|first rest].
  - intros H. apply bind_inv in H as ([[] [k r]] & s1 & Hf & [= <- <- <-]).
    eapply (frame_triple (on_recs (fun r => r = no_issue_guidance))
              (on_recs (fun r => r = no_issue_guidance))) in Hf;
      [exact Hf| |reflexivity].
    apply triple_preserves. cbv zeta. pres_recs.
  - cbv zeta. fold (is_open_enhanced nd).
    set (rule := rule_recommendations _ _).
    intros H. apply bind_inv in H as ([[] [k r]] & s1 & Hf & H).
    simpl in H. injection H as <- <- <-.
    eapply (frame_triple
              (on_recs (fun r => r = rule))
              (on_recs (fun r => exists kb, kb_candidates kb /\ r = rule ++ kb)))
      in Hf.
    + destruct Hf as (kb & Hkb & Hr). unfold on_recs in Hr. simpl in Hr.
      subst r. now exists kb.
    + assert (Hweak : forall s0 : Frame,
                 on_recs (fun r => r = rule) s0 ->
                 on_recs (fun r => exists kb, kb_candidates kb /\ r = rule ++ kb) s0).
      { intros s0 Hs0. exists []. split; [now left|].
        unfold on_recs in Hs0. now rewrite Hs0, app_nil_r. }
      eapply triple_try; [|intros e; apply triple_preserves, preserves_ret|auto].
      eapply triple_bind; [apply triple_preserves, on_recs_await| |exact Hweak].
      intros tc.
      eapply triple_bind; [apply triple_preserves; pres_recs| |exact Hweak].
      intros _.
      eapply triple_bind; [apply triple_preserves, on_recs_await| |exact Hweak].
      intros kr.
      eapply (triple_bind _ (on_recs (fun r => exists kb, kb_candidates kb /\ r = rule ++ kb))).
      * destruct (answer kr) as [a|]; [|exact (fun s0 H0 => Hweak s0 H0)].
        destruct (str_truthy a) eqn:Ha; [|exact (fun s0 H0 => Hweak s0 H0)].
        intros [w [k0 r0]] Hs0. unfold on_recs in *. simpl in *. subst r0.
        exists [answer_recommendation a]. split; [|reflexivity].
        right. now exists a.
      * intros _. apply triple_preserves. pres_recs.
      * auto.
    + reflexivity.
Qed.

Lemma try_except_swallow_state {S} (body : M S unit) s :
  snd (try_except body (fun _ => ret tt) s) = snd (body s).
Proof. unfold try_except, ret. now destruct (body s) as [[[]|e] s1]. Qed.

Lemma get_recommendations_kb_answer
    first rest nd (self : Troubleshooter W) tc w1 kr w2 a :
  let primary_issue := max_from first rest in
  get_topic_content
    (default "troubleshooting_1" (topic_mapping !! issue_subtype primary_issue))
    (world self) = (Return tc, w1) ->
  query (kb_question primary_issue) w1 = (Return kr, w2) ->
  answer kr = Some a -> str_truthy a = true ->
  exists refs self',
    _get_recommendations (first :: rest) nd self
    = (Return
         (refs,
          safe_recommendations
            (unique_recommendations
               (rule_recommendations primary_issue (is_open_enhanced nd)
                ++ [ answer_recommendation a ]))),
       self').
Proof.
  intros primary_issue Htc Hq Ha Htruthy.
  unfold _get_recommendations. cbv zeta. fold (is_open_enhanced nd).
  fold primary_issue.
  set (rule := rule_recommendations _ _).
  match goal with |- context [frame ?i (try_except ?b _)] =>
    destruct (frame_swallow i b self) as (l & s' & Hf & Hs); set (body := b) in * end.
  erewrite bind_Return; [|exact Hf].
  destruct l as [refs recs]. exists refs, s'. unfold ret. simpl.
  repeat f_equal.
  rewrite try_except_swallow_state in Hs.
  assert (Hrecs : on_recs (fun r => r = rule ++ [answer_recommendation a])
                    (snd (body (self, ([], rule))))).
  2:{ rewrite Hs in Hrecs. exact Hrecs. }
  clear Hs Hf. subst body.
  erewrite bind_Return.
  2:{ unfold await, on_world. rewrite Htc. reflexivity. }
  set (self1 := {| world := w1; _kb_initialized := _kb_initialized self |}).
  assert (Hrefs : exists k1, forall (k : unit -> M Frame unit),
             bind (match references tc with
                   | Some refs0 => update (add_refs refs0)
                   | None => ret tt
                   end) k (self1, ([], rule)) = k tt (self1, (k1, rule))).
  { destruct (references tc) as [refs0|]; eexists; intros k; reflexivity. }
  destruct Hrefs as [k1 ->].
  erewrite bind_Return.
  2:{ unfold await, on_world. simpl. rewrite Hq. reflexivity. }
  rewrite Ha, Htruthy.
  erewrite bind_Return; [|reflexivity].
  match goal with |- on_recs _ (snd (?m ?s0)) =>
    assert (Hp : preserves (on_recs (fun r => r = rule ++ [answer_recommendation a])) m)
  end.
  { pres_recs. }
  apply Hp. reflexivity.
Qed.

End Recommendations.

Lemma rule_recommendations_safe p oe :
  Forall (fun rec => suggests_disabling rec = false)
    (rule_recommendations p oe).
Proof.
  unfold rule_recommendations.
  repeat match goal with
         | |- context [if ?c then _ else _] => destruct c
         end;
    simpl app; repeat constructor; vm_compute; reflexivity.
Qed.

Lemma answer_recommendation_safe a :
  suggests_disabling (answer_recommendation a) = false.
Proof.
  unfold answer_recommendation.
  destruct (any_in disable_terms (lower a)) eqn:E; [|exact E].
  vm_compute. reflexivity.
Qed.

Lemma safe_guidance_emitted :
  emitted_form safe_guidance = safe_guidance +:+ keep_enabled_note.
Proof. vm_compute. reflexivity. Qed.

Lemma filtered_candidates rule kb_raw :
  Forall (fun rec => suggests_disabling rec = false) rule ->
  safely_filtered (rule ++ kb_raw)
    (safe_recommendations
       (unique_recommendations (rule ++ map answer_recommendation kb_raw))).
Proof.
  intros Hrule. set (cands := rule ++ map answer_recommendation kb_raw).
  assert (Hcands : forall c, In c cands -> suggests_disabling c = false).
  { intros c Hc. apply in_app_or in Hc as [Hc|Hc].
    - rewrite List.Forall_forall in Hrule. now apply Hrule.
    - apply in_map_iff in Hc as (a & <- & _). apply answer_recommendation_safe. }
  assert (Hin : forall rec,
             In rec (safe_recommendations (unique_recommendations cands))
             <-> exists c, In c cands /\ rec = emitted_form c).
  { intros rec. rewrite safe_recommendations_In. split.
    - intros [(c & Hc & _ & ->)|[_ (c & Hc & Hs)]].
      + apply (proj1 (unique_recommendations_In _ _)) in Hc.
        exists c. split; [exact Hc|reflexivity].
      + apply (proj1 (unique_recommendations_In _ _)) in Hc. apply Hcands in Hc. congruence.
    - intros (c & Hc & ->). left. exists c.
      rewrite unique_recommendations_In. auto. }
  assert (Hsafe := safe_recommendations_safe (unique_recommendations cands)).
  split; [exact Hsafe|]. split; [|split].
  - intros c Hc Hs. split.
    + intros Hin'. rewrite List.Forall_forall in Hsafe.
      apply Hsafe in Hin'. congruence.
    + left. apply Hin. exists safe_guidance.
      split; [|now rewrite safe_guidance_emitted].
      apply in_app_or in Hc as [Hc|Hc].
      * rewrite List.Forall_forall in Hrule. apply Hrule in Hc. congruence.
      * apply in_or_app. right. apply in_map_iff. exists c.
        split; [|exact Hc]. unfold answer_recommendation.
        unfold suggests_disabling in Hs. now rewrite Hs.
  - intros c Hc Hs. apply Hin. exists c. split; [|reflexivity].
    apply in_app_or in Hc as [Hc|Hc]; apply in_or_app; [now left|right].
    apply in_map_iff. exists c. split; [|exact Hc].
    unfold answer_recommendation. unfold suggests_disabling in Hs.
    now rewrite Hs.
  - intros rec Hrec. apply Hin in Hrec as (c & Hc & ->).
    apply in_app_or in Hc as [Hc|Hc].
    + left. exists c. split; [apply in_or_app; now left|].
      split; [|reflexivity]. rewrite List.Forall_forall in Hrule. now apply Hrule.
    + apply in_map_iff in Hc as (a & <- & Ha).
      unfold answer_recommendation.
      destruct (any_in disable_terms (lower a)) eqn:E.
      * right. split; [left; apply safe_guidance_emitted|].
        exists a. split; [apply in_or_app; now right|exact E].
      * left. exists a. split; [apply in_or_app; now right|].
        split; [exact E|reflexivity].
Qed.

Lemma no_issue_guidance_filtered :
  safely_filtered no_issue_guidance no_issue_guidance.
Proof.
  assert (H : forall c, In c no_issue_guidance ->
                        suggests_disabling c = false /\ emitted_form c = c).
  { intros c Hc. repeat (destruct Hc as [<-|Hc]; [split; vm_compute; reflexivity|]).
    destruct Hc. }
  split; [|split; [|split]].
  - apply List.Forall_forall. intros c Hc. now apply H.
  - intros c Hc Hs. apply H in Hc as [Hc _]. congruence.
  - intros c Hc _. destruct (H c Hc) as [_ ->]. exact Hc.
  - intros rec Hrec. left. exists rec. destruct (H rec Hrec) as [Hs ->]. auto.
Qed.

Section SafetyTheorem.
Context {W : Type} `{KB : KnowledgeBase W}.

(** C1.  The recommendations [troubleshoot] returns never suggest
    disabling Open-Enhanced: a candidate from the rule layer or from the
    knowledge base that matches the filter terms is absent, and then the
    output reaffirms that Open-Enhanced stays enabled; a retained candidate
    that mentions Open-Enhanced carries the note; nothing else is
    emitted.  The second part ties the candidates to the knowledge base:
    the answer it gives is a candidate. *)
Theorem recommendations_keep_open_enhanced :
  (forall nid ssid client desc mc (self self' : Troubleshooter W) r,
      troubleshoot nid ssid client desc mc self = (Return r, self') ->
      Forall (fun rec => suggests_disabling rec = false) (recommendations r)
      /\ exists candidates,
           candidates_of r (build_network_data nid ssid client desc) candidates
           /\ safely_filtered candidates (recommendations r))
  /\ (forall first rest nd (self : Troubleshooter W) tc w1 kr w2 a,
        let primary_issue := max_from first rest in
        get_topic_content
          (default "troubleshooting_1"
             (topic_mapping !! issue_subtype primary_issue))
          (world self) = (Return tc, w1) ->
        query (kb_question primary_issue) w1 = (Return kr, w2) ->
        answer kr = Some a -> str_truthy a = true ->
        exists refs recs self',
          _get_recommendations (first :: rest) nd self
          = (Return (refs, recs), self')
          /\ safely_filtered
               (rule_recommendations primary_issue (is_open_enhanced nd) ++ [ a ])
               recs).
Proof.
  split.
  - intros nid ssid client desc mc self self' r H.
    apply troubleshoot_inv in H.
    destruct H as (l & refs & recs & s1 & s2 & _ & Hrec & ->).
    apply get_recommendations_inv in Hrec.
    assert (Hex : exists candidates,
               candidates_of
                 (TroubleshootingResult_init l
                    (_calculate_confidence l
                       (build_network_data nid ssid client desc))
                    recs refs (Some (build_network_data nid ssid client desc)))
                 (build_network_data nid ssid client desc) candidates
               /\ safely_filtered candidates recs).
    { unfold candidates_of. simpl issues. destruct l as [|first rest].
      - subst recs. exists no_issue_guidance.
        split; [reflexivity|apply no_issue_guidance_filtered].
      - destruct Hrec as (kb & Hkb & ->).
        assert (Hrule' := rule_recommendations_safe (max_from first rest)
                            (is_open_enhanced (build_network_data nid ssid client desc))).
        destruct Hkb as [->|(a & _ & ->)].
        + eexists. split; [exists []; split; [now left|reflexivity]|].
          apply (filtered_candidates _ [] Hrule').
        + eexists. split; [exists [a]; split; [right; now exists a|reflexivity]|].
          apply (filtered_candidates _ [a] Hrule'). }
    simpl recommendations. split; [|exact Hex].
    destruct Hex as (c & _ & Hs & _). exact Hs.
  - intros first rest nd self tc w1 kr w2 a primary_issue Htc Hq Ha Ht.
    destruct (get_recommendations_kb_answer first rest nd self tc w1 kr w2 a
                Htc Hq Ha Ht) as (refs & self' & E).
    eexists. eexists. eexists. split; [exact E|].
    apply (filtered_candidates _ [a]). apply rule_recommendations_safe.
Qed.

End SafetyTheorem.

(** ** The fallback text analysis *)

Section Fallback.
Context {W : Type} `{KB : KnowledgeBase W}.

(** C2.  For the description of scenario B the text analysis finds the
    client-specific connection failure (82), an SSID-specific issue (75)
    and the Mac-specific compatibility issue (50), without boost; but
    [_analyze_issue_description] returns the list alone where
    [troubleshoot] unpacks a pair, so the call raises and never
    completes. *)
Theorem fallback_scenario_raises :
  _analyze_issue_description (Some macbook_description)
  = Return
      [ plain_issue "connectivity" "client_specific_connection_failure" 82
          "Specific clients are unable to connect while others may be connecting successfully"
          [ "clients"; "ssid" ];
        plain_issue "connectivity" "ssid_specific_issue" 75
          "Issue specifically affects the 'officewifi' SSID" [ "ssid" ];
        plain_issue "compatibility" "mac_specific_issue" 50
          "Issue may be specific to Mac devices" [ "clients" ] ]
  /\ (forall nid (self : Troubleshooter W),
        returns (fst (troubleshoot nid None None (Some macbook_description)
                        None self)) = false)
  /\ (forall nid (w : W),
        troubleshoot nid None None (Some macbook_description) None
          {| world := w; _kb_initialized := true |}
        = (Raise (WifiTroubleshootingError
                    "Unexpected error during WiFi troubleshooting: too many values to unpack (expected 2)"),
           {| world := w; _kb_initialized := true |})).
Proof.
  split; [vm_compute; reflexivity|]. split.
  - intros nid self. unfold troubleshoot. unfold bind at 1.
    destruct (if negb (_kb_initialized self) then _ else _) as [[[]|e0] s1];
      [|reflexivity].
    reflexivity.
  - intros nid w. reflexivity.
Qed.

End Fallback.

(** ** Validation stage *)

Section ValidationStage.
Context {W : Type}.


End ValidationStage.

(** ** Required PMF *)

Section RequiredPmf.
Context {W : Type} `{KB : KnowledgeBase W}.

(** C3.  For an enabled SSID with PMF required and a description in
    client-compatibility language, the SSID check does not return the
    [pmf_required_compatibility] issue: the call of [WifiIssue] passes the
    keyword [details], which [WifiIssue.__init__] does not accept, so the
    check raises [TypeError] and [troubleshoot] does not complete. *)
Theorem pmf_required_check_raises
    nid ssid client desc mc (self : Troubleshooter W) :
  pmf_required_snapshot (build_network_data nid ssid client desc) ->
  _check_ssid_issues (build_network_data nid ssid client desc)
  = Raise details_keyword_error
  /\ returns (fst (troubleshoot nid ssid client desc mc self)) = false.
Proof.
  intros H. apply check_ssid_issues_pmf_raises in H. split; [exact H|].
  now destruct (troubleshoot_ssid_check_raises nid ssid client desc mc self
                  _ H).
Qed.

(** Whenever the structured checks find nothing and a description is
    given, the fallback analysis makes [troubleshoot] raise: the list it
    returns is unpacked into two targets. *)
Lemma fallback_never_returns nid ssid client desc (self : Troubleshooter W) :
  _check_ssid_issues (build_network_data nid ssid client desc) = Return [] ->
  _check_client_issues (build_network_data nid ssid client desc) = Return [] ->
  opt_str_truthy desc = true ->
  returns (fst (troubleshoot nid ssid client desc None self)) = false.
Proof.
  intros Hs Hc Hd.
  destruct (troubleshoot nid ssid client desc None self) as [[r|e] s'] eqn:E;
    [|reflexivity].
  exfalso. unfold troubleshoot in E.
  apply bind_inv in E as ([] & s0 & _ & E).
  unfold try_except in E.
  match type of E with context [match ?b s0 with _ => _ end] =>
    destruct (b s0) as [[r0|e] s9] eqn:Hbody end.
  2:{ destruct e; discriminate E. }
  clear E. cbv zeta in Hbody.
  fold (build_network_data nid ssid client desc) in Hbody.
  unfold lift in Hbody. rewrite Hs, Hc in Hbody.
  erewrite !bind_Return in Hbody by reflexivity.
  simpl in Hbody. rewrite Hd in Hbody. simpl in Hbody.
  apply bind_inv in Hbody as (x & s1 & Hx & _).
  apply bind_inv in Hx as (result & sa & _ & Hx).
  apply bind_inv in Hx as ([a b] & sb & _ & Hx).
  discriminate Hx.
Qed.

End RequiredPmf.

(** ** Sample runs *)

Lemma primary_issue_is_first_maximum_witness :
  primary_issue
    (TroubleshootingResult_init
       [ plain_issue "connectivity" "ssid_not_broadcasting" 80 "a" [];
         plain_issue "configuration" "no_wireless_aps" 90 "b" [];
         plain_issue "configuration" "ssid_disabled" 90 "c" [] ]
       50 [] [] None)
  = Some (plain_issue "configuration" "no_wireless_aps" 90 "b" []).
Proof.
  destruct (proj2 (primary_issue_is_first_maximum 50 [] [] None)
              [ plain_issue "connectivity" "ssid_not_broadcasting" 80 "a" [];
                plain_issue "configuration" "no_wireless_aps" 90 "b" [];
                plain_issue "configuration" "ssid_disabled" 90 "c" [] ]
              ltac:(discriminate))
    as (k & p & Hp & _).
  reflexivity.
Defined.


Lemma pmf_required_check_raises_witness :
  _check_ssid_issues
    (build_network_data "N1" (Some pmf_ssid) None
       (Some "Older devices can't connect"))
  = Raise details_keyword_error
  /\ returns
       (fst (troubleshoot (KB := unsafe_kb) "N1" (Some pmf_ssid) None
               (Some "Older devices can't connect") None ready)) = false.
Proof.
  apply (pmf_required_check_raises (KB := unsafe_kb)).
  split; [reflexivity|]. split; [|vm_compute; reflexivity].
  eexists. split; reflexivity.
Defined.

Lemma confidence_formula_witness :
  exists r self',
    troubleshoot (KB := unsafe_kb) "N1" (Some disabled_ssid) None None None
      ready = (Return r, self')
    /\ exists max_issue_severity,
         In max_issue_severity (map severity (issues r))
         /\ Forall (fun i => severity i <= max_issue_severity) (issues r)
         /\ confidence r
            = Z.max 0
                (Z.min 100
                   (py_round
                      ((6 # 10) * inject_Z max_issue_severity
                       + (4 # 10)
                         * inject_Z (data_completeness true false false)))).
Proof.
  eexists. eexists.
  refine ((fun E => conj E
             (proj1 (confidence_formula (KB := unsafe_kb) "N1"
                       (Some disabled_ssid) None None None ready _ _ E) _)) _).
  2: (vm_compute; reflexivity).
  discriminate.
Defined.

Lemma recommendations_keep_open_enhanced_witness :
  exists r self',
    troubleshoot (KB := unsafe_kb) "N1" (Some disabled_ssid) None None None
      ready = (Return r, self')
    /\ Forall (fun rec => suggests_disabling rec = false) (recommendations r).
Proof.
  eexists. eexists.
  refine ((fun E => conj E
             (proj1
                (proj1 (recommendations_keep_open_enhanced (KB := unsafe_kb))
                   "N1" (Some disabled_ssid) None None None ready _ _ E))) _).
  vm_compute. reflexivity.
Defined.

(** On severities outside the rule layer [_calculate_confidence]
    truncates where [round] would round up. *)
Remark calculate_confidence_truncates :
  _calculate_confidence [ plain_issue "x" "y" 3 "z" [] ]
    (build_network_data "N1" None None None) = 1
  /\ py_round ((6 # 10) * inject_Z 3 + (4 # 10) * inject_Z 0) = 2.
Proof. split; reflexivity. Qed.

End WifiProperties.
(** * Properties of the spectrum data model *)

Module SpectrumProperties.
Import Spectrum SpectrumMethods SpectrumSpec RFProperties.

(** ** The collection window *)

Lemma window_ok_add sd dp :
  window_ok sd -> 0 < timestamp dp -> window_ok (add_data_point sd dp).
Proof.
  unfold window_ok, add_data_point. cbn [data_points start_time end_time].
  intros H Hdp.
  destruct (data_points sd) as [|p ps] eqn:E.
  - destruct H as [-> ->]. simpl.
    replace (0 <? timestamp dp) with true by (symmetry; apply Z.ltb_lt; lia).
    split; [lia|]. split; [exists dp; split; [now left|reflexivity]|].
    split; [exists dp; split; [now left|reflexivity]|].
    constructor; [lia|constructor].
  - destruct H as (Hpos & (d1 & Hin1 & Hs) & (d2 & Hin2 & He) & Hall).
    change ((p :: ps) ++ [dp]) with (p :: (ps ++ [dp])).
    assert (Hz : (start_time sd =? 0) = false) by (apply Z.eqb_neq; lia).
    rewrite Hz. cbn [orb].
    assert (Hin : forall d, In d (p :: ps) -> In d (p :: ps ++ [dp])).
    { intros d Hd. change (In d ((p :: ps) ++ [dp])).
      apply in_or_app. now left. }
    assert (Hlast : In dp (p :: ps ++ [dp])).
    { change (In dp ((p :: ps) ++ [dp])). apply in_or_app. right. now left. }
    destruct (timestamp dp <? start_time sd) eqn:E1;
      destruct (end_time sd <? timestamp dp) eqn:E2;
      try apply Z.ltb_lt in E1; try apply Z.ltb_ge in E1;
      try apply Z.ltb_lt in E2; try apply Z.ltb_ge in E2.
    all: split; [lia|].
    all: split; [first [exists dp; split; [exact Hlast|reflexivity]
                       |exists d1; split; [now apply Hin|exact Hs]]|].
    all: split; [first [exists dp; split; [exact Hlast|reflexivity]
                       |exists d2; split; [now apply Hin|exact He]]|].
    all: change (p :: ps ++ [dp]) with ((p :: ps) ++ [dp]).
    all: apply Forall_app; split;
      [eapply List.Forall_impl; [|exact Hall]; cbv beta; intros; lia
      |constructor; [lia|constructor]].
Qed.

Lemma add_data_point_points sd dp :
  data_points (add_data_point sd dp) = data_points sd ++ [dp].
Proof. reflexivity. Qed.

Lemma fold_add_points pts sd :
  data_points (fold_left add_data_point pts sd) = data_points sd ++ pts.
Proof.
  revert sd. induction pts as [|dp pts IH]; intros sd; simpl.
  - now rewrite app_nil_r.
  - rewrite IH, add_data_point_points, <- app_assoc. reflexivity.
Qed.

Lemma fold_add_window pts sd :
  window_ok sd -> Forall (fun dp => 0 < timestamp dp) pts ->
  window_ok (fold_left add_data_point pts sd).
Proof.
  revert sd. induction pts as [|dp pts IH]; intros sd Hsd Hall; simpl.
  - exact Hsd.
  - inversion Hall; subst. apply IH; [now apply window_ok_add|assumption].
Qed.

(** X1.  Readings with positive timestamps added one by one to a fresh
    [SpectrumData] are kept in order, and the collection window is exact:
    [start_time] is the earliest and [end_time] the latest timestamp
    among them. *)
Theorem add_data_point_window
    (serial : string) (b : FrequencyBand) (ch : Z) (w : ChannelWidth)
    (pts : list SpectrumDataPoint) :
  pts <> [] -> Forall (fun dp => 0 < timestamp dp) pts ->
  let sd := fold_left add_data_point pts (SpectrumData_init serial b ch w) in
  data_points sd = pts
  /\ (exists dp, In dp pts /\ start_time sd = timestamp dp)
  /\ (exists dp, In dp pts /\ end_time sd = timestamp dp)
  /\ Forall (fun dp => start_time sd <= timestamp dp <= end_time sd) pts.
Proof.
  intros Hne Hall sd.
  assert (Hpts : data_points sd = pts) by (unfold sd; now rewrite fold_add_points).
  split; [exact Hpts|].
  assert (Hw : window_ok sd).
  { apply fold_add_window; [|exact Hall]. split; reflexivity. }
  unfold window_ok in Hw. rewrite Hpts in Hw.
  destruct pts as [|p ps]; [congruence|].
  destruct Hw as (_ & Hs & He & Hb). auto.
Qed.

(** The value 0 of [start_time] doubles as "not set": a reading stamped 0
    is forgotten by the next one. *)
Remark add_data_point_zero_timestamp :
  let sd :=
    fold_left add_data_point
      [ {| frequency := 2412; power := -90; utilization := 0; timestamp := 0 |};
        {| frequency := 2412; power := -90; utilization := 0; timestamp := 7 |} ]
      (SpectrumData_init "Q2XX-0001" BAND_2_4GHZ 1 WIDTH_20MHZ) in
  start_time sd = 7.
Proof. reflexivity. Qed.

(** ** The frequency range *)

Lemma float_min_from_spec best rest :
  let m := float_min_from best rest in
  In m (best :: rest) /\ Forall (fun x => (m <= x)%Q) (best :: rest).
Proof.
  revert best. induction rest as [|x rest IH]; intros best; cbn [float_min_from].
  - split; [now left|]. constructor; [apply Qle_refl|constructor].
  - destruct (Qltb x best) eqn:E.
    + apply Qltb_lt in E. destruct (IH x) as [Hin Hall]. split.
      * right. exact Hin.
      * inversion Hall as [|? ? Hx Hrest]; subst.
        constructor; [|constructor; assumption].
        eapply Qle_trans; [exact Hx|]. now apply Qlt_le_weak.
    + assert (Hle : (best <= x)%Q).
      { destruct (Qlt_le_dec x best) as [Hlt|Hle]; [|exact Hle].
        apply Qltb_lt in Hlt. congruence. }
      destruct (IH best) as [Hin Hall]. split.
      * destruct Hin as [<-|Hin]; [now left|right; now right].
      * inversion Hall as [|? ? Hb Hrest]; subst.
        constructor; [exact Hb|]. constructor; [|exact Hrest].
        eapply Qle_trans; [exact Hb|exact Hle].
Qed.

Lemma float_max_from_spec best rest :
  let m := float_max_from best rest in
  In m (best :: rest) /\ Forall (fun x => (x <= m)%Q) (best :: rest).
Proof.
  revert best. induction rest as [|x rest IH]; intros best; cbn [float_max_from].
  - split; [now left|]. constructor; [apply Qle_refl|constructor].
  - destruct (Qltb best x) eqn:E.
    + apply Qltb_lt in E. destruct (IH x) as [Hin Hall]. split.
      * right. exact Hin.
      * inversion Hall as [|? ? Hx Hrest]; subst.
        constructor; [|constructor; assumption].
        eapply Qle_trans; [|exact Hx]. now apply Qlt_le_weak.
    + assert (Hle : (x <= best)%Q).
      { destruct (Qlt_le_dec best x) as [Hlt|Hle]; [|exact Hle].
        apply Qltb_lt in Hlt. congruence. }
      destruct (IH best) as [Hin Hall]. split.
      * destruct Hin as [<-|Hin]; [now left|right; now right].
      * inversion Hall as [|? ? Hb Hrest]; subst.
        constructor; [exact Hb|]. constructor; [|exact Hrest].
        eapply Qle_trans; [exact Hle|exact Hb].
Qed.

(** X2.  [get_frequency_range] returns [(0, 0)] without readings;
    otherwise both bounds are frequencies of readings and every reading
    lies between them. *)
Theorem frequency_range_spec (sd : SpectrumData) :
  (data_points sd = [] -> get_frequency_range sd = (0, 0)%Q)
  /\ (data_points sd <> [] ->
      (exists dp, In dp (data_points sd)
                  /\ fst (get_frequency_range sd) = frequency dp)
      /\ (exists dp, In dp (data_points sd)
                     /\ snd (get_frequency_range sd) = frequency dp)
      /\ Forall (fun dp =>
                   (fst (get_frequency_range sd) <= frequency dp)%Q
                   /\ (frequency dp <= snd (get_frequency_range sd))%Q)
           (data_points sd)).
Proof.
  unfold get_frequency_range. split.
  - intros ->. reflexivity.
  - intros Hne. destruct (data_points sd) as [|p ps] eqn:E; [congruence|].
    cbn [map fst snd].
    destruct (float_min_from_spec (frequency p) (map frequency ps)) as [Hi1 Ha1].
    destruct (float_max_from_spec (frequency p) (map frequency ps)) as [Hi2 Ha2].
    change (frequency p :: map frequency ps) with (map frequency (p :: ps))
      in Hi1, Ha1, Hi2, Ha2.
    apply in_map_iff in Hi1 as (d1 & Hd1 & Hin1).
    apply in_map_iff in Hi2 as (d2 & Hd2 & Hin2).
    split; [exists d1; split; [exact Hin1|now symmetry]|].
    split; [exists d2; split; [exact Hin2|now symmetry]|].
    rewrite List.Forall_forall in Ha1, Ha2. apply List.Forall_forall.
    intros dp Hdp. split; [apply Ha1|apply Ha2]; now apply in_map.
Qed.

End SpectrumProperties.

(** * Further properties of the spectrum analyzer *)

Module AnalyzerProperties.
Import Spectrum Analyzer RFSpec AnalyzerSpec RFProperties.

(** ** The Bluetooth and the radar rule *)





(** ** Sources and bands *)

(** X5.  The interference sources follow the band: microwave and
    Bluetooth sources at 2.4 GHz only, a radar source at 5 GHz only,
    none at 6 GHz; no type is reported twice, microwave comes before
    Bluetooth, and there are at most two sources. *)
Theorem interference_by_band (sd : SpectrumData) (nf : Q) :
  let sources := _identify_interference sd nf in
  (forall s, In s sources ->
     match band sd with
     | BAND_2_4GHZ => type s = "microwave" \/ type s = "bluetooth"
     | BAND_5GHZ => type s = "radar"
     | BAND_6GHZ => False
     end)
  /\ (exists keep,
        map type sources
        = List.filter keep
            match band sd with
            | BAND_2_4GHZ => [ "microwave"; "bluetooth" ]
            | BAND_5GHZ => [ "radar" ]
            | BAND_6GHZ => []
            end)
  /\ len sources <= 2.
Proof.
  cbv zeta. unfold _identify_interference.
  destruct (band sd); rewrite app_nil_l.
  - rewrite check_2_4ghz_unfold.
    destruct (5 <? _) eqn:E1; destruct (10 <? _) eqn:E2; cbn [app].
    + split; [intros s [<-|[<-|[]]]; auto|].
      split; [exists (fun _ => true); reflexivity|]. unfold len. simpl. lia.
    + split; [intros s [<-|[]]; auto|].
      split; [exists (fun t => String.eqb t "microwave"); reflexivity|].
      unfold len. simpl. lia.
    + split; [intros s [<-|[]]; auto|].
      split; [exists (fun t => String.eqb t "bluetooth"); reflexivity|].
      unfold len. simpl. lia.
    + split; [intros s []|].
      split; [exists (fun _ => false); reflexivity|]. unfold len. simpl. lia.
  - rewrite check_5ghz_unfold. destruct (3 <? _) eqn:E.
    + split; [intros s [<-|[]]; auto|].
      split; [exists (fun _ => true); reflexivity|]. unfold len. simpl. lia.
    + split; [intros s []|].
      split; [exists (fun _ => false); reflexivity|]. unfold len. simpl. lia.
  - split; [intros s []|].
    split; [exists (fun _ => true); reflexivity|]. unfold len. simpl. lia.
Qed.

(** ** Channel quality *)

Lemma py_int_third n : 0 <= n -> 0 <= py_int (inject_Z n / 3).
Proof.
  intros H. unfold py_int. apply Z.quot_pos; [|lia].
  unfold Qdiv, Qmult, Qinv, inject_Z. simpl. lia.
Qed.

Lemma deduction_bounds (s : InterferenceSource) :
  0 <= impact_level s ->
  0 <= Z.min 30 (py_int (inject_Z (impact_level s) / 3)) <= 30.
Proof. intros H. pose proof (py_int_third _ H). lia. Qed.

(** X6.  One more interference source, of an impact level in [0,100],
    never raises the channel quality, and lowers it by 30 points at
    most. *)
Theorem interference_lowers_quality
    (sd : SpectrumData) (nf : Q) (sources : list InterferenceSource)
    (s : InterferenceSource) :
  0 <= impact_level s <= 100 ->
  _evaluate_channel_quality sd nf (sources ++ [ s ])
  <= _evaluate_channel_quality sd nf sources
  /\ _evaluate_channel_quality sd nf sources - 30
     <= _evaluate_channel_quality sd nf (sources ++ [ s ]).
Proof.
  intros H. unfold _evaluate_channel_quality. cbv zeta.
  rewrite fold_left_app. cbn [fold_left].
  pose proof (deduction_bounds s (proj1 H)). lia.
Qed.

(** ** Recommendations *)

Lemma fold_recommendations_In sources acc rec :
  In rec acc ->
  In rec
    (fold_left
       (fun recommendations source =>
          if String.eqb (type source) "microwave" then
            recommendations ++
              [ "Microwave oven interference detected. Consider moving the AP further from kitchen areas or switching to 5 GHz operations." ]
          else if String.eqb (type source) "bluetooth" then
            recommendations ++
              [ "Bluetooth interference detected. Consider moving Bluetooth devices away from the AP or switching to 5 GHz operations." ]
          else if String.eqb (type source) "radar" then
            recommendations ++
              [ "Radar/DFS interference detected. Consider using a non-DFS channel if stable operation is required." ]
          else recommendations)
       sources acc).
Proof.
  revert acc. induction sources as [|x sources IH]; intros acc Hin; simpl.
  - exact Hin.
  - apply IH. repeat destruct (String.eqb _ _); try exact Hin;
      apply in_or_app; now left.
Qed.

Lemma fold_recommendations_source sources acc s rec :
  In s sources -> source_recommendation (type s) = Some rec ->
  In rec
    (fold_left
       (fun recommendations source =>
          if String.eqb (type source) "microwave" then
            recommendations ++
              [ "Microwave oven interference detected. Consider moving the AP further from kitchen areas or switching to 5 GHz operations." ]
          else if String.eqb (type source) "bluetooth" then
            recommendations ++
              [ "Bluetooth interference detected. Consider moving Bluetooth devices away from the AP or switching to 5 GHz operations." ]
          else if String.eqb (type source) "radar" then
            recommendations ++
              [ "Radar/DFS interference detected. Consider using a non-DFS channel if stable operation is required." ]
          else recommendations)
       sources acc).
Proof.
  revert acc. induction sources as [|x sources IH]; intros acc Hin Hrec.
  - destruct Hin.
  - destruct Hin as [->|Hin]; [|now apply IH].
    cbn [fold_left]. apply fold_recommendations_In.
    unfold source_recommendation in Hrec.
    repeat destruct (String.eqb (type s) _); try discriminate;
      injection Hrec as <-; apply in_or_app; right; now left.
Qed.

Lemma generate_recommendations_source fs sd nf sources q s rec :
  In s sources -> source_recommendation (type s) = Some rec ->
  In rec (_generate_recommendations fs sd nf sources q).
Proof.
  intros Hin Hrec. unfold _generate_recommendations. cbv zeta.
  destruct (channel_width sd); destruct (band sd);
    repeat match goal with
           | |- context [if ?b then _ else _] => destruct b
           end;
    repeat first
      [ apply fold_recommendations_source with (s := s); assumption
      | apply in_or_app; left ].
Qed.

Lemma analysis_sources fs ff sd a :
  analyze_spectrum fs ff sd = Return a ->
  interference_sources a = _identify_interference sd (noise_floor a)
  /\ spectrum_data a = sd
  /\ channel_quality a
     = _evaluate_channel_quality sd (noise_floor a) (interference_sources a)
  /\ recommendations a
     = _generate_recommendations fs sd (noise_floor a)
         (interference_sources a) (channel_quality a).
Proof.
  unfold analyze_spectrum. destruct (_calculate_noise_floor sd); [|discriminate].
  intros [= <-]. repeat split.
Qed.

Lemma identify_types sd nf s :
  In s (_identify_interference sd nf) ->
  type s = "microwave" \/ type s = "bluetooth" \/ type s = "radar".
Proof.
  unfold _identify_interference. destruct (band sd); rewrite app_nil_l.
  - rewrite check_2_4ghz_unfold. intros Hin.
    apply in_app_or in Hin as [Hin|Hin].
    + destruct (5 <? _); [|destruct Hin]. destruct Hin as [<-|[]]. auto.
    + destruct (10 <? _); [|destruct Hin]. destruct Hin as [<-|[]]. auto.
  - rewrite check_5ghz_unfold. destruct (3 <? _); intros Hin; [|destruct Hin].
    destruct Hin as [<-|[]]. auto.
  - intros [].
Qed.

(** X7.  In every analysis each reported interference source has its
    recommendation among the recommendations, and a channel quality
    below 40 puts the advice to change the channel first. *)
Theorem recommendations_cover_findings
    (float_str float_fmt1 : Q -> string)
    (sd : SpectrumData) (a : SpectrumAnalysis) :
  analyze_spectrum float_str float_fmt1 sd = Return a ->
  (forall s, In s (interference_sources a) ->
     exists rec, source_recommendation (type s) = Some rec
                 /\ In rec (recommendations a))
  /\ (channel_quality a < 40 ->
      exists rest,
        recommendations a
        = ("Consider changing the channel. Current channel "
           +:+ int_str (channel sd) +:+ " has poor quality ("
           +:+ int_str (channel_quality a) +:+ "/100).") :: rest).
Proof.
  intros Ha. destruct (analysis_sources _ _ _ _ Ha) as (Hs & Hsd & Hq & Hr).
  split.
  - intros s Hin.
    assert (Ht : type s = "microwave" \/ type s = "bluetooth"
                 \/ type s = "radar").
    { rewrite Hs in Hin. now apply identify_types in Hin. }
    assert (exists rec, source_recommendation (type s) = Some rec)
      as [rec Hrec].
    { destruct Ht as [Ht | [Ht | Ht]]; rewrite Ht; eexists; reflexivity. }
    exists rec. split; [exact Hrec|]. rewrite Hr.
    now apply generate_recommendations_source with (s := s).
  - intros Hlow. rewrite Hr. unfold _generate_recommendations. cbv zeta.
    replace (channel_quality a <? 40) with true
      by (symmetry; apply Z.ltb_lt; exact Hlow).
    rewrite app_nil_l.
    set (first := (_ +:+ _)).
    assert (Hfold : forall sources acc,
      exists rest,
        fold_left
          (fun recommendations source =>
             if String.eqb (type source) "microwave" then
               recommendations ++
                 [ "Microwave oven interference detected. Consider moving the AP further from kitchen areas or switching to 5 GHz operations." ]
             else if String.eqb (type source) "bluetooth" then
               recommendations ++
                 [ "Bluetooth interference detected. Consider moving Bluetooth devices away from the AP or switching to 5 GHz operations." ]
             else if String.eqb (type source) "radar" then
               recommendations ++
                 [ "Radar/DFS interference detected. Consider using a non-DFS channel if stable operation is required." ]
             else recommendations)
          sources (first :: acc) = first :: rest).
    { induction sources as [|x sources IH]; intros acc; cbn [fold_left].
      - eauto.
      - repeat destruct (String.eqb (type x) _); apply IH. }
    assert (Hstep2 : exists rest,
      fold_left
          (fun recommendations source =>
             if String.eqb (type source) "microwave" then
               recommendations ++
                 [ "Microwave oven interference detected. Consider moving the AP further from kitchen areas or switching to 5 GHz operations." ]
             else if String.eqb (type source) "bluetooth" then
               recommendations ++
                 [ "Bluetooth interference detected. Consider moving Bluetooth devices away from the AP or switching to 5 GHz operations." ]
             else if String.eqb (type source) "radar" then
               recommendations ++
                 [ "Radar/DFS interference detected. Consider using a non-DFS channel if stable operation is required." ]
             else recommendations)
          (interference_sources a)
          (if Qltb (-80) (noise_floor a)
           then [first] ++
                  [ "High noise floor detected (" +:+ float_str (noise_floor a)
                    +:+ " dBm). Consider identifying and removing nearby interference sources." ]
           else [first]) = first :: rest).
    { destruct (Qltb (-80) (noise_floor a)); apply Hfold. }
    destruct Hstep2 as [rest ->].
    destruct (channel_width sd); destruct (band sd);
      repeat destruct (channel_quality a <? _); cbn [app]; eauto.
Qed.

End AnalyzerProperties.

(** * Properties of the RF troubleshooter *)

Module RFTroubleshooterProperties.
Import Spectrum Analyzer RFSpec AnalyzerSpec RFProperties AnalyzerProperties.
Import RFTroubleshooter RFTroubleshooterSpec.

Lemma max_impact_from_spec best rest :
  let m := max_impact_from best rest in
  In m (best :: rest)
  /\ Forall (fun s => impact_level s <= impact_level m) (best :: rest).
Proof.
  revert best. induction rest as [|x rest IH]; intros best;
    cbn [max_impact_from].
  - split; [now left|]. constructor; [lia|constructor].
  - destruct (impact_level best <? impact_level x) eqn:E.
    + apply Z.ltb_lt in E. destruct (IH x) as [Hin Hall]. split.
      * right. exact Hin.
      * inversion Hall as [|? ? Hx Hrest]; subst.
        constructor; [lia|]. constructor; assumption.
    + apply Z.ltb_ge in E. destruct (IH best) as [Hin Hall]. split.
      * destruct Hin as [<-|Hin]; [now left|right; now right].
      * inversion Hall as [|? ? Hb Hrest]; subst.
        constructor; [exact Hb|]. constructor; [lia|exact Hrest].
Qed.

Section Facts.

Variables (float_str float_fmt1 : Q -> string).
Context {W : Type} `{KB : KnowledgeBase W}.

Lemma identify_of_type a first rest :
  interference_sources a = first :: rest ->
  (type (max_impact_from first rest) = "microwave"
   \/ type (max_impact_from first rest) = "bluetooth"
   \/ type (max_impact_from first rest) = "radar") ->
  fst (_identify_issue_type float_str a)
  = type (max_impact_from first rest) +:+ "_interference".
Proof.
  intros Hs Ht. unfold _identify_issue_type. rewrite Hs.
  destruct Ht as [Ht | [Ht | Ht]]; rewrite Ht; reflexivity.
Qed.


(** ** Confidence *)

Lemma int_sum_acc l a : fold_left Z.add l a = a + int_sum l.
Proof.
  unfold int_sum. revert a. induction l as [|x l IH]; intros a; simpl.
  - lia.
  - rewrite IH, (IH (0 + x)). lia.
Qed.

Lemma int_sum_between lo hi l :
  Forall (fun x => lo <= x <= hi) l ->
  len l * lo <= int_sum l <= len l * hi.
Proof.
  induction 1 as [|x l Hx _ IH].
  - change (len []) with 0. change (int_sum []) with 0. lia.
  - unfold int_sum. cbn [fold_left]. rewrite int_sum_acc, len_cons. lia.
Qed.

Lemma int_mean_between lo hi l :
  l <> [] -> Forall (fun x => lo <= x <= hi) l ->
  lo <= int_sum l / len l <= hi.
Proof.
  intros Hne Hall.
  assert (0 < len l).
  { destruct l; [congruence|]. rewrite len_cons.
    pose proof (len_nonneg l). lia. }
  pose proof (int_sum_between lo hi l Hall).
  split.
  - apply Z.div_le_lower_bound; lia.
  - apply Z.div_le_upper_bound; lia.
Qed.

Lemma identify_confidences sd nf :
  Forall (fun c => 65 <= c <= 80)
    (map Spectrum.confidence (_identify_interference sd nf)).
Proof.
  unfold _identify_interference. destruct (band sd); rewrite app_nil_l.
  - rewrite check_2_4ghz_unfold.
    destruct (5 <? _); destruct (10 <? _); simpl;
      repeat constructor; lia.
  - rewrite check_5ghz_unfold. destruct (3 <? _); simpl;
      repeat constructor; lia.
  - constructor.
Qed.

(** X9.  The confidence of a diagnosis of an analysis of
    [analyze_spectrum] lies in [0,100]; with interference it is at least
    65; the share of the data points is [min(20, N // 10)]. *)
Theorem rf_confidence_in_range (sd : SpectrumData) (a : SpectrumAnalysis) :
  analyze_spectrum float_str float_fmt1 sd = Return a ->
  let issue_type := fst (_identify_issue_type float_str a) in
  let bonus := Z.min 20 (len (data_points sd) / 10) in
  0 <= _calculate_confidence a issue_type <= 100
  /\ (interference_sources a <> [] ->
      65 <= _calculate_confidence a issue_type)
  /\ (interference_sources a = [] ->
      _calculate_confidence a issue_type
      = Z.min 100 ((if channel_quality a <? 40
                    then 60 else channel_quality a) + bonus)).
Proof.
  intros Ha. cbv zeta.
  destruct (analysis_sources _ _ _ _ Ha) as (Hs & Hsd & Hq & _).
  assert (Hq' : 0 <= channel_quality a <= 100).
  { rewrite Hq. unfold _evaluate_channel_quality. lia. }
  assert (Hb : 0 <= len (data_points sd) / 10).
  { apply Z.div_pos; [apply len_nonneg|lia]. }
  unfold _calculate_confidence. cbv zeta. rewrite Hsd.
  destruct (interference_sources a) as [|first rest] eqn:E.
  - unfold _identify_issue_type. rewrite E.
    destruct (channel_quality a <? 40) eqn:E40; cbn [fst String.eqb truthy negb];
      (split; [|split; [congruence|intros _]]).
    + simpl. lia.
    + reflexivity.
    + simpl. lia.
    + reflexivity.
  - assert (Hty : type (max_impact_from first rest) = "microwave"
            \/ type (max_impact_from first rest) = "bluetooth"
            \/ type (max_impact_from first rest) = "radar").
    { destruct (max_impact_from_spec first rest) as [Hin _].
      rewrite Hs in Hin. now apply identify_types in Hin. }
    rewrite (identify_of_type a first rest E Hty).
    assert (Hne : (type (max_impact_from first rest) +:+ "_interference"
                   =? "normal_operation")%string = false).
    { destruct Hty as [Ht | [Ht | Ht]]; rewrite Ht; reflexivity. }
    rewrite Hne. cbn [truthy negb].
    assert (Hc : Forall (fun c => 65 <= c <= 80)
                   (map Spectrum.confidence (first :: rest))).
    { rewrite Hs. apply identify_confidences. }
    assert (Hm := int_mean_between 65 80
                    (map Spectrum.confidence (first :: rest))).
    specialize (Hm ltac:(discriminate) Hc).
    split; [lia|]. split; [intros _; lia|discriminate].
Qed.

(** ** Recommendations *)

Lemma unique_fold_NoDup l acc :
  NoDup acc ->
  NoDup (fold_left
           (fun unique rec =>
              if str_mem rec unique then unique else unique ++ [rec])
           l acc).
Proof.
  revert acc. induction l as [|x l IH]; intros acc Hacc; simpl.
  - exact Hacc.
  - apply IH. destruct (str_mem x acc) eqn:E; [exact Hacc|].
    apply NoDup_app. split; [exact Hacc|]. split; [|apply NoDup_singleton].
    intros y Hy Hin. apply list_elem_of_singleton in Hin. subst y.
    apply list_elem_of_In in Hy.
    apply WifiProperties.str_mem_In in Hy. congruence.
Qed.

Lemma unique_recommendations_NoDup l :
  NoDup (Wifi.unique_recommendations l).
Proof. apply unique_fold_NoDup. constructor. Qed.

End Facts.

(** ** Runs of the troubleshooter *)

Section Runs.

Variables (float_str float_fmt1 : Q -> string).
Context {W : Type} `{KB : KnowledgeBase W}.

Local Abbreviation T := (Wifi.Troubleshooter W).

(** The run of [_get_recommendations], call by call. *)
Lemma get_recommendations_run it a (self : T) :
  let topic := default "troubleshooting_1" (topic_mapping !! it) in
  let unique := Wifi.unique_recommendations in
  _get_recommendations it a self =
  match get_topic_content topic (Wifi.world self) with
  | (Raise (KnowledgeBaseError m), w1) =>
      (Return ([], unique (Spectrum.recommendations a)), with_world self w1)
  | (Raise e, w1) => (Raise e, with_world self w1)
  | (Return content, w1) =>
      let refs := default [] (Wifi.references content) in
      let recs := Spectrum.recommendations a ++ issue_recommendations it in
      match query (kb_question it) w1 with
      | (Raise (KnowledgeBaseError m), w2) =>
          (Return (refs, unique recs), with_world self w2)
      | (Raise e, w2) => (Raise e, with_world self w2)
      | (Return res, w2) =>
          (Return (refs ++ default [] (kb_references res),
                   unique (recs ++ default [] (kb_recommendations res))),
           with_world self w2)
      end
  end.
Proof.
  cbv zeta. unfold _get_recommendations, bind, frame, try_except, await,
    Wifi.on_world, update, ret, raise, with_world.
  cbn [Wifi.world Wifi._kb_initialized].
  destruct (get_topic_content _ (Wifi.world self)) as [[content|e] w1].
  - cbn [Wifi.world Wifi._kb_initialized].
    destruct (Wifi.references content) as [refs|]; cbn.
    + destruct (query _ w1) as [[res|e] w2]; cbn.
      * destruct (kb_recommendations res), (kb_references res); cbn;
          rewrite ?app_nil_r; reflexivity.
      * destruct e; reflexivity.
    + destruct (query _ w1) as [[res|e] w2]; cbn.
      * destruct (kb_recommendations res), (kb_references res); cbn;
          rewrite ?app_nil_r; reflexivity.
      * destruct e; reflexivity.
  - destruct e; reflexivity.
Qed.

(** What a run of [_get_recommendations] leaves: the flag is kept, and an
    exception is one of the knowledge base other than
    [KnowledgeBaseError]. *)
Lemma get_recommendations_outcome it a (self : T) :
  match _get_recommendations it a self with
  | (Return _, self') =>
      Wifi._kb_initialized self' = Wifi._kb_initialized self
  | (Raise e, self') =>
      Wifi._kb_initialized self' = Wifi._kb_initialized self
      /\ raised_by_kb KB e /\ forall m, e <> KnowledgeBaseError m
  end.
Proof.
  rewrite get_recommendations_run. cbv zeta.
  destruct (get_topic_content _ (Wifi.world self)) as [[content|e] w1] eqn:E1.
  - destruct (query _ w1) as [[res|e] w2] eqn:E2; [reflexivity|].
    assert (raised_by_kb KB e) by (right; eauto).
    destruct e; try (split; [reflexivity|split; [assumption|discriminate]]).
    reflexivity.
  - assert (raised_by_kb KB e) by (left; eauto).
    destruct e; try (split; [reflexivity|split; [assumption|discriminate]]).
    reflexivity.
Qed.

(** X10.  The recommendations of [_get_recommendations] hold no
    duplicate, keep every recommendation of the analyzer, and add only
    the recommendations of the issue type and of the knowledge base; when
    the topic content fails with [KnowledgeBaseError] they are the
    analyzer's own, de-duplicated, without references. *)
Theorem rf_recommendations_spec
    (issue_type : string) (a : SpectrumAnalysis) (self self' : T)
    (refs : list Wifi.Reference) (recs : list string) :
  _get_recommendations issue_type a self = (Return (refs, recs), self') ->
  NoDup recs
  /\ (forall rec, In rec (Spectrum.recommendations a) -> In rec recs)
  /\ (forall rec, In rec recs ->
        In rec (Spectrum.recommendations a)
        \/ In rec (issue_recommendations issue_type)
        \/ recommended_by_kb KB rec)
  /\ (forall m w',
        get_topic_content
          (default "troubleshooting_1" (topic_mapping !! issue_type))
          (Wifi.world self) = (Raise (KnowledgeBaseError m), w') ->
        refs = []
        /\ recs = Wifi.unique_recommendations (Spectrum.recommendations a)).
Proof.
  rewrite get_recommendations_run. cbv zeta.
  destruct (get_topic_content _ (Wifi.world self)) as [[content|e] w1] eqn:E1.
  - destruct (query _ w1) as [[res|e] w2] eqn:E2.
    + intros [= <- <- <-].
      split; [apply unique_recommendations_NoDup|].
      split; [|split; [|discriminate]].
      * intros rec Hin. apply WifiProperties.unique_recommendations_In.
        apply in_or_app. left. apply in_or_app. now left.
      * intros rec Hin. apply (proj1 (WifiProperties.unique_recommendations_In _ _)) in Hin.
        apply in_app_or in Hin as [Hin|Hin].
        -- apply in_app_or in Hin as [Hin|Hin]; auto.
        -- right. right.
           destruct (kb_recommendations res) as [l|] eqn:El; [|destruct Hin].
           exists (kb_question issue_type), w1, w2, res, l. auto.
    + destruct e; try discriminate.
      intros [= <- <- <-].
      split; [apply unique_recommendations_NoDup|].
      split; [|split; [|discriminate]].
      * intros rec Hin. apply WifiProperties.unique_recommendations_In.
        apply in_or_app. now left.
      * intros rec Hin. apply (proj1 (WifiProperties.unique_recommendations_In _ _)) in Hin.
        apply in_app_or in Hin as [Hin|Hin]; auto.
  - destruct e; try discriminate.
    intros [= <- <- <-].
    split; [apply unique_recommendations_NoDup|].
    split; [|split].
    + intros rec Hin. now apply WifiProperties.unique_recommendations_In.
    + intros rec Hin. apply (proj1 (WifiProperties.unique_recommendations_In _ _)) in Hin.
      auto.
    + intros m' w' _. split; reflexivity.
Qed.

(** The run of the [try] body of [troubleshoot]. *)
Lemma diagnose_run sd a (self : T) :
  analyze_spectrum float_str float_fmt1 sd = Return a ->
  diagnose float_str float_fmt1 sd self =
  match _get_recommendations (fst (_identify_issue_type float_str a)) a self
  with
  | (Return (refs, recs), self') =>
      (Return
         {| spectrum_analysis := a;
            issue_type := fst (_identify_issue_type float_str a);
            issue_description := snd (_identify_issue_type float_str a);
            confidence :=
              _calculate_confidence a (fst (_identify_issue_type float_str a));
            recommendations := recs;
            knowledge_references := refs |}, self')
  | (Raise e, self') => (Raise e, self')
  end.
Proof.
  intros Ha. unfold diagnose, bind, lift, ret. rewrite Ha.
  destruct (_identify_issue_type float_str a) as [it det]. cbn [fst snd].
  destruct (_get_recommendations it a self) as [[[refs recs]|e] self'];
    reflexivity.
Qed.

(** [troubleshoot] on an initialised troubleshooter when the analysis
    raises. *)
Lemma troubleshoot_analysis_raises sd e (self : T) :
  Wifi._kb_initialized self = true ->
  analyze_spectrum float_str float_fmt1 sd = Raise e ->
  exists msg,
    troubleshoot float_str float_fmt1 sd self
    = (Failed (RFTroubleshootingError msg), self).
Proof.
  intros Hinit He. unfold troubleshoot. rewrite Hinit. cbn [negb].
  unfold diagnose, bind, lift. rewrite He. destruct e; eauto.
Qed.

(** The outcomes of [troubleshoot] on an initialised troubleshooter when
    the analysis returns. *)
Lemma troubleshoot_cases sd a (self : T) :
  Wifi._kb_initialized self = true ->
  analyze_spectrum float_str float_fmt1 sd = Return a ->
  match troubleshoot float_str float_fmt1 sd self with
  | (Done r, self') =>
      Wifi._kb_initialized self' = true
      /\ spectrum_analysis r = a
      /\ issue_type r = fst (_identify_issue_type float_str a)
      /\ issue_description r = snd (_identify_issue_type float_str a)
      /\ confidence r = _calculate_confidence a (issue_type r)
      /\ _get_recommendations (issue_type r) a self
         = (Return (knowledge_references r, recommendations r), self')
  | (Failed (RFTroubleshootingError _), self') =>
      Wifi._kb_initialized self' = true
      /\ exists e, raised_by_kb KB e
                   /\ forall m, e <> KnowledgeBaseError m
  | (Failed (Uncaught _), _) => False
  end.
Proof.
  intros Hinit Ha.
  unfold troubleshoot. rewrite Hinit. cbn [negb].
  rewrite (diagnose_run sd a self Ha).
  pose proof (get_recommendations_outcome
                (fst (_identify_issue_type float_str a)) a self) as Hout.
  destruct (_get_recommendations _ a self) as [[[refs recs]|e] self'] eqn:Eg.
  - cbn. rewrite Hout, Hinit. repeat split. exact Eg.
  - destruct Hout as (Hflag & Hkb & Hne).
    destruct e; (split; [congruence|eauto]).
Qed.

Lemma troubleshoot_returns sd a (self : T) :
  Wifi._kb_initialized self = true ->
  analyze_spectrum float_str float_fmt1 sd = Return a ->
  kb_errors_only KB ->
  exists r self', troubleshoot float_str float_fmt1 sd self = (Done r, self').
Proof.
  intros Hinit Ha [Htopic Hquery].
  pose proof (troubleshoot_cases sd a self Hinit Ha) as H.
  destruct (troubleshoot float_str float_fmt1 sd self) as [[r|[msg|e]] self'].
  - eauto.
  - destruct H as (_ & e & [(t & w & w' & He)|(q & w & w' & He)] & Hne).
    + destruct (Htopic _ _ _ _ He) as [m ->]. now destruct (Hne m).
    + destruct (Hquery _ _ _ _ He) as [m ->]. now destruct (Hne m).
  - destruct H.
Qed.

(** X11.  On an initialised troubleshooter, for spectrum data whose
    analysis returns, [troubleshoot] returns the diagnosis of that
    analysis, or fails with [RFTroubleshootingError] because the knowledge
    base raised something else than [KnowledgeBaseError]; it lets no other
    exception through, keeps the troubleshooter initialised, and returns
    whenever the knowledge base fails with [KnowledgeBaseError] only. *)
Theorem rf_troubleshoot_outcome
    (sd : SpectrumData) (a : SpectrumAnalysis) (self : T) :
  Wifi._kb_initialized self = true ->
  analyze_spectrum float_str float_fmt1 sd = Return a ->
  match troubleshoot float_str float_fmt1 sd self with
  | (Done r, self') =>
      Wifi._kb_initialized self' = true
      /\ spectrum_analysis r = a
      /\ issue_type r = fst (_identify_issue_type float_str a)
      /\ issue_description r = snd (_identify_issue_type float_str a)
      /\ confidence r = _calculate_confidence a (issue_type r)
      /\ _get_recommendations (issue_type r) a self
         = (Return (knowledge_references r, recommendations r), self')
  | (Failed (RFTroubleshootingError _), self') =>
      Wifi._kb_initialized self' = true
      /\ (exists e, raised_by_kb KB e
                    /\ forall m, e <> KnowledgeBaseError m)
      /\ ~ kb_errors_only KB
  | (Failed (Uncaught _), _) => False
  end.
Proof.
  intros Hinit Ha.
  pose proof (troubleshoot_cases sd a self Hinit Ha) as H.
  destruct (troubleshoot float_str float_fmt1 sd self)
    as [[r|[msg|e]] self'] eqn:E; [exact H| |exact H].
  destruct H as (Hflag & Hex). split; [exact Hflag|]. split; [exact Hex|].
  intros Hkb.
  destruct (troubleshoot_returns sd a self Hinit Ha Hkb) as (r & s & Hr).
  congruence.
Qed.

(** ** Batches *)

Lemma batch_loop_run l : forall (L : list SpectrumData) results (self : T),
  Wifi._kb_initialized self = true ->
  (forall sd, In sd l -> In sd L) ->
  (forall k r, results !! k = Some r ->
     exists sd, In sd L /\ access_point_serial sd = k
                /\ analyze_spectrum float_str float_fmt1 sd
                   = Return (spectrum_analysis r)) ->
  exists results' self',
    batch_loop float_str float_fmt1 l results self = (Done results', self')
    /\ Wifi._kb_initialized self' = true
    /\ (forall k r, results' !! k = Some r ->
          exists sd, In sd L /\ access_point_serial sd = k
                     /\ analyze_spectrum float_str float_fmt1 sd
                        = Return (spectrum_analysis r))
    /\ (forall k, is_Some (results !! k) -> is_Some (results' !! k))
    /\ (kb_errors_only KB ->
        forall sd, In sd l ->
          returns (analyze_spectrum float_str float_fmt1 sd) = true ->
          is_Some (results' !! access_point_serial sd)).
Proof.
  induction l as [|sd l IH]; intros L results self Hinit HL Hres.
  - exists results, self. cbn [batch_loop].
    split; [reflexivity|]. split; [exact Hinit|]. split; [exact Hres|].
    split; [auto|]. intros _ sd [].
  - cbn [batch_loop].
    destruct (analyze_spectrum float_str float_fmt1 sd) as [a|e] eqn:Ha.
    + pose proof (troubleshoot_cases sd a self Hinit Ha) as Hcase.
      assert (Htotal : kb_errors_only KB ->
                exists r self',
                  troubleshoot float_str float_fmt1 sd self = (Done r, self'))
        by (now apply (troubleshoot_returns sd a)).
      destruct (troubleshoot float_str float_fmt1 sd self)
        as [[r|[msg|e]] self1].
      * destruct Hcase as (Hinit1 & Hr & _).
        destruct (IH L (<[access_point_serial sd := r]> results) self1)
          as (results' & self' & Hrun & Hinit' & Hres' & Hmono & Hall).
        -- exact Hinit1.
        -- intros x Hx. apply HL. now right.
        -- intros k r' Hk.
           destruct (decide (access_point_serial sd = k)) as [<-|Hne].
           ++ rewrite lookup_insert_eq in Hk. injection Hk as <-.
              exists sd. split; [apply HL; now left|]. rewrite Hr. auto.
           ++ rewrite lookup_insert_ne in Hk by exact Hne. now apply Hres.
        -- exists results', self'. split; [exact Hrun|].
           split; [exact Hinit'|]. split; [exact Hres'|]. split.
           ++ intros k Hk. apply Hmono.
              destruct (decide (access_point_serial sd = k)) as [<-|Hne].
              ** rewrite lookup_insert_eq. eauto.
              ** now rewrite lookup_insert_ne by exact Hne.
           ++ intros Hkb x [<-|Hx] Hret; [|now apply Hall].
              apply Hmono. rewrite lookup_insert_eq. eauto.
      * destruct Hcase as (Hinit1 & _).
        destruct (IH L results self1 Hinit1)
          as (results' & self' & Hrun & Hinit' & Hres' & Hmono & Hall).
        -- intros x Hx. apply HL. now right.
        -- exact Hres.
        -- exists results', self'. split; [exact Hrun|].
           split; [exact Hinit'|]. split; [exact Hres'|].
           split; [exact Hmono|].
           intros Hkb x [<-|Hx] Hret; [|now apply Hall].
           destruct (Htotal Hkb) as (r & s & Habs). discriminate.
      * destruct Hcase.
    + destruct (troubleshoot_analysis_raises sd e self Hinit Ha) as [msg ->].
      destruct (IH L results self Hinit)
        as (results' & self' & Hrun & Hinit' & Hres' & Hmono & Hall).
      * intros x Hx. apply HL. now right.
      * exact Hres.
      * exists results', self'. split; [exact Hrun|].
        split; [exact Hinit'|]. split; [exact Hres'|].
        split; [exact Hmono|].
        intros Hkb x [<-|Hx] Hret; [|now apply Hall].
        rewrite Ha in Hret. discriminate.
Qed.

(** X12.  On an initialised troubleshooter [batch_troubleshoot] never
    fails: an item whose diagnosis fails is skipped.  Every key of the
    result is the serial of an item of the batch, bound to a diagnosis of
    the analysis of such an item; when the knowledge base fails with
    [KnowledgeBaseError] only, the serial of every item whose analysis
    returns is a key. *)
Theorem rf_batch_never_fails (l : list SpectrumData) (self : T) :
  Wifi._kb_initialized self = true ->
  exists results self',
    batch_troubleshoot float_str float_fmt1 l self = (Done results, self')
    /\ (forall k r, results !! k = Some r ->
          exists sd, In sd l /\ access_point_serial sd = k
                     /\ analyze_spectrum float_str float_fmt1 sd
                        = Return (spectrum_analysis r))
    /\ (kb_errors_only KB ->
        forall sd, In sd l ->
          returns (analyze_spectrum float_str float_fmt1 sd) = true ->
          is_Some (results !! access_point_serial sd)).
Proof.
  intros Hinit. unfold batch_troubleshoot. rewrite Hinit. cbn [negb].
  destruct (batch_loop_run l l ∅ self Hinit)
    as (results & self' & Hrun & _ & Hres & _ & Hall).
  - auto.
  - intros k r Hk. rewrite lookup_empty in Hk. discriminate.
  - exists results, self'. rewrite Hrun. split; [reflexivity|].
    split; [exact Hres|exact Hall].
Qed.

End Runs.

End RFTroubleshooterProperties.

(** * Properties of the WiFi knowledge base *)

Module WifiKBProperties.
Import Wifi WifiKB WifiKBSpec.

Lemma initialize_ready self : initialize self = (Return tt, ready_kb).
Proof. reflexivity. Qed.

(** X13.  Before [initialize] every method of the knowledge base raises
    [KnowledgeBaseError] "Knowledge base not initialized" and changes
    nothing; [initialize] never fails and installs the same content
    whatever the state, so that a second call changes nothing. *)
Theorem kb_requires_initialize (self : WifiKnowledgeBase) :
  (_initialized self = false ->
   (forall q, query q self = (Raise not_initialized_error, self))
   /\ get_categories self = (Raise not_initialized_error, self)
   /\ (forall c, get_topics c self = (Raise not_initialized_error, self))
   /\ (forall t, get_topic_content t self
                 = (Raise not_initialized_error, self)))
  /\ (exists kb, initialize self = (Return tt, kb)
                 /\ _initialized kb = true
                 /\ initialize kb = (Return tt, kb)).
Proof.
  split.
  - intros H. unfold query, get_categories, get_topics, get_topic_content.
    rewrite H. repeat split.
  - exists ready_kb. repeat split.
Qed.

(** ** Topics *)

(** X14.  On the initialised knowledge base [get_topic_content] returns
    for the six topics that have content, with the metadata of the topic
    and the stored content and references; for the four declared topics
    without content, among them [best_practices_3], and for every other
    id it raises [KnowledgeBaseError]. *)
Theorem topic_content_availability (t : string) :
  (In t topics_with_content ->
   exists d stored,
     get_topic_content t ready_kb = (Return d, ready_kb)
     /\ topic_id (metadata d) = t
     /\ dict_get t initial_knowledge_data = Some stored
     /\ topic_content d = content stored
     /\ topic_references d = content_references stored)
  /\ (In t declared_topics -> ~ In t topics_with_content ->
      get_topic_content t ready_kb
      = (Raise (KnowledgeBaseError
                  ("Error getting topic content: Content not found for topic: "
                   +:+ t)), ready_kb))
  /\ (~ In t declared_topics ->
      get_topic_content t ready_kb
      = (Raise (KnowledgeBaseError
                  ("Error getting topic content: Topic not found: " +:+ t)),
         ready_kb)).
Proof.
  split; [|split].
  - intros Hin. simpl in Hin.
    repeat destruct Hin as [<-|Hin]; try destruct Hin;
      eexists; eexists; (split; [reflexivity|]); repeat split.
  - intros Hin Hno. simpl in Hin.
    repeat destruct Hin as [<-|Hin]; try destruct Hin;
      try reflexivity; exfalso; apply Hno; simpl; tauto.
  - intros Hno.
    assert (Hne : forall x, In x declared_topics -> String.eqb x t = false).
    { intros x Hx. apply String.eqb_neq. intros ->. contradiction. }
    unfold get_topic_content, wrapped, all_topics.
    cbn -[String.eqb String.append].
    rewrite !Hne by (simpl; tauto). reflexivity.
Qed.

(** X15.  [get_topics] on the initialised knowledge base: without a
    category (or with an empty one) it lists the ten declared topics, in
    the order of the categories; for one of the four categories it lists
    the topics of that category; any other category is a
    [KnowledgeBaseError]. *)
Theorem get_topics_spec (c : string) :
  get_categories ready_kb = (Return initial_categories, ready_kb)
  /\ (exists ts, get_topics None ready_kb = (Return ts, ready_kb)
                 /\ get_topics (Some "") ready_kb = (Return ts, ready_kb)
                 /\ map topic_id ts = declared_topics)
  /\ (In c initial_categories ->
      exists ts, get_topics (Some c) ready_kb = (Return ts, ready_kb)
                 /\ ts <> []
                 /\ Forall (fun topic => topic_category topic = c) ts
                 /\ Forall (fun topic => In (topic_id topic) declared_topics) ts)
  /\ (c <> "" -> ~ In c initial_categories ->
      get_topics (Some c) ready_kb
      = (Raise (KnowledgeBaseError
                  ("Error getting topics: Unknown category: " +:+ c)),
         ready_kb)).
Proof.
  split; [reflexivity|]. split; [|split].
  - eexists. split; [reflexivity|]. split; reflexivity.
  - intros Hin. exists (default [] (dict_get c initial_topics)).
    simpl in Hin.
    repeat destruct Hin as [<-|Hin]; try destruct Hin;
      (split; [reflexivity|]); (split; [discriminate|]);
      (split;
       [repeat (constructor; [reflexivity|]); constructor
       |repeat (constructor;
                [apply WifiProperties.str_mem_In; reflexivity|]);
        constructor]).
  - intros Hne Hno. unfold get_topics. cbn [_initialized ready_kb negb].
    destruct c as [|ch c']; [congruence|]. cbn [str_truthy].
    assert (Hmem : str_mem (String ch c') (categories ready_kb) = false).
    { destruct (str_mem _ _) eqn:E; [|reflexivity].
      apply WifiProperties.str_mem_In in E. contradiction. }
    rewrite Hmem. reflexivity.
Qed.

(** ** Answers *)

Lemma matched_response_answer self t c a r :
  matched_response self t c a = Return r ->
  answer r = a /\ length (response_topics r) = 1%nat.
Proof.
  unfold matched_response. destruct (dict_get c (topics self)); [|discriminate].
  intros [= <-]. split; reflexivity.
Qed.

Lemma query_answer self q r self' :
  query q self = (Return r, self') ->
  self' = self /\ In (answer r) query_answers
  /\ (length (response_topics r) <= 1)%nat.
Proof.
  unfold query, not_initialized, raise, wrapped.
  destruct (_initialized self); [|discriminate]. cbn [negb].
  repeat match goal with
         | |- context [if ?b then _ else _] => destruct b
         end.
  all: try match goal with
       | |- context [matched_response ?s ?t ?c ?a] =>
           destruct (matched_response s t c a) as [r'|e] eqn:E;
             [apply matched_response_answer in E as [E1 E2]|discriminate]
       end.
  all: intros [= <- <-]; split; [reflexivity|].
  all: try (rewrite E1, E2; split; [simpl; tauto|lia]).
  split; [simpl; tauto|simpl; lia].
Qed.

(** X16.  Whatever the question, an answer of the knowledge base is one
    of its five fixed texts; none of them suggests disabling
    Open-Enhanced, so the troubleshooter passes the answer on unchanged;
    a query changes nothing, names at most one topic, fails with
    [KnowledgeBaseError] only, and never fails once the knowledge base is
    initialised. *)
Theorem query_answers_are_safe (self : WifiKnowledgeBase) (q : string) :
  (forall r self',
     query q self = (Return r, self') ->
     self' = self
     /\ In (answer r) query_answers
     /\ suggests_disabling (answer r) = false
     /\ answer_recommendation (answer r) = answer r
     /\ (length (response_topics r) <= 1)%nat)
  /\ (forall e self',
        query q self = (Raise e, self') ->
        self' = self /\ exists m, e = KnowledgeBaseError m)
  /\ (exists r, query q ready_kb = (Return r, ready_kb)).
Proof.
  split; [|split].
  - intros r self' Hq.
    destruct (query_answer _ _ _ _ Hq) as (-> & Hin & Hlen).
    split; [reflexivity|]. split; [exact Hin|].
    assert (Hsafe : suggests_disabling (answer r) = false).
    { simpl in Hin.
      destruct Hin as [<-|[<-|[<-|[<-|[<-|[]]]]]]; vm_compute; reflexivity. }
    split; [exact Hsafe|]. split; [|exact Hlen].
    unfold answer_recommendation. unfold suggests_disabling in Hsafe.
    now rewrite Hsafe.
  - unfold query, not_initialized, raise, wrapped.
    destruct (_initialized self); cbn [negb].
    + intros e self'.
      match goal with
      | |- context [match ?o with Return _ => _ | Raise _ => _ end] =>
          destruct o
      end; intros [= <- <-]; eauto.
    + intros e self' [= <- <-]. eauto.
  - unfold query, wrapped. cbn [_initialized ready_kb negb].
    repeat match goal with
           | |- context [if ?b then _ else _] => destruct b
           end; eexists; reflexivity.
Qed.

End WifiKBProperties.

(** * Further properties of the WiFi troubleshooter *)

Module WifiChecksProperties.
Import Analyzer Wifi WifiSpec WifiChecksSpec WifiProperties.

(** ** De-duplication *)

Lemma filter_twice {A} (f g : A -> bool) (l : list A) :
  List.filter f (List.filter g l) = List.filter (fun x => g x && f x) l.
Proof.
  induction l as [|x l IH]; simpl; [reflexivity|].
  destruct (g x); simpl; [destruct (f x)|]; now rewrite IH.
Qed.

Lemma unique_fold_filter n : forall l acc,
  (length l <= n)%nat ->
  fold_left
    (fun unique rec => if str_mem rec unique then unique else unique ++ [rec])
    l acc
  = acc ++ fold_left
             (fun unique rec =>
                if str_mem rec unique then unique else unique ++ [rec])
             (List.filter (fun y => negb (str_mem y acc)) l) [].
Proof.
  induction n as [|n IH]; intros l acc Hlen.
  - destruct l; [|simpl in Hlen; lia]. simpl. now rewrite app_nil_r.
  - destruct l as [|x l]; [simpl; now rewrite app_nil_r|].
    simpl in Hlen. cbn [fold_left List.filter].
    destruct (str_mem x acc) eqn:E; cbn [negb].
    + apply IH. lia.
    + cbn [fold_left str_mem existsb app].
      rewrite (IH l (acc ++ [x])) by lia.
      rewrite (IH (List.filter _ l) [x]).
      2:{ pose proof (List.filter_length_le
                        (fun y => negb (str_mem y acc)) l). lia. }
      rewrite <- app_assoc. f_equal. f_equal. f_equal.
      rewrite filter_twice. apply List.filter_ext. intros y.
      unfold str_mem. rewrite existsb_app. cbn [existsb].
      now rewrite !orb_false_r, negb_orb.
Qed.

Lemma unique_recommendations_cons x l :
  unique_recommendations (x :: l)
  = x :: unique_recommendations
           (List.filter (fun y => negb (String.eqb y x)) l).
Proof.
  unfold unique_recommendations. cbn [fold_left str_mem existsb app].
  rewrite (unique_fold_filter (length l) l [x]) by lia.
  cbn [app]. f_equal. f_equal. apply List.filter_ext. intros y.
  unfold str_mem. cbn [existsb]. now rewrite orb_false_r.
Qed.

Lemma unique_fold_NoDup_acc l acc :
  NoDup acc ->
  NoDup (fold_left
           (fun unique rec =>
              if str_mem rec unique then unique else unique ++ [rec])
           l acc).
Proof.
  revert acc. induction l as [|x l IH]; intros acc Hacc; simpl.
  - exact Hacc.
  - apply IH. destruct (str_mem x acc) eqn:E; [exact Hacc|].
    apply NoDup_app. split; [exact Hacc|]. split; [|apply NoDup_singleton].
    intros y Hy Hin. apply list_elem_of_singleton in Hin. subst y.
    apply list_elem_of_In in Hy. apply str_mem_In in Hy. congruence.
Qed.

Lemma unique_fold_NoDup_id l acc :
  NoDup (acc ++ l) ->
  fold_left
    (fun unique rec => if str_mem rec unique then unique else unique ++ [rec])
    l acc = acc ++ l.
Proof.
  revert acc. induction l as [|x l IH]; intros acc H; simpl.
  - now rewrite app_nil_r.
  - assert (Hx : str_mem x acc = false).
    { destruct (str_mem x acc) eqn:E; [|reflexivity].
      apply str_mem_In in E. apply NoDup_app in H as (_ & H & _).
      exfalso. apply (H x); [now apply list_elem_of_In|]. constructor. }
    rewrite Hx, IH, <- app_assoc; [reflexivity|].
    now rewrite <- app_assoc.
Qed.

(** X17.  The de-duplication loop of the two troubleshooters keeps the
    first occurrence of every recommendation, in order: the result has no
    duplicate and the same members, starts with the first item followed by
    the de-duplication of the other items that differ from it, and a list
    without duplicates is left as it is. *)
Theorem unique_recommendations_spec (l : list string) :
  NoDup (unique_recommendations l)
  /\ (forall x, In x (unique_recommendations l) <-> In x l)
  /\ (forall x l', l = x :: l' ->
        unique_recommendations l
        = x :: unique_recommendations
                 (List.filter (fun y => negb (String.eqb y x)) l'))
  /\ (NoDup l -> unique_recommendations l = l).
Proof.
  split; [apply unique_fold_NoDup_acc; constructor|].
  split; [intros x; apply unique_recommendations_In|].
  split.
  - intros x l' ->. apply unique_recommendations_cons.
  - intros H. unfold unique_recommendations.
    now rewrite unique_fold_NoDup_id.
Qed.

(** ** The checks on the data handed to [troubleshoot] *)

(** X18.  [_check_ssid_issues] in closed form.  A disabled SSID yields
    the single issue [ssid_disabled] of severity 90 and ends the check.
    On an enabled SSID the check raises [TypeError] as soon as a rule that
    passes [details] applies (required PMF or WPA3 with a description in
    client-compatibility language, or an SSID restricted to tagged access
    points); otherwise it returns [ssid_not_broadcasting] and
    [open_network_issues], each when its rule applies, and nothing
    else. *)
Theorem ssid_check_outcome (nd : NetworkData) :
  _check_ssid_issues nd =
  if negb (default true (enabled (ssid_data nd))) then
    Return [ ssid_disabled_issue ]
  else if details_rule_fires nd then Raise details_keyword_error
  else
    Return
      ((if negb (default true (broadcasting (ssid_data nd)))
        then [ not_broadcasting_issue ] else [])
       ++ (if open_network_mentioned nd then [ open_network_issue ] else [])).
Proof.
  unfold _check_ssid_issues, details_rule_fires, open_network_mentioned,
    pmf_required, restricted_to_tags, wpa3_only, client_issues_mentioned.
  cbv zeta.
  destruct (default true (enabled (ssid_data nd))); cbn [negb andb];
    [|reflexivity].
  set (mentioned := any_in client_issue_terms _).
  set (opened := str_in "open" _).
  destruct (negb (default true (broadcasting (ssid_data nd))));
    cbn [obind append_issue WifiIssue_init List.find app];
    (destruct (default false _); cbn [andb orb];
     [destruct mentioned; cbn [andb orb obind append_issue WifiIssue_init
                               List.find negb str_mem existsb
                               WifiIssue_parameters String.eqb Ascii.eqb
                               Bool.eqb app];
      try reflexivity|]);
    (destruct (truthy _); cbn [andb orb];
     [destruct (negb (default true (availableOnAllAps _)));
      cbn [andb orb obind append_issue WifiIssue_init
           List.find negb str_mem existsb
           WifiIssue_parameters String.eqb Ascii.eqb Bool.eqb app];
      try (destruct (bool_decide (authMode (ssid_data nd) = Some "open-enhanced"));
           reflexivity)|]);
    destruct (bool_decide (authMode (ssid_data nd) = Some "open-enhanced"));
    destruct (bool_decide (authMode (ssid_data nd) = Some "wpa3"));
    destruct (bool_decide (authMode (ssid_data nd) = Some "wpa3-enterprise"));
    destruct (bool_decide (authMode (ssid_data nd) = Some "open"));
    try destruct mentioned; destruct opened;
    reflexivity.
Qed.

End WifiChecksProperties.

(** * Sample runs of the further properties *)

Module ExtraWitnesses.
Import Spectrum Analyzer RFSpec ExtraSamples.

Lemma add_data_point_window_witness :
  let sd :=
    fold_left SpectrumMethods.add_data_point stamped_points
      (SpectrumMethods.SpectrumData_init "Q2XX-0001" BAND_2_4GHZ 6
         WIDTH_20MHZ) in
  data_points sd = stamped_points
  /\ (exists dp, In dp stamped_points /\ start_time sd = timestamp dp)
  /\ (exists dp, In dp stamped_points /\ end_time sd = timestamp dp)
  /\ Forall (fun dp => start_time sd <= timestamp dp <= end_time sd)
       stamped_points.
Proof.
  apply (SpectrumProperties.add_data_point_window
           "Q2XX-0001" BAND_2_4GHZ 6 WIDTH_20MHZ stamped_points).
  - discriminate.
  - repeat constructor.
Defined.

Lemma interference_lowers_quality_witness :
  _evaluate_channel_quality microwave_sample (-95) ([] ++ [ sample_source ])
  <= _evaluate_channel_quality microwave_sample (-95) []
  /\ _evaluate_channel_quality microwave_sample (-95) [] - 30
     <= _evaluate_channel_quality microwave_sample (-95)
          ([] ++ [ sample_source ]).
Proof.
  apply (AnalyzerProperties.interference_lowers_quality
           microwave_sample (-95) [] sample_source).
  simpl. lia.
Defined.

Lemma recommendations_cover_findings_witness :
  exists a,
    sample_analyze microwave_sample = Return a
    /\ (forall s, In s (interference_sources a) ->
          exists rec,
            AnalyzerSpec.source_recommendation (type s) = Some rec
            /\ In rec (recommendations a)).
Proof.
  eexists. split; [reflexivity|].
  apply (AnalyzerProperties.recommendations_cover_findings
           (fun _ => "") (fun _ => "") microwave_sample).
  reflexivity.
Defined.


Lemma rf_confidence_in_range_witness :
  exists a,
    sample_analyze microwave_sample = Return a
    /\ 0 <= RFTroubleshooter._calculate_confidence a
              (fst (RFTroubleshooter._identify_issue_type (fun _ => "") a))
       <= 100.
Proof.
  eexists. split; [reflexivity|].
  apply (RFTroubleshooterProperties.rf_confidence_in_range
           (fun _ => "") (fun _ => "") microwave_sample).
  reflexivity.
Defined.

(** The analysis of the microwave sample, diagnosed with the shipped
    knowledge base. *)
Lemma rf_recommendations_spec_witness :
  exists a refs recs self',
    sample_analyze microwave_sample = Return a
    /\ @RFTroubleshooter._get_recommendations _ WifiKB.rf_knowledge_base
         "microwave_interference" a WifiKBSpec.ready_troubleshooter
       = (Return (refs, recs), self')
    /\ NoDup recs
    /\ (forall rec, In rec (recommendations a) -> In rec recs).
Proof.
  eexists. eexists. eexists. eexists.
  split; [reflexivity|]. split; [vm_compute; reflexivity|].
  refine ((fun H => conj (proj1 H) (proj1 (proj2 H)))
            (@RFTroubleshooterProperties.rf_recommendations_spec
               _ WifiKB.rf_knowledge_base "microwave_interference" _
               WifiKBSpec.ready_troubleshooter _ _ _ _)).
  vm_compute. reflexivity.
Defined.

Lemma rf_troubleshoot_outcome_witness :
  exists a,
    sample_analyze microwave_sample = Return a
    /\ match @RFTroubleshooter.troubleshoot (fun _ => "") (fun _ => "")
               _ WifiKB.rf_knowledge_base microwave_sample
               WifiKBSpec.ready_troubleshooter with
       | (RFTroubleshooter.Done r, self') =>
           Wifi._kb_initialized self' = true
           /\ RFTroubleshooter.spectrum_analysis r = a
       | (RFTroubleshooter.Failed (RFTroubleshooter.RFTroubleshootingError _),
          self') => Wifi._kb_initialized self' = true
       | (RFTroubleshooter.Failed (RFTroubleshooter.Uncaught _), _) => False
       end.
Proof.
  eexists. split; [reflexivity|].
  pose proof (@RFTroubleshooterProperties.rf_troubleshoot_outcome
                (fun _ => "") (fun _ => "") _ WifiKB.rf_knowledge_base
                microwave_sample _ WifiKBSpec.ready_troubleshooter
                eq_refl eq_refl) as H.
  destruct (RFTroubleshooter.troubleshoot _ _ _ _) as [[r|[msg|e]] self'].
  - split; [apply H|apply H].
  - apply H.
  - exact H.
Defined.

Lemma rf_batch_never_fails_witness :
  exists results self',
    @RFTroubleshooter.batch_troubleshoot (fun _ => "") (fun _ => "")
      _ WifiKB.rf_knowledge_base scenario_batch
      WifiKBSpec.ready_troubleshooter
    = (RFTroubleshooter.Done results, self')
    /\ (forall k r, results !! k = Some r ->
          exists sd, In sd scenario_batch /\ access_point_serial sd = k
                     /\ sample_analyze sd
                        = Return (RFTroubleshooter.spectrum_analysis r)).
Proof.
  destruct (@RFTroubleshooterProperties.rf_batch_never_fails
              (fun _ => "") (fun _ => "") _ WifiKB.rf_knowledge_base
              scenario_batch WifiKBSpec.ready_troubleshooter eq_refl)
    as (results & self' & Hrun & Hres & _).
  exists results, self'. split; [exact Hrun|exact Hres].
Defined.

End ExtraWitnesses.
